(** * EEMT job orchestration: a shallow embedding of the web interface

    Embedded sources:
    - [web-interface/app.py]: [JobStatus], [JobManager] (job store,
      deletion, cancellation, retention) and the supervision loop
      [execute_containerized_workflow];
    - [web-interface/containers/workflow_manager.py]: the workflow
      generators (the reading of the container output and the exit-code
      tail), [stop_job_container], [cleanup_job_data] and the worker
      reconnect path [_monitor_worker_process];
    - [web-interface/cleanup_jobs.py]: [JobCleanupManager].

    Conventions.  The SQLite table [jobs] is a finite map from the primary
    key [id] to the row.  Wall-clock readings ([datetime.now()]) are
    integers supplied by the caller of each operation.  Python [float]
    values that reach the store are finite, so they are rationals; sizes in
    MB are rationals as well. *)

From Stdlib Require Import ZArith QArith String Ascii DecimalString.
From stdpp Require Import gmap strings list fin_maps sorting.
Close Scope Q_scope.
Open Scope string_scope.
Open Scope list_scope.

(** ** Python string methods used by the sources *)

Module Py.

(** [str.isspace] on the ASCII range: TAB..CR, FS..US and SPACE. *)
Definition is_space (c : ascii) : bool :=
  let n := nat_of_ascii c in
  ((9 <=? n)%nat && (n <=? 13)%nat) || ((28 <=? n)%nat && (n <=? 32)%nat).

Fixpoint lstrip (s : string) : string :=
  match s with
  | EmptyString => EmptyString
  | String c s' => if is_space c then lstrip s' else s
  end.

Fixpoint rstrip (s : string) : string :=
  match s with
  | EmptyString => EmptyString
  | String c s' =>
      match rstrip s' with
      | EmptyString => if is_space c then EmptyString else String c EmptyString
      | r => String c r
      end
  end.

(** [s.strip()] *)
Definition strip (s : string) : string := rstrip (lstrip s).

(** [s.startswith(p)] *)
Definition startswith (s p : string) : bool := String.prefix p s.

(** Scan of [s.replace(old, new)] for a non-empty [old]: [skip] counts the
    characters of a match that are still to be dropped. *)
Fixpoint replace_scan (old new : string) (skip : nat) (s : string) : string :=
  match s with
  | EmptyString => EmptyString
  | String c s' =>
      match skip with
      | S k => replace_scan old new k s'
      | O =>
          if String.prefix old s
          then new +:+ replace_scan old new (String.length old - 1) s'
          else String c (replace_scan old new 0 s')
      end
  end.

(** With an empty [old], Python inserts [new] around every character. *)
Fixpoint intersperse (new s : string) : string :=
  match s with
  | EmptyString => new
  | String c s' => new +:+ String c (intersperse new s')
  end.

(** [s.replace(old, new)] *)
Definition replace (s old new : string) : string :=
  match old with
  | EmptyString => intersperse new s
  | _ => replace_scan old new 0 s
  end.

(** [sub in s] *)
Fixpoint contains (sub s : string) : bool :=
  match s with
  | EmptyString => String.prefix sub EmptyString
  | String _ s' => String.prefix sub s || contains sub s'
  end.

(** [s.split(sep)[0]] for a non-empty [sep]: the text before the first
    occurrence of [sep], the whole of [s] when there is none. *)
Fixpoint split_head (sep s : string) : string :=
  match s with
  | EmptyString => EmptyString
  | String c s' => if String.prefix sep s then EmptyString else String c (split_head sep s')
  end.

(** [str(n)] for an [int]. *)
Definition str (n : Z) : string := NilZero.string_of_int (Z.to_int n).

(** [int(x)] for a finite [float]: truncation towards zero. *)
Definition int (x : Q) : Z := Z.quot (Qnum x) (Z.pos (Qden x)).

(** [x != y] on finite floats. *)
Definition ne (x y : Q) : bool := negb (Qeq_bool x y).

End Py.

Module PyText.

(** [s.endswith(suffix)]: some tail of [s] is [suffix]. *)
Fixpoint endswith (s suffix : string) : bool :=
  String.eqb s suffix
  || match s with
     | EmptyString => false
     | String _ s' => endswith s' suffix
     end.

(** [str.lower] on the ASCII range. *)
Definition lower_char (c : ascii) : ascii :=
  let n := nat_of_ascii c in
  if ((65 <=? n)%nat && (n <=? 90)%nat) then ascii_of_nat (n + 32) else c.

Fixpoint lower (s : string) : string :=
  match s with
  | EmptyString => EmptyString
  | String c s' => String (lower_char c) (lower s')
  end.

End PyText.

(** The search of [_execute_subprocess_workflow] for a run of digits,
    white space, a slash, white space and a run of digits, on ASCII text;
    both groups are read by [int] (runs within the length [int] reads). *)
Module PyRe.

Definition digit (c : ascii) : option Z :=
  let n := nat_of_ascii c in
  if ((48 <=? n)%nat && (n <=? 57)%nat) then Some (Z.of_nat n - 48)%Z else None.

(** The run of digits at the head of [s], read as a number after [num],
    and what follows it. *)
Fixpoint digits (s : string) (num : Z) : Z * string :=
  match s with
  | EmptyString => (num, EmptyString)
  | String c rest =>
      match digit c with
      | Some d => digits rest (10 * num + d)%Z
      | None => (num, s)
      end
  end.



End PyRe.

(** ** The job record ([init_database], [JobStatus]) *)

Inductive JobStatus : Set := PENDING | RUNNING | COMPLETED | FAILED.

#[global] Instance JobStatus_eq_dec : EqDecision JobStatus.
Proof. solve_decision. Defined.

(** The text stored in the [status] column. *)
Definition status_text (s : JobStatus) : string :=
  match s with
  | PENDING => "pending"
  | RUNNING => "running"
  | COMPLETED => "completed"
  | FAILED => "failed"
  end.

(** One row of the table [jobs]. *)
Record Job : Type := mkJob {
  id : string;
  workflow_type : string;
  status : JobStatus;
  created_at : Z;
  started_at : option Z;
  completed_at : option Z;
  parameters : string;
  dem_filename : string;
  error_message : option string;
  progress : Z
}.

(** SQL [COALESCE(column, value)]. *)
Definition COALESCE (column : option Z) (value : Z) : option Z :=
  match column with
  | Some v => Some v
  | None => Some value
  end.

(** ** JobManager: the store operations *)

(** [JobManager.create_job], with the fresh [uuid4] and the current time
    supplied by the caller.  [INSERT] on an existing primary key raises and
    leaves the table as it was. *)
Definition create_job (now : Z) (job_id workflow dem params : string)
    (jobs : gmap string Job) : option (gmap string Job) :=
  match jobs !! job_id with
  | Some _ => None
  | None =>
      Some (<[job_id := {| id := job_id; workflow_type := workflow; status := PENDING;
                           created_at := now; started_at := None; completed_at := None;
                           parameters := params; dem_filename := dem;
                           error_message := None; progress := 0 |}]> jobs)
  end.

(** The row written by one [UPDATE jobs SET ... WHERE id = ?] of
    [JobManager.update_status]; the six statements of the source are the six
    branches. *)
Definition update_row (current_time : Z) (new_status : JobStatus)
    (new_progress : option Z) (error : option string) (j : Job) : Job :=
  match new_status with
  | RUNNING =>
      match new_progress with
      | Some p =>
          {| id := id j; workflow_type := workflow_type j; status := new_status;
             created_at := created_at j;
             started_at := COALESCE (started_at j) current_time;
             completed_at := completed_at j; parameters := parameters j;
             dem_filename := dem_filename j; error_message := error; progress := p |}
      | None =>
          {| id := id j; workflow_type := workflow_type j; status := new_status;
             created_at := created_at j;
             started_at := COALESCE (started_at j) current_time;
             completed_at := completed_at j; parameters := parameters j;
             dem_filename := dem_filename j; error_message := error;
             progress := progress j |}
      end
  | COMPLETED | FAILED =>
      match new_progress with
      | Some p =>
          {| id := id j; workflow_type := workflow_type j; status := new_status;
             created_at := created_at j; started_at := started_at j;
             completed_at := Some current_time; parameters := parameters j;
             dem_filename := dem_filename j; error_message := error; progress := p |}
      | None =>
          {| id := id j; workflow_type := workflow_type j; status := new_status;
             created_at := created_at j; started_at := started_at j;
             completed_at := Some current_time; parameters := parameters j;
             dem_filename := dem_filename j; error_message := error;
             progress := progress j |}
      end
  | PENDING =>
      match new_progress with
      | Some p =>
          {| id := id j; workflow_type := workflow_type j; status := new_status;
             created_at := created_at j; started_at := started_at j;
             completed_at := completed_at j; parameters := parameters j;
             dem_filename := dem_filename j; error_message := error; progress := p |}
      | None =>
          {| id := id j; workflow_type := workflow_type j; status := new_status;
             created_at := created_at j; started_at := started_at j;
             completed_at := completed_at j; parameters := parameters j;
             dem_filename := dem_filename j; error_message := error;
             progress := progress j |}
      end
  end.

(** [JobManager.update_status]: the row with key [job_id], when there is
    one, is rewritten; no other row is touched.  This is the statement once
    its parameters are bound; the call with the binding of [progress] is
    [do_update_status] below. *)
Definition update_status (current_time : Z) (job_id : string) (new_status : JobStatus)
    (new_progress : option Z) (error : option string)
    (jobs : gmap string Job) : gmap string Job :=
  alter (update_row current_time new_status new_progress error) job_id jobs.

(** [JobManager.get_job] *)
Definition get_job (job_id : string) (jobs : gmap string Job) : option Job :=
  jobs !! job_id.

(** ** The state the service works on *)

(** The artifacts of a job on disk: [RESULTS_DIR / job_id],
    [RESULTS_DIR / f"{job_id}_results.zip"], [UPLOADS_DIR / name] and the
    workflow manager's [temp_dir / job_id]. *)
Inductive path : Type :=
  | ResultsDir (job_id : string)
  | ResultsZip (job_id : string)
  | UploadFile (name : string)
  | TempDir (job_id : string).

#[global] Instance path_eq_dec : EqDecision path.
Proof. solve_decision. Defined.

(** Directories are recorded by the sizes in bytes of the files below them
    (what [rglob('*')] visits), files by their size.  [faults] lists the
    paths whose removal raises [OSError], with the text of the exception. *)
Record FileSystem : Type := mkFS {
  results_dirs : gmap string (list N);
  results_zips : gmap string N;
  uploads : gmap string N;
  temp_dirs : gmap string (list N);
  faults : list (path * string)
}.

(** What [WorkflowManager.active_containers] holds for a job: a Docker SDK
    container (SDK mode) or the [asyncio] process of [docker run]
    (subprocess mode, [_execute_subprocess_workflow]).  A container is run
    with [remove=remove_after]: once it is stopped the daemon may have
    removed it already, and [remove_error] is what
    [container.remove(force=True)] then raises, if anything. *)
Inductive handle : Type :=
  | DockerContainer (container_id : string) (remove_error : option string)
  | AsyncProcess (pid : Z).

#[global] Instance handle_eq_dec : EqDecision handle.
Proof. solve_decision. Defined.

(** The arguments of one [update_status] call. *)
Record StoreWrite : Type := mkWrite {
  w_job : string;
  w_status : JobStatus;
  w_progress : option Z;
  w_error : option string
}.

Record World : Type := mkWorld {
  jobs_table : gmap string Job;
  files : FileSystem;
  (** [JobManager.active_containers]: job id to container id *)
  job_manager_containers : gmap string string;
  (** [WorkflowManager.active_containers]: job id to handle *)
  active_containers : gmap string handle;
  (** execution units that are still running *)
  live_units : list handle;
  (** the arguments of every [update_status] call that reached the table,
      oldest first *)
  store_writes : list StoreWrite
}.

Definition with_jobs (f : gmap string Job → gmap string Job) (w : World) : World :=
  mkWorld (f (jobs_table w)) (files w) (job_manager_containers w)
          (active_containers w) (live_units w) (store_writes w).

Definition with_files (f : FileSystem → FileSystem) (w : World) : World :=
  mkWorld (jobs_table w) (f (files w)) (job_manager_containers w)
          (active_containers w) (live_units w) (store_writes w).

Definition with_job_manager_containers (f : gmap string string → gmap string string)
    (w : World) : World :=
  mkWorld (jobs_table w) (files w) (f (job_manager_containers w))
          (active_containers w) (live_units w) (store_writes w).

Definition with_active_containers (f : gmap string handle → gmap string handle)
    (w : World) : World :=
  mkWorld (jobs_table w) (files w) (job_manager_containers w)
          (f (active_containers w)) (live_units w) (store_writes w).

Definition with_live_units (f : list handle → list handle) (w : World) : World :=
  mkWorld (jobs_table w) (files w) (job_manager_containers w)
          (active_containers w) (f (live_units w)) (store_writes w).

Definition with_store_writes (f : list StoreWrite → list StoreWrite) (w : World) : World :=
  mkWorld (jobs_table w) (files w) (job_manager_containers w)
          (active_containers w) (live_units w) (f (store_writes w)).

(** ** Effects: state and Python exceptions *)

(** A call either returns or raises; [Raised e] carries [str(e)].  The
    state reached so far is kept in both cases. *)
Inductive outcome (A : Type) : Type :=
  | Returned (a : A)
  | Raised (e : string).
Arguments Returned {A} a.
Arguments Raised {A} e.

Definition Eff (A : Type) : Type := World → outcome A * World.

#[global] Instance Eff_ret : MRet Eff := λ A a w, (Returned a, w).

#[global] Instance Eff_bind : MBind Eff := λ A B k m w,
  match m w with
  | (Returned a, w') => k a w'
  | (Raised e, w') => (Raised e, w')
  end.

Definition raise {A : Type} (e : string) : Eff A := λ w, (Raised e, w).

(** [try: body except Exception as e: handler(str(e))] *)
Definition try_except {A : Type} (body : Eff A) (handler : string → Eff A) : Eff A :=
  λ w, match body w with
       | (Returned a, w') => (Returned a, w')
       | (Raised e, w') => handler e w'
       end.

Definition inspect {A : Type} (f : World → A) : Eff A := λ w, (Returned (f w), w).

Definition change (f : World → World) : Eff unit := λ w, (Returned tt, f w).

(** [for x in xs: body(x)] *)
Fixpoint for_each {A : Type} (xs : list A) (body : A → Eff unit) : Eff unit :=
  match xs with
  | [] => mret tt
  | x :: rest => body x ;; for_each rest body
  end.

(** ** File system operations *)

Fixpoint lookup_fault (p : path) (table : list (path * string)) : option string :=
  match table with
  | [] => None
  | (q, e) :: rest => if decide (q = p) then Some e else lookup_fault p rest
  end.

Definition fault_of (p : path) (fs : FileSystem) : option string :=
  lookup_fault p (faults fs).

(** [p.exists()] *)
Definition path_exists (p : path) (fs : FileSystem) : bool :=
  match p with
  | ResultsDir j => bool_decide (is_Some (results_dirs fs !! j))
  | ResultsZip j => bool_decide (is_Some (results_zips fs !! j))
  | UploadFile n => bool_decide (is_Some (uploads fs !! n))
  | TempDir j => bool_decide (is_Some (temp_dirs fs !! j))
  end.

Definition remove_path (p : path) (fs : FileSystem) : FileSystem :=
  match p with
  | ResultsDir j =>
      mkFS (delete j (results_dirs fs)) (results_zips fs) (uploads fs) (temp_dirs fs) (faults fs)
  | ResultsZip j =>
      mkFS (results_dirs fs) (delete j (results_zips fs)) (uploads fs) (temp_dirs fs) (faults fs)
  | UploadFile n =>
      mkFS (results_dirs fs) (results_zips fs) (delete n (uploads fs)) (temp_dirs fs) (faults fs)
  | TempDir j =>
      mkFS (results_dirs fs) (results_zips fs) (uploads fs) (delete j (temp_dirs fs)) (faults fs)
  end.

(** [shutil.rmtree(p)] and [p.unlink()]: raise on a faulty path, remove the
    entry otherwise. *)
Definition remove (p : path) : Eff unit :=
  λ w, match fault_of p (files w) with
       | Some e => (Raised e, w)
       | None => (Returned tt, with_files (remove_path p) w)
       end.

(** Total size in bytes of the files under a directory entry. *)
Definition total_size (sizes : list N) : N := foldr N.add 0%N sizes.

(** Bytes to MB: [size / (1024 * 1024)]. *)
Definition to_mb (bytes : N) : Q := Qmake (Z.of_N bytes) 1048576.

(** [_get_directory_size_mb(RESULTS_DIR / job_id)] *)
Definition _get_directory_size_mb (job_id : string) (fs : FileSystem) : Q :=
  match results_dirs fs !! job_id with
  | Some sizes => to_mb (total_size sizes)
  | None => 0
  end.

(** [UPLOADS_DIR.glob(f"{job_id}_*")]: the names that start with the job id
    and an underscore. *)
Definition glob_uploads (job_id : string) (fs : FileSystem) : list string :=
  filter (λ name, Is_true (Py.startswith name (job_id +:+ "_")))
         (fst <$> map_to_list (uploads fs)).

(** ** JobManager over the world *)

(** SQLite holds an INTEGER in 64 bits, signed: [sqlite3] refuses to bind
    a Python [int] outside that range. *)
Definition fits_sqlite_integer (n : Z) : bool :=
  (-9223372036854775808 <=? n)%Z && (n <=? 9223372036854775807)%Z.

(** The binding of the parameter [progress] of an [UPDATE]. *)
Definition binds (new_progress : option Z) : bool :=
  match new_progress with
  | Some n => fits_sqlite_integer n
  | None => true
  end.

(** [job_manager.update_status(...)] as one step of the service.  When
    [progress] binds, the table is updated and the write is recorded;
    otherwise [conn.execute] raises [OverflowError] and nothing is
    written. *)
Definition do_update_status (current_time : Z) (job_id : string) (new_status : JobStatus)
    (new_progress : option Z) (error : option string) : Eff unit :=
  if binds new_progress then
    change (λ w,
      with_store_writes (λ log, log ++ [mkWrite job_id new_status new_progress error])
        (with_jobs (update_status current_time job_id new_status new_progress error) w))
  else raise "Python int too large to convert to SQLite INTEGER".

(** [if p.exists(): remove(p)] *)
Definition remove_if_exists (p : path) : Eff unit :=
  present ← inspect (λ w, path_exists p (files w));
  if present : bool then remove p else mret tt.

(** The block [# Clean up files] of [delete_job]: the results directory,
    the zip file and the uploads of the job. *)
Definition clean_up_files (job_id : string) : Eff unit :=
  remove_if_exists (ResultsDir job_id) ;;
  remove_if_exists (ResultsZip job_id) ;;
  upload_files ← inspect (λ w, glob_uploads job_id (files w));
  for_each upload_files (λ name, remove (UploadFile name)).

(** [JobManager.delete_job]: returns [(success, error_message)]. *)
Definition delete_job (job_id : string) : Eff (bool * string) :=
  try_except
    (job ← inspect (λ w, get_job job_id (jobs_table w));
     match job with
     | None => mret (false, "Job not found")
     | Some job =>
         if decide (status job = RUNNING)
         then mret (false, "Cannot delete running job")
         else
           change (with_jobs (delete job_id)) ;;
           clean_up_files job_id ;;
           mret (true, "")
     end)
    (λ error_msg, mret (false, "Database or filesystem error: " +:+ error_msg)).

(** [WorkflowManager.cleanup_job_data].  The module never imports [shutil]
    at top level: the name is bound by the [import] inside the first [if],
    so the second [rmtree] raises [UnboundLocalError] when the temporary
    directory did not exist.  Every exception is logged and dropped. *)
Definition cleanup_job_data (job_id : string) (keep_results : bool) : Eff unit :=
  try_except
    (temp_present ← inspect (λ w, path_exists (TempDir job_id) (files w));
     (if temp_present : bool then remove (TempDir job_id) else mret tt) ;;
     if keep_results then mret tt
     else
       results_present ← inspect (λ w, path_exists (ResultsDir job_id) (files w));
       if results_present : bool
       then if temp_present : bool
            then remove (ResultsDir job_id)
            else raise "cannot access local variable 'shutil' where it is not associated with a value"
       else mret tt)
    (λ _, mret tt).

(** What an endpoint answers: a JSON body with a message, or an
    [HTTPException]. *)
Inductive Response : Type :=
  | Success (message : string)
  | HTTPException (status_code : Z) (detail : string).

(** [DELETE /api/jobs/{job_id}] *)
Definition delete_job_endpoint (job_id : string) : Eff Response :=
  '(success, error_msg) ← delete_job job_id;
  if success : bool then
    try_except (cleanup_job_data job_id false) (λ _, mret tt) ;;
    mret (Success "Job deleted successfully")
  else if decide (error_msg = "Job not found") then
    mret (HTTPException 404 error_msg)
  else if decide (error_msg = "Cannot delete running job") then
    mret (HTTPException 400 "Cannot delete running job. Please cancel it first.")
  else
    mret (HTTPException 500 error_msg).

(** [JobManager.cancel_job] *)
Definition cancel_job (current_time : Z) (job_id : string) : Eff bool :=
  try_except
    (job ← inspect (λ w, get_job job_id (jobs_table w));
     match job with
     | None => mret false
     | Some job =>
         if decide (status job ≠ RUNNING) then mret false
         else
           tracked ← inspect (λ w, job_manager_containers w !! job_id);
           (match tracked with
            | Some _ => change (with_job_manager_containers (delete job_id))
            | None => mret tt
            end) ;;
           do_update_status current_time job_id FAILED None (Some "Job cancelled by user") ;;
           mret true
     end)
    (λ _, mret false).

(** [container.stop(timeout=10)]: a Docker SDK container is stopped; the
    [asyncio] process object has [terminate], [kill] and [wait] but no
    [stop], so the attribute lookup raises. *)
Definition handle_stop (h : handle) : Eff unit :=
  match h with
  | DockerContainer _ _ => change (with_live_units (filter (λ u, u ≠ h)))
  | AsyncProcess _ => raise "'Process' object has no attribute 'stop'"
  end.

(** [container.remove(force=True)] *)
Definition handle_remove (h : handle) : Eff unit :=
  match h with
  | DockerContainer _ (Some e) => raise e
  | DockerContainer _ None => mret tt
  | AsyncProcess _ => raise "'Process' object has no attribute 'remove'"
  end.

(** [WorkflowManager.stop_job_container] *)
Definition stop_job_container (job_id : string) : Eff bool :=
  try_except
    (tracked ← inspect (λ w, active_containers w !! job_id);
     match tracked with
     | Some container =>
         handle_stop container ;;
         handle_remove container ;;
         change (with_active_containers (delete job_id)) ;;
         mret true
     | None => mret false
     end)
    (λ _, mret false).

(** [POST /api/jobs/{job_id}/cancel] *)
Definition cancel_job_endpoint (current_time : Z) (job_id : string) : Eff Response :=
  job ← inspect (λ w, get_job job_id (jobs_table w));
  match job with
  | None => mret (HTTPException 404 "Job not found")
  | Some job =>
      if decide (status job ≠ RUNNING) then
        mret (HTTPException 400
                ("Job is not running (status: " +:+ status_text (status job) +:+ ")"))
      else
        try_except (_ ← stop_job_container job_id; mret tt) (λ _, mret tt) ;;
        success ← cancel_job current_time job_id;
        if success : bool
        then mret (Success "Job cancelled successfully")
        else mret (HTTPException 500 "Failed to cancel job")
  end.

(** ** The supervision loop ([execute_containerized_workflow]) *)

(** One item of the progress stream together with the wall-clock reading
    at the moment the loop handles it. *)
Record ProgressUpdate : Type := mkUpdate {
  arrival : Z;
  text : string
}.

(** How the asynchronous generator ends when the loop reads it to the end:
    it is exhausted, or it raises. *)
Inductive StreamEnd : Type :=
  | Exhausted
  | GeneratorRaised (e : string).

(** How the [async for] was left. *)
Inductive LoopExit : Type :=
  | LeftByBreak
  | ReadToEnd.

Section Engine.

(** Python's [float(text)] where the result is finite, [None] where
    [float] raises [ValueError] or returns [inf] or [nan] (on these
    [int(progress_pct)] raises inside the same [try], so no write is made
    and [last_progress] keeps its value, as for a [ValueError]). *)
Variable float : string → option Q.

(** The body of [async for progress_update in progress_stream].  The
    handling of a PROGRESS: update sits in a [try] of its own:
    [last_progress] is assigned after [update_status] has returned, and an
    exception of that call is logged and dropped. *)
Fixpoint consume (job_id : string) (last_progress : Q)
    (progress_stream : list ProgressUpdate) : Eff LoopExit :=
  match progress_stream with
  | [] => mret ReadToEnd
  | mkUpdate now progress_update :: later =>
      if Py.startswith progress_update "PROGRESS:" then
        let progress_text := Py.strip (Py.replace progress_update "PROGRESS:" "") in
        if Py.contains "%" progress_text then
          match float (Py.split_head "%" progress_text) with
          | Some progress_pct =>
              if Py.ne progress_pct last_progress then
                last ← try_except
                         (do_update_status now job_id RUNNING
                            (Some (Py.int progress_pct)) None ;;
                          mret progress_pct)
                         (λ _, mret last_progress);
                consume job_id last later
              else consume job_id last_progress later
          | None => consume job_id last_progress later
          end
        else consume job_id last_progress later
      else if Py.startswith progress_update "STATUS:" then
        consume job_id last_progress later
      else if Py.startswith progress_update "COMPLETED:" then
        do_update_status now job_id COMPLETED (Some 100%Z) None ;;
        mret LeftByBreak
      else if Py.startswith progress_update "ERROR:"
              || Py.startswith progress_update "FAILED:" then
        let error_msg :=
          Py.strip (Py.replace (Py.replace progress_update "ERROR:" "") "FAILED:" "") in
        do_update_status now job_id FAILED None (Some error_msg) ;;
        mret LeftByBreak
      else consume job_id last_progress later
  end.

(** [execute_containerized_workflow].  [started] is the clock at the first
    write, [finished] the clock at a closing write that no stream item
    prompts (backend check, fallback, exception handler);
    [docker_available] is the answer of [check_docker_availability]. *)
Definition execute_containerized_workflow (started finished : Z)
    (docker_available : bool) (job_id : string)
    (progress_stream : list ProgressUpdate) (stream_end : StreamEnd) : Eff unit :=
  try_except
    (do_update_status started job_id RUNNING (Some 5%Z) None ;;
     if negb docker_available then
       do_update_status finished job_id FAILED None
         (Some "Docker not available or image not found")
     else
       left ← consume job_id 0 progress_stream;
       (match left, stream_end with
        | ReadToEnd, GeneratorRaised e => raise e
        | _, _ => mret tt
        end) ;;
       job ← inspect (λ w, get_job job_id (jobs_table w));
       match job with
       | Some job =>
           if decide (status job = RUNNING)
           then do_update_status finished job_id COMPLETED (Some 100%Z) None
           else mret tt
       | None => mret tt
       end)
    (λ e, do_update_status finished job_id FAILED None
            (Some ("Container execution failed: " +:+ e)))
  ;; try_except (cleanup_job_data job_id true) (λ _, mret tt).

End Engine.

(** ** The workflow generators ([workflow_manager.py]) *)



(** The tests of the reading loop on one line of output, in the order of
    the [if ... elif] chain (lines 912 to 946). *)
Inductive LineKind : Set :=
  | GrassLine | DemLine | SolarLine | TaskLine | MonthlyLine | FinishLine
  | ErrorLine | OtherLine.

#[global] Instance LineKind_eq_dec : EqDecision LineKind.
Proof. solve_decision. Defined.



Section SubprocessOutput.

(** The text of [f"{50 + (current / total * 45):.1f}"] for two ints with
    [total] not 0; [None] where the division raises [OverflowError]. *)
Variable task_percent : Z → Z → option string.

(** The text of
    [f"{min(50 + (tasks_completed / total_tasks * 45), 95):.1f}"]. *)
Variable generic_percent : Z → Z → string.




End SubprocessOutput.

(** The updates [_monitor_container] yields after [container.wait()]
    (lines 581 to 587). *)
Definition container_exit_updates (exit_code : Z) : list string :=
  if decide (exit_code = 0%Z)
  then ["COMPLETED: Workflow execution finished successfully"]
  else ["FAILED: Container exited with code " +:+ Py.str exit_code].

(** An update that makes the supervision loop finalize the job. *)
Definition is_terminal_marker (update : string) : bool :=
  Py.startswith update "COMPLETED:" || Py.startswith update "ERROR:"
  || Py.startswith update "FAILED:".

(** ** A reading of [float] for plain decimal literals *)

Module Decimal.

Definition digit (c : ascii) : option Z :=
  let n := nat_of_ascii c in
  if ((48 <=? n)%nat && (n <=? 57)%nat) then Some (Z.of_nat n - 48)%Z else None.

(** Digits up to an optional point, then digits: numerator and number of
    decimals read so far. *)
Fixpoint scan (s : string) (num : Z) (decimals : option positive) (seen : bool)
    : option Q :=
  match s with
  | EmptyString =>
      if seen then
        Some (Qmake num (match decimals with Some k => k | None => 1%positive end))
      else None
  | String c rest =>
      if decide (c = "."%char) then
        match decimals with
        | None => scan rest num (Some 1%positive) seen
        | Some _ => None
        end
      else
        match digit c with
        | Some d =>
            scan rest (10 * num + d)%Z
                 (match decimals with Some k => Some (10 * k)%positive | None => None end)
                 true
        | None => None
        end
  end.

(** [float(s)] for [s] of the shape [ws [+-] digits [. digits] ws]. *)
Definition float (s : string) : option Q :=
  match Py.strip s with
  | String "-" rest => Qopp <$> scan rest 0 None false
  | String "+" rest => scan rest 0 None false
  | body => scan body 0 None false
  end.

End Decimal.

(** ** Worker supervision ([DistributedWorkflowManager]) *)

Inductive NodeType : Set := LOCAL | MASTER | WORKER.

#[global] Instance NodeType_eq_dec : EqDecision NodeType.
Proof. solve_decision. Defined.

Record WorkerConfig : Type := mkWorkerConfig {
  master_host : string;
  master_port : Z;
  worker_cores : Z;
  worker_memory : string;
  worker_disk : string;
  reconnect_attempts : Z;
  reconnect_delay : Z
}.

(** What happens to one [subprocess.Popen] of [work_queue_worker]: the call
    raises, or the process runs and exits with a return code. *)
Inductive Launch : Type :=
  | PopenRaises (e : string)
  | Exits (return_code : Z).

(** [worker_processes] holds the pids of the running workers; the k-th
    process launched has pid k.  [reconnects] counts the calls of
    [start_worker_node] made by monitor threads and [slept] adds up their
    [time.sleep] seconds. *)
Record Coordinator : Type := mkCoordinator {
  worker_processes : list nat;
  launched : nat;
  reconnects : nat;
  slept : Z
}.

(** [_monitor_worker_process] once the process [pid] has closed its output
    and exited with [return_code]; [start_worker_node] is the method it
    calls back. *)
Definition _monitor_worker_process (worker_config : WorkerConfig) (pid : nat)
    (return_code : Z) (start_worker_node : Coordinator → Coordinator)
    (c : Coordinator) : Coordinator :=
  let c1 := mkCoordinator (filter (λ p, p ≠ pid) (worker_processes c))
                          (launched c) (reconnects c) (slept c) in
  if bool_decide (return_code ≠ 0%Z) && bool_decide (reconnect_attempts worker_config > 0)%Z
  then start_worker_node
         (mkCoordinator (worker_processes c1) (launched c1) (S (reconnects c1))
                        (slept c1 + reconnect_delay worker_config)%Z)
  else c1.

(** [start_worker_node] followed by the monitor threads it sets off.
    [launches] tells, in order, what happens to the processes launched from
    here on; past its end the process keeps running.  The result is the
    answer of this call and the state once the threads have come to rest. *)
Fixpoint start_worker_node (node_type : NodeType) (worker_config : WorkerConfig)
    (launches : list Launch) (c : Coordinator) : bool * Coordinator :=
  if decide (node_type ≠ WORKER) then (false, c)
  else
    let pid := launched c in
    let registered :=
      mkCoordinator (worker_processes c ++ [pid]) (S (launched c)) (reconnects c) (slept c) in
    match launches with
    | [] => (true, registered)
    | PopenRaises _ :: _ => (false, c)
    | Exits return_code :: later =>
        (true,
         _monitor_worker_process worker_config pid return_code
           (λ c', snd (start_worker_node node_type worker_config later c'))
           registered)
    end.

(** ** Retention ([JobManager.cleanup_old_jobs], [cleanup_jobs.py]) *)

Record CleanupStats : Type := mkStats {
  processed_jobs : Z;
  successful_cleaned : Z;
  failed_deleted : Z;
  space_freed_mb : Q;
  errors : list string
}.

(** [timedelta(days=d)] and [timedelta(hours=h)] in seconds. *)
Definition days (d : Z) : Z := (86400 * d)%Z.
Definition hours (h : Z) : Z := (3600 * h)%Z.

Section Retention.

(** The SQL test [datetime(completed_at) < ?] against
    [cutoff.isoformat()]: a comparison of two texts made by SQLite. *)
Variable sql_before : Z → Z → bool.

(** [SELECT ... FROM jobs WHERE status = ? AND completed_at IS NOT NULL
    AND datetime(completed_at) < ?] *)
Definition is_expired (wanted : JobStatus) (cutoff : Z) (j : Job) : bool :=
  bool_decide (status j = wanted)
  && match completed_at j with
     | Some t => sql_before t cutoff
     | None => false
     end.

Definition select_expired (wanted : JobStatus) (cutoff : Z)
    (jobs : gmap string Job) : list Job :=
  filter (λ j, Is_true (is_expired wanted cutoff j)) (snd <$> map_to_list jobs).

Definition add_space (mb : Q) (s : CleanupStats) : CleanupStats :=
  mkStats (processed_jobs s) (successful_cleaned s) (failed_deleted s)
          (space_freed_mb s + mb)%Q (errors s).

Definition count_successful (s : CleanupStats) : CleanupStats :=
  mkStats (processed_jobs s + 1)%Z (successful_cleaned s + 1)%Z (failed_deleted s)
          (space_freed_mb s) (errors s).

Definition count_failed (s : CleanupStats) : CleanupStats :=
  mkStats (processed_jobs s + 1)%Z (successful_cleaned s) (failed_deleted s + 1)%Z
          (space_freed_mb s) (errors s).

(** Running state of [cleanup_old_jobs]: the dictionary [cleanup_stats],
    the rows deleted on [conn] but not yet committed, and the world. *)
Record CleanupRun : Type := mkRun {
  stats : CleanupStats;
  uncommitted : list string;
  world : World
}.

(** [if results_path.exists(): space += size; shutil.rmtree(results_path)];
    [inr e] when [rmtree] raises. *)
Definition purge_results (job_id : string) (r : CleanupRun) : CleanupRun + (string * CleanupRun) :=
  if path_exists (ResultsDir job_id) (files (world r)) then
    let counted := add_space (_get_directory_size_mb job_id (files (world r))) (stats r) in
    match remove (ResultsDir job_id) (world r) with
    | (Returned _, w') => inl (mkRun counted (uncommitted r) w')
    | (Raised e, w') => inr (e, mkRun counted (uncommitted r) w')
    end
  else inl r.

(** [if dem_filename: if dem_path.exists(): space += size; dem_path.unlink()] *)
Definition purge_upload (dem : string) (r : CleanupRun) : CleanupRun + (string * CleanupRun) :=
  match dem, uploads (files (world r)) !! dem with
  | String _ _, Some size =>
      let counted := add_space (to_mb size) (stats r) in
      match remove (UploadFile dem) (world r) with
      | (Returned _, w') => inl (mkRun counted (uncommitted r) w')
      | (Raised e, w') => inr (e, mkRun counted (uncommitted r) w')
      end
  | _, _ => inl r
  end.

(** First loop: [for job_id, dem_filename in successful_jobs]. *)
Fixpoint clean_successful (dry_run : bool) (rows : list Job) (r : CleanupRun)
    : CleanupRun + (string * CleanupRun) :=
  match rows with
  | [] => inl r
  | job :: rest =>
      let counted r' := mkRun (count_successful (stats r')) (uncommitted r') (world r') in
      if dry_run then clean_successful dry_run rest (counted r)
      else
        match purge_results (id job) r with
        | inl r1 => clean_successful dry_run rest (counted r1)
        | inr failure => inr failure
        end
  end.

(** Second loop: [for job_id, dem_filename in failed_jobs]. *)
Fixpoint delete_failed (dry_run : bool) (rows : list Job) (r : CleanupRun)
    : CleanupRun + (string * CleanupRun) :=
  match rows with
  | [] => inl r
  | job :: rest =>
      let counted r' := mkRun (count_failed (stats r')) (uncommitted r') (world r') in
      if dry_run then delete_failed dry_run rest (counted r)
      else
        match purge_results (id job) r with
        | inl r1 =>
            match purge_upload (dem_filename job) r1 with
            | inl r2 =>
                delete_failed dry_run rest
                  (counted (mkRun (stats r2) (uncommitted r2 ++ [id job]) (world r2)))
            | inr failure => inr failure
            end
        | inr failure => inr failure
        end
  end.

(** [JobManager.cleanup_old_jobs].  Deletions reach the table at
    [conn.commit()] only; an exception on the way leaves them out and is
    reported in [errors]. *)
Definition cleanup_old_jobs (now success_retention_days failed_retention_hours : Z)
    (dry_run : bool) (w : World) : CleanupStats * World :=
  let success_cutoff := (now - days success_retention_days)%Z in
  let failed_cutoff := (now - hours failed_retention_hours)%Z in
  let start := mkRun (mkStats 0 0 0 0 []) [] w in
  let report (failure : string * CleanupRun) :=
    let s := stats (snd failure) in
    (mkStats (processed_jobs s) (successful_cleaned s) (failed_deleted s)
             (space_freed_mb s) (errors s ++ ["Error during cleanup: " +:+ fst failure]),
     world (snd failure)) in
  match clean_successful dry_run (select_expired COMPLETED success_cutoff (jobs_table w)) start with
  | inl r1 =>
      match delete_failed dry_run (select_expired FAILED failed_cutoff (jobs_table w)) r1 with
      | inl r2 =>
          (stats r2,
           if dry_run then world r2
           else with_jobs (λ jobs, foldr delete jobs (uncommitted r2)) (world r2))
      | inr failure => report failure
      end
  | inr failure => report failure
  end.

End Retention.

(** ** The stand-alone cleanup script ([cleanup_jobs.py]) *)

Module JobCleanupManager.

(** The dictionary [cleanup_job_data] returns for one job. *)
Record JobReport : Type := mkReport {
  job_id : string;
  data_deleted : bool;
  config_preserved : bool;
  files_deleted : list path;
  directories_deleted : list path;
  size_freed_mb : Q;
  job_errors : list string
}.

(** The dictionary [run_cleanup] returns, without its time stamps and its
    copy of the [dry_run] flag. *)
Record Summary : Type := mkSummary {
  successful_jobs_processed : Z;
  failed_jobs_processed : Z;
  total_size_freed_mb : Q;
  configs_preserved : Z;
  configs_deleted : Z;
  summary_errors : list string;
  job_details : list JobReport
}.

Section Manager.

Variable sql_before : Z → Z → bool.

(** [self.dry_run] *)
Variable dry_run : bool.

Definition by_completed_at (a b : Job) : Prop :=
  (default 0 (completed_at a) ≤ default 0 (completed_at b))%Z.

#[local] Instance by_completed_at_dec (a b : Job) : Decision (by_completed_at a b).
Proof. unfold by_completed_at. apply _. Defined.

(** [get_jobs_for_cleanup]: both queries end in
    [ORDER BY completed_at ASC]. *)
Definition get_jobs_for_cleanup (now success_retention_days failed_retention_hours : Z)
    (jobs : gmap string Job) : list Job * list Job :=
  (merge_sort by_completed_at
     (select_expired sql_before COMPLETED (now - days success_retention_days) jobs),
   merge_sort by_completed_at
     (select_expired sql_before FAILED (now - hours failed_retention_hours) jobs)).

Definition failed_with (e : string) (job : Job) (r : JobReport) : JobReport :=
  mkReport (job_id r) (data_deleted r) (config_preserved r) (files_deleted r)
           (directories_deleted r) (size_freed_mb r)
           (job_errors r ++ ["Error cleaning up job " +:+ id job +:+ ": " +:+ e]).

(** The results directory (lines 152 to 166). *)
Definition clean_results (job : Job) (r : JobReport) (w : World)
    : (JobReport * World) + (string * JobReport * World) :=
  if path_exists (ResultsDir (id job)) (files w) then
    let size_mb := _get_directory_size_mb (id job) (files w) in
    let done r' :=
      mkReport (job_id r') true (config_preserved r') (files_deleted r')
               (directories_deleted r' ++ [ResultsDir (id job)])
               (size_freed_mb r' + size_mb)%Q (job_errors r') in
    if dry_run then inl (done r, w)
    else
      match remove (ResultsDir (id job)) w with
      | (Returned _, w') => inl (done r, w')
      | (Raised e, w') => inr (e, r, w')
      end
  else inl (r, w).

(** The uploaded DEM (lines 168 to 182). *)
Definition clean_upload (job : Job) (r : JobReport) (w : World)
    : (JobReport * World) + (string * JobReport * World) :=
  match dem_filename job, uploads (files w) !! dem_filename job with
  | String _ _, Some size =>
      let done r' :=
        mkReport (job_id r') (data_deleted r') (config_preserved r')
                 (files_deleted r' ++ [UploadFile (dem_filename job)])
                 (directories_deleted r')
                 (size_freed_mb r' + to_mb size)%Q (job_errors r') in
      if dry_run then inl (done r, w)
      else
        match remove (UploadFile (dem_filename job)) w with
        | (Returned _, w') => inl (done r, w')
        | (Raised e, w') => inr (e, r, w')
        end
  | _, _ => inl (r, w)
  end.

(** The job row (lines 184 to 195). *)
Definition clean_config (job : Job) (keep_job_config : bool) (r : JobReport) (w : World)
    : JobReport * World :=
  if keep_job_config then (r, w)
  else
    (mkReport (job_id r) (data_deleted r) false (files_deleted r)
              (directories_deleted r) (size_freed_mb r) (job_errors r),
     if dry_run then w else with_jobs (delete (id job)) w).

(** [JobCleanupManager.cleanup_job_data] *)
Definition cleanup_job_data (job : Job) (keep_job_config : bool) (w : World)
    : JobReport * World :=
  let r0 := mkReport (id job) false keep_job_config [] [] 0 [] in
  match clean_results job r0 w with
  | inl (r1, w1) =>
      match clean_upload job r1 w1 with
      | inl (r2, w2) => clean_config job keep_job_config r2 w2
      | inr (e, r2, w2) => (failed_with e job r2, w2)
      end
  | inr (e, r1, w1) => (failed_with e job r1, w1)
  end.

(** One pass of a loop of [run_cleanup]. *)
Definition account (successful : bool) (report : JobReport) (s : Summary) : Summary :=
  mkSummary
    (if successful then successful_jobs_processed s + 1 else successful_jobs_processed s)%Z
    (if successful then failed_jobs_processed s else failed_jobs_processed s + 1)%Z
    (total_size_freed_mb s + size_freed_mb report)%Q
    (if successful && config_preserved report
     then configs_preserved s + 1 else configs_preserved s)%Z
    (if negb successful && negb (config_preserved report)
     then configs_deleted s + 1 else configs_deleted s)%Z
    (summary_errors s ++ job_errors report)
    (job_details s ++ [report]).

Fixpoint process (successful : bool) (rows : list Job) (s : Summary) (w : World)
    : Summary * World :=
  match rows with
  | [] => (s, w)
  | job :: rest =>
      let '(report, w') := cleanup_job_data job successful w in
      process successful rest (account successful report s) w'
  end.

(** [JobCleanupManager.run_cleanup] *)
Definition run_cleanup (now success_retention_days failed_retention_hours : Z)
    (w : World) : Summary * World :=
  let '(successful, failed) :=
    get_jobs_for_cleanup now success_retention_days failed_retention_hours
                         (jobs_table w) in
  let '(s1, w1) := process true successful (mkSummary 0 0 0 0 0 [] []) w in
  process false failed s1 w1.

End Manager.

End JobCleanupManager.

(** ** States used in the examples *)

Definition no_files : FileSystem := mkFS ∅ ∅ ∅ ∅ [].

Definition empty_world : World := mkWorld ∅ no_files ∅ ∅ [] [].

(** A job submitted at time 0 for the DEM [job-1_dem.tif]. *)
Definition submitted : gmap string Job :=
  default ∅ (create_job 0 "job-1" "sol" "job-1_dem.tif" "{}" ∅).

(** The same job after the engine accepted it at time 1. *)
Definition accepted : gmap string Job :=
  update_status 1 "job-1" RUNNING (Some 5%Z) None submitted.

(** ... and after it finished successfully at time 100. *)
Definition finished_ok : gmap string Job :=
  update_status 100 "job-1" COMPLETED (Some 100%Z) None accepted.

Definition world_of (jobs : gmap string Job) (fs : FileSystem) : World :=
  mkWorld jobs fs ∅ ∅ [] [].

(** Results, a zip and the upload of [job-1] on disk. *)
Definition job1_files : FileSystem :=
  mkFS {[ "job-1" := [1048576%N] ]} {[ "job-1" := 2048%N ]}
       {[ "job-1_dem.tif" := 4096%N ]} ∅ [].

(** The same files when the results directory cannot be removed. *)
Definition job1_files_locked : FileSystem :=
  mkFS {[ "job-1" := [1048576%N] ]} {[ "job-1" := 2048%N ]}
       {[ "job-1_dem.tif" := 4096%N ]} ∅
       [(ResultsDir "job-1", "[Errno 13] Permission denied: 'results/job-1'")].

(** A running job in subprocess mode: the workflow manager tracks the
    [asyncio] process of [docker run]. *)
Definition subprocess_world : World :=
  mkWorld accepted job1_files ∅ {[ "job-1" := AsyncProcess 4242 ]} [AsyncProcess 4242] [].

(** The stream items [lines] handled at the times 10, 11, 12, ... *)
Fixpoint timed (from : Z) (lines : list string) : list ProgressUpdate :=
  match lines with
  | [] => []
  | line :: rest => mkUpdate from line :: timed (from + 1) rest
  end.

(** Sample readings of the percentages the generators format with
    [:.1f]: the exact value rounded to one decimal, half to even. *)
Definition one_decimal (x : Q) : string :=
  let n := (10 * Z.abs (Qnum x))%Z in
  let d := Z.pos (Qden x) in
  let q := (n / d)%Z in
  let r := (n mod d)%Z in
  let tenths :=
    if (d <? 2 * r)%Z then (q + 1)%Z
    else if (2 * r =? d)%Z && Z.odd q then (q + 1)%Z
    else q in
  (if (Qnum x <? 0)%Z then "-" else "")
  +:+ Py.str (tenths / 10) +:+ "." +:+ Py.str (tenths mod 10).



Definition default_worker : WorkerConfig :=
  mkWorkerConfig "localhost" 9123 4 "8G" "50G" 5 10.

Definition idle : Coordinator := mkCoordinator [] 0 0 0.

(** ** Relations between states used in the statements *)

(** From [w] to [w'] no row other than the one of [job_id] has changed, and
    that row has not been created. *)
Definition only_row (job_id : string) (w w' : World) : Prop :=
  ∀ k, k ≠ job_id ∨ jobs_table w !! job_id = None →
       jobs_table w' !! k = jobs_table w !! k.

(** ** The generator of the SDK path ([_monitor_container]) *)

(** What one run of [_monitor_container] meets: the container comes to its
    end after the updates yielded while its log was followed (lines 561 to
    577), or an exception is raised inside the [try] after [yielded]. *)
Inductive ContainerRun : Type :=
  | ContainerExited (logged : list string) (exit_code : Z)
  | MonitoringFailed (yielded : list string) (e : string).

(** [WorkflowManager._monitor_container]: the updates it yields. *)
Definition _monitor_container (run : ContainerRun) : list string :=
  match run with
  | ContainerExited logged exit_code =>
      ["STATUS: Container started, initializing workflow..."]
      ++ logged ++ container_exit_updates exit_code
  | MonitoringFailed yielded e => yielded ++ ["ERROR: Monitoring failed: " +:+ e]
  end.

(** ** Histories of store updates *)

(** One call [update_status(job_id, status, progress, error)] made at the
    time [at_time]. *)
Record Update : Type := mkUpd {
  at_time : Z;
  upd_job : string;
  upd_status : JobStatus;
  upd_progress : option Z;
  upd_error : option string
}.

(** The calls of a history applied in order. *)
Definition replay (history : list Update) (jobs : gmap string Job) : gmap string Job :=
  foldl (λ table u,
           update_status (at_time u) (upd_job u) (upd_status u) (upd_progress u)
                         (upd_error u) table)
        jobs history.

(** ** Submission ([upload_file], [submit_job]) *)

(** The test of [upload_file]:
    [file.filename.lower().endswith(('.tif', '.tiff'))] *)
Definition upload_file_accepts (filename : string) : bool :=
  PyText.endswith (PyText.lower filename) ".tif"
  || PyText.endswith (PyText.lower filename) ".tiff".

(** The test of [submit_job]: [dem_file.filename.endswith(('.tif', '.tiff'))] *)
Definition submit_job_accepts (filename : string) : bool :=
  PyText.endswith filename ".tif" || PyText.endswith filename ".tiff".

(** The dictionary [parameters] of [submit_job]; the two years are there
    for the workflow type [eemt] only. *)
Record Parameters : Type := mkParameters {
  step : Q;
  linke_value : Q;
  albedo_value : Q;
  num_threads : Z;
  start_year : option Z;
  end_year : option Z
}.

(** [year or 2020] *)
Definition year_or_2020 (year : option Z) : Z :=
  match year with
  | Some y => if decide (y = 0%Z) then 2020%Z else y
  | None => 2020%Z
  end.

Definition job_parameters (workflow_type : string) (step linke_value albedo_value : Q)
    (num_threads : Z) (start_year end_year : option Z) : Parameters :=
  if decide (workflow_type = "eemt")
  then mkParameters step linke_value albedo_value num_threads
                    (Some (year_or_2020 start_year)) (Some (year_or_2020 end_year))
  else mkParameters step linke_value albedo_value num_threads None None.

(** What happens to [open(dem_path, "wb")] and [copyfileobj]: the file is
    written in full; [open] raises and no file is made; the copy raises
    after [written] bytes. *)
Inductive SaveOutcome : Type :=
  | Saved
  | OpenRaises (e : string)
  | CopyRaises (written : N) (e : string).

(** What [submit_job] answers. *)
Inductive SubmitResponse : Type :=
  | Submitted (job_id : string)
  | SubmitRejected (status_code : Z) (detail : string).

Definition write_upload (name : string) (size : N) (fs : FileSystem) : FileSystem :=
  mkFS (results_dirs fs) (results_zips fs) (<[name := size]> (uploads fs))
       (temp_dirs fs) (faults fs).

Section Submit.

(** [json.dumps] on the parameters *)
Variable json_dumps : Parameters → string.

(** [POST /api/submit-job] up to the point where the supervision task is
    handed to the event loop.  [job_id] is the fresh [uuid4], [now] the
    [CURRENT_TIMESTAMP] of the insertion, [size] the length of the upload.
    The [INSERT] raises when the primary key is taken. *)
Definition submit_job (job_id : string) (now : Z) (workflow_type filename : string)
    (size : N) (save : SaveOutcome) (step linke_value albedo_value : Q)
    (num_threads : Z) (start_year end_year : option Z) : Eff SubmitResponse :=
  if negb (submit_job_accepts filename) then
    mret (SubmitRejected 400 "DEM file must be a GeoTIFF (.tif or .tiff)")
  else
    let dem_filename := job_id +:+ "_" +:+ filename in
    match save with
    | OpenRaises e => mret (SubmitRejected 500 ("Failed to save uploaded file: " +:+ e))
    | CopyRaises written e =>
        change (with_files (write_upload dem_filename written)) ;;
        mret (SubmitRejected 500 ("Failed to save uploaded file: " +:+ e))
    | Saved =>
        change (with_files (write_upload dem_filename size)) ;;
        let parameters :=
          job_parameters workflow_type step linke_value albedo_value num_threads
                         start_year end_year in
        taken ← inspect (λ w, jobs_table w !! job_id);
        match taken with
        | Some _ => mret (SubmitRejected 500 "Failed to create job record")
        | None =>
            change (with_jobs
                      (insert job_id
                         {| id := job_id; workflow_type := workflow_type;
                            status := PENDING; created_at := now; started_at := None;
                            completed_at := None; parameters := json_dumps parameters;
                            dem_filename := dem_filename; error_message := None;
                            progress := 0 |})) ;;
            mret (Submitted job_id)
        end
    end.

End Submit.

(** ** Frames for the file system *)

(** From [fs] to [fs'] nothing has been added, and nothing removed except
    results directories among [dirs] and uploads among [names]. *)
Definition files_removed (dirs names : list string) (fs fs' : FileSystem) : Prop :=
  (∀ k, k ∉ dirs → results_dirs fs' !! k = results_dirs fs !! k)
  ∧ (∀ k, results_dirs fs !! k = None → results_dirs fs' !! k = None)
  ∧ (∀ n, n ∉ names → uploads fs' !! n = uploads fs !! n)
  ∧ (∀ n, uploads fs !! n = None → uploads fs' !! n = None)
  ∧ results_zips fs' = results_zips fs
  ∧ temp_dirs fs' = temp_dirs fs
  ∧ faults fs' = faults fs.

(** The primary key of a row is its [id] column. *)
Definition keyed_by_id (jobs : gmap string Job) : Prop :=
  ∀ k j, jobs !! k = Some j → id j = k.

(** ** The cutoffs of a retention pass *)

(** [timedelta] holds at most 999999999 days in either direction;
    [hours=h] is normalised to [h // 24] days and a rest. *)
Definition timedelta_days_ok (d : Z) : Prop := (-999999999 ≤ d ≤ 999999999)%Z.
Definition timedelta_hours_ok (h : Z) : Prop := (-999999999 ≤ h `div` 24 ≤ 999999999)%Z.

(** The readings [datetime] can hold, taking the clock to count the
    seconds from its least value, 0001-01-01T00:00:00: up to
    9999-12-31T23:59:59. *)
Definition datetime_ok (t : Z) : Prop := (0 ≤ t ≤ 315537897599)%Z.

(** [now - timedelta(days=d)] and [now - timedelta(hours=h)] raise no
    [OverflowError]. *)
Definition cutoffs_computed (now d h : Z) : Prop :=
  timedelta_days_ok d ∧ timedelta_hours_ok h
  ∧ datetime_ok (now - days d) ∧ datetime_ok (now - hours h).

(** ** Worker processes that ask for a reconnect *)

(** A launch whose process exits with a code other than 0. *)
Definition exits_with_error (launch : Launch) : bool :=
  match launch with
  | Exits return_code => bool_decide (return_code ≠ 0%Z)
  | PopenRaises _ => false
  end.

Definition failed_exits (launches : list Launch) : nat :=
  length (filter (λ launch, Is_true (exits_with_error launch)) launches).

(** ** Download ([download_results]) *)

(** What [shutil.make_archive] does: the archive is written with [size]
    bytes, or the call raises. *)
Inductive ArchiveOutcome : Type :=
  | Archived (size : N)
  | ArchiveRaises (e : string).

(** What [download_results] answers: the [FileResponse] for the zip file
    under its download name, or an [HTTPException]. *)
Inductive DownloadResponse : Type :=
  | FileResponse (zip_path : path) (filename : string)
  | DownloadRefused (status_code : Z) (detail : string).

Definition write_zip (job_id : string) (size : N) (fs : FileSystem) : FileSystem :=
  mkFS (results_dirs fs) (<[job_id := size]> (results_zips fs)) (uploads fs)
       (temp_dirs fs) (faults fs).

(** [GET /api/jobs/{job_id}/results].  An exception of [make_archive] is
    not handled by the endpoint. *)
Definition download_results (archive : ArchiveOutcome) (job_id : string)
    : Eff DownloadResponse :=
  job ← inspect (λ w, get_job job_id (jobs_table w));
  match job with
  | None => mret (DownloadRefused 404 "Job not found")
  | Some job =>
      if decide (status job ≠ COMPLETED) then
        mret (DownloadRefused 400 "Job not completed")
      else
        present ← inspect (λ w, path_exists (ResultsDir job_id) (files w));
        if negb present then mret (DownloadRefused 404 "Results not found")
        else
          match archive with
          | ArchiveRaises e => raise e
          | Archived size =>
              change (with_files (write_zip job_id size)) ;;
              mret (FileResponse (ResultsZip job_id)
                                 ("eemt_results_" +:+ job_id +:+ ".zip"))
          end
  end.

(** ** Listing ([JobManager.list_jobs], [GET /api/jobs]) *)

(** The dictionary [list_jobs] makes of a row: six of the ten columns, the
    status as the text stored in the table. *)
Record JobListing : Type := mkListing {
  listed_id : string;
  listed_workflow_type : string;
  listed_status : string;
  listed_created_at : Z;
  listed_dem_filename : string;
  listed_progress : Z
}.

Definition listing (j : Job) : JobListing :=
  mkListing (id j) (workflow_type j) (status_text (status j)) (created_at j)
            (dem_filename j) (progress j).

(** [ORDER BY created_at DESC] *)
Definition newest_first (a b : Job) : Prop := (created_at b ≤ created_at a)%Z.

#[global] Instance newest_first_dec (a b : Job) : Decision (newest_first a b).
Proof. unfold newest_first. apply _. Defined.

(** [JobManager.list_jobs] *)
Definition list_jobs (jobs : gmap string Job) : list JobListing :=
  listing <$> merge_sort newest_first (snd <$> map_to_list jobs).

(** The slice [l[:stop]]. *)
Definition slice_to {A : Type} (stop : Z) (l : list A) : list A :=
  if (stop <? 0)%Z
  then take (Z.to_nat (Z.of_nat (length l) + stop)) l
  else take (Z.to_nat stop) l.

(** [GET /api/jobs?status=...&limit=...]: an empty [status] and a [limit]
    of 0 are falsy and count as not given. *)
Definition list_jobs_endpoint (status : option string) (limit : option Z)
    (jobs : gmap string Job) : list JobListing :=
  let listed := list_jobs jobs in
  let selected :=
    match status with
    | Some (String c s) => filter (λ j, listed_status j = String c s) listed
    | _ => listed
    end in
  match limit with
  | Some n => if decide (n = 0%Z) then selected else slice_to n selected
  | None => selected
  end.

(** ** Logs ([get_job_logs]) *)

(** A log file under the results directory of a job: not there, there but
    [open] or [readlines] raises, or read as its lines (each with its line
    end, as [readlines] gives them). *)
Inductive LogFile : Type :=
  | NoLogFile
  | UnreadableLog (e : string)
  | LogLines (lines : list string).

(** What [subprocess.run(["docker", "logs", ...])] gives. *)
Inductive DockerLogs : Type :=
  | DockerLogsExit (returncode : Z) (stdout : string)
  | DockerLogsRaise (e : string).

(** What [get_job_logs] answers. *)
Inductive LogsResponse : Type :=
  | LogText (log_content : string)
  | LogsRefused (status_code : Z) (detail : string).

Definition newline : string := String (ascii_of_nat 10) "".

(** [lines[-tail:]] behind the test [tail > 0]. *)
Definition tail_lines (tail : Z) (lines : list string) : list string :=
  if (0 <? tail)%Z then drop (length lines - Z.to_nat tail) lines else lines.

(** The names looked for, in this order. *)
Definition log_file_names : list string :=
  ["workflow.log"; "task_output.log"; "sys.err"; "container.log"].

(** The loop over the log files: what is appended for one of them. *)
Definition log_section (tail : Z) (name : string) (file : LogFile) : string :=
  match file with
  | LogLines lines =>
      newline +:+ "--- " +:+ name +:+ " ---" +:+ newline
      +:+ foldr String.append "" (tail_lines tail lines)
  | _ => ""
  end.

(** [GET /api/jobs/{job_id}/logs?tail=...]; [read_log name] is the state of
    [RESULTS_DIR / job_id / name]. *)
Definition get_job_logs (tail : Z) (read_log : string → LogFile) (docker : DockerLogs)
    (job_id : string) : Eff LogsResponse :=
  job ← inspect (λ w, get_job job_id (jobs_table w));
  match job with
  | None => mret (LogsRefused 404 "Job not found")
  | Some _ =>
      let log_content :=
        foldl (λ content name, content +:+ log_section tail name (read_log name))
              "" log_file_names in
      match log_content with
      | String _ _ => mret (LogText log_content)
      | EmptyString =>
          tracked ← inspect (λ w, job_manager_containers w !! job_id);
          match tracked with
          | Some _ =>
              match docker with
              | DockerLogsExit returncode stdout =>
                  if decide (returncode = 0%Z) then mret (LogText stdout)
                  else mret (LogText "Container logs not available")
              | DockerLogsRaise _ =>
                  mret (LogText
                          "Logs not yet available. Workflow may still be initializing...")
              end
          | None =>
              mret (LogText "No logs available yet. Please wait for workflow to start...")
          end
      end
  end.

(** ** Progress from the container log ([_parse_progress], [_monitor_container]) *)

Module PyWords.

(** [s.split()]: the words between runs of white space; [word] holds the
    characters of the word being read. *)
Fixpoint split_from (word s : string) : list string :=
  match s with
  | EmptyString => match word with EmptyString => [] | _ => [word] end
  | String c s' =>
      if Py.is_space c
      then match word with
           | EmptyString => split_from EmptyString s'
           | _ => word :: split_from EmptyString s'
           end
      else split_from (word +:+ String c EmptyString) s'
  end.

Definition split (s : string) : list string := split_from EmptyString s.

(** [s.split(sep)] for a separator of one character: the fields between
    the separators, the empty ones included. *)
Fixpoint split_on (sep : ascii) (s : string) : list string :=
  match s with
  | EmptyString => [EmptyString]
  | String c s' =>
      if decide (c = sep) then EmptyString :: split_on sep s'
      else match split_on sep s' with
           | field :: fields => String c field :: fields
           | [] => [String c EmptyString]
           end
  end.

(** [l.index(x)], [None] where [x not in l]. *)
Fixpoint index (x : string) (l : list string) : option nat :=
  match l with
  | [] => None
  | y :: l' => if decide (y = x) then Some 0%nat else S <$> index x l'
  end.

End PyWords.

(** The stages [_parse_progress] looks for. *)
Definition workflow_stages : list string :=
  ["initializing"; "processing dem"; "running solar calculations";
   "generating monthly summaries"; "calculating eemt"].

Section ParseProgress.

(** Python's [int(text)] on a [str]; [None] where it raises [ValueError]. *)
Variable int : string → option Z.

(** The text of [f"{current / total * 100:.1f}"] for two ints with
    [total] not 0; [None] where the division raises [OverflowError]. *)
Variable percent : Z → Z → option string.

(** The [for part in parts] of the first branch.  It is left at the first
    part with a slash: by the [return], by the [ValueError] of the unpacking
    or of [int] (caught, so that [None] is returned), or by the exception of
    the division (not caught). *)
Fixpoint task_progress (parts : list string) : outcome (option string) :=
  match parts with
  | [] => Returned None
  | part :: parts' =>
      if Py.contains "/" part then
        match PyWords.split_on "/" part with
        | [current; total] =>
            match int current, int total with
            | Some c, Some t =>
                if decide (t = 0%Z) then Raised "division by zero"
                else
                  match percent c t with
                  | Some progress =>
                      Returned (Some ("PROGRESS: " +:+ progress +:+ "% (" +:+ current
                                      +:+ "/" +:+ total +:+ " tasks)"))
                  | None => Raised "integer division result too large for a float"
                  end
            | _, _ => Returned None
            end
        | _ => Returned None
        end
      else task_progress parts'
  end.

(** The second branch: the word after the first [COMPLETED]. *)
Definition makeflow_progress (parts : list string) : option string :=
  match PyWords.index "COMPLETED" parts with
  | Some idx =>
      match parts !! (idx + 1)%nat with
      | Some word =>
          match int word with
          | Some completed =>
              Some ("PROGRESS: " +:+ Py.str completed +:+ " tasks completed")
          | None => None
          end
      | None => None
      end
  | None => None
  end.

(** [WorkflowManager._parse_progress] *)
Definition _parse_progress (log_line : string) : outcome (option string) :=
  if Py.contains "Starting task" log_line && Py.contains "/" log_line then
    task_progress (PyWords.split log_line)
  else if Py.contains "COMPLETED" log_line && Py.contains "jobs" log_line then
    Returned (makeflow_progress (PyWords.split log_line))
  else if existsb (λ stage, Py.contains stage (PyText.lower log_line)) workflow_stages then
    Returned (Some ("STATUS: " +:+ log_line))
  else Returned None.

(** The tests that end the reading of the log. *)
Definition reports_success (log_text : string) : bool :=
  Py.contains "workflow completed successfully" (PyText.lower log_text).

Definition reports_error (log_text : string) : bool :=
  Py.contains "error" (PyText.lower log_text)
  || Py.contains "failed" (PyText.lower log_text).

(** The loop over the log of the container (lines 561 to 577), on the
    decoded lines of the log: the updates it yields, and the exception that
    ends it, if any. *)
Fixpoint follow_log (log_stream : list string) : list string * option string :=
  match log_stream with
  | [] => ([], None)
  | log_line :: later =>
      let log_text := Py.strip log_line in
      match log_text with
      | EmptyString => follow_log later
      | _ =>
          match _parse_progress log_text with
          | Raised e => ([], Some e)
          | Returned progress_info =>
              let yielded :=
                match progress_info with
                | Some (String _ _ as info) => [info]
                | _ => []
                end in
              if reports_success log_text then
                (yielded ++ ["STATUS: Workflow completed successfully"], None)
              else if reports_error log_text then
                (yielded ++ ["ERROR: " +:+ log_text], None)
              else
                let '(more, e) := follow_log later in (yielded ++ more, e)
          end
      end
  end.

(** The run of [_monitor_container] over a log that is read without a
    failure of the stream, for a container that exits with [exit_code]. *)
Definition monitored_run (log_stream : list string) (exit_code : Z) : ContainerRun :=
  match follow_log log_stream with
  | (yielded, None) => ContainerExited yielded exit_code
  | (yielded, Some e) =>
      MonitoringFailed ("STATUS: Container started, initializing workflow..." :: yielded) e
  end.

(** A line of the log that neither ends the reading nor makes
    [_parse_progress] raise. *)
Definition passes_quietly (log_line : string) : Prop :=
  (∃ progress_info, _parse_progress (Py.strip log_line) = Returned progress_info)
  ∧ reports_success (Py.strip log_line) = false
  ∧ reports_error (Py.strip log_line) = false.

End ParseProgress.

(** Readings of [int] and of the percentage for the sample runs: plain
    decimal numerals, and the quotient rounded to one decimal. *)
Module DecimalText.

Fixpoint digits (s : string) (num : Z) (seen : bool) : option Z :=
  match s with
  | EmptyString => if seen then Some num else None
  | String c rest =>
      match Decimal.digit c with
      | Some d => digits rest (10 * num + d)%Z true
      | None => None
      end
  end.

Definition int (s : string) : option Z :=
  match Py.strip s with
  | String "-" rest => Z.opp <$> digits rest 0 false
  | String "+" rest => digits rest 0 false
  | body => digits body 0 false
  end.

Definition percent (current total : Z) : option string :=
  Some (one_decimal (inject_Z current / inject_Z total * 100)%Q).

End DecimalText.

(** * Properties *)

(** ** The store *)

Lemma update_status_lookup (t : Z) (job_id : string) (s : JobStatus) (p : option Z)
    (e : option string) (jobs : gmap string Job) (j : Job) :
  jobs !! job_id = Some j →
  update_status t job_id s p e jobs !! job_id = Some (update_row t s p e j).
Proof.
  intros Hj. unfold update_status. rewrite lookup_alter_eq, Hj. reflexivity.
Qed.

Lemma update_status_other (t : Z) (job_id other : string) (s : JobStatus) (p : option Z)
    (e : option string) (jobs : gmap string Job) :
  job_id ≠ other →
  update_status t job_id s p e jobs !! other = jobs !! other.
Proof.
  intros Hne. unfold update_status. apply lookup_alter_ne. exact Hne.
Qed.

Lemma update_status_missing (t : Z) (job_id : string) (s : JobStatus) (p : option Z)
    (e : option string) (jobs : gmap string Job) :
  jobs !! job_id = None → update_status t job_id s p e jobs = jobs.
Proof.
  intros Hj. unfold update_status. apply map_eq. intros k.
  destruct (decide (job_id = k)) as [<-|Hne].
  - rewrite lookup_alter_eq, Hj. reflexivity.
  - apply lookup_alter_ne. exact Hne.
Qed.

Lemma update_row_status (t : Z) (s : JobStatus) (p : option Z) (e : option string) (j : Job) :
  status (update_row t s p e j) = s.
Proof. destruct s, p; reflexivity. Qed.

Lemma update_row_progress (t : Z) (s : JobStatus) (p : option Z) (e : option string) (j : Job) :
  progress (update_row t s p e j) = default (progress j) p.
Proof. destruct s, p; reflexivity. Qed.

Lemma update_row_error (t : Z) (s : JobStatus) (p : option Z) (e : option string) (j : Job) :
  error_message (update_row t s p e j) = e.
Proof. destruct s, p; reflexivity. Qed.

(** [started_at] is first-write-wins: [COALESCE] keeps a value that is
    already there, whatever is written later. *)
Lemma started_at_first_write_wins (t t0 : Z) (s : JobStatus) (p : option Z)
    (e : option string) (j : Job) :
  started_at j = Some t0 → started_at (update_row t s p e j) = Some t0.
Proof. intros H. destruct s, p; simpl; rewrite ?H; reflexivity. Qed.

(** [started_at] is written by a RUNNING update only. *)
Lemma started_at_only_when_running (t : Z) (s : JobStatus) (p : option Z)
    (e : option string) (j : Job) :
  s ≠ RUNNING → started_at (update_row t s p e j) = started_at j.
Proof. intros H. destruct s, p; simpl; congruence. Qed.

(** A terminal update writes [completed_at] unconditionally. *)
Lemma completed_at_written (t : Z) (s : JobStatus) (p : option Z)
    (e : option string) (j : Job) :
  s = COMPLETED ∨ s = FAILED → completed_at (update_row t s p e j) = Some t.
Proof. intros [-> | ->]; destruct p; reflexivity. Qed.

(** ** Effects *)

Arguments update_row : simpl never.

Ltac eff :=
  unfold mbind, mret, Eff_bind, Eff_ret, inspect, change, raise, try_except,
         do_update_status in *;
  simpl in *.


Lemma cancel_job_running (t : Z) (job_id : string) (w : World) (j : Job) :
  get_job job_id (jobs_table w) = Some j →
  status j = RUNNING →
  ∃ w', cancel_job t job_id w = (Returned true, w')
        ∧ get_job job_id (jobs_table w')
          = Some (update_row t FAILED None (Some "Job cancelled by user") j)
        ∧ active_containers w' = active_containers w
        ∧ live_units w' = live_units w.
Proof.
  intros Hj Hs. unfold cancel_job. eff. rewrite Hj.
  destruct (decide (status j ≠ RUNNING)) as [Hn|_]; [contradiction|].
  destruct (job_manager_containers w !! job_id); simpl;
    (eexists; split; [reflexivity|]; simpl; split; [|split; reflexivity]);
    unfold get_job in *; apply update_status_lookup; exact Hj.
Qed.

(** ** C1: the status field and terminal states *)




(** ** C3: the time stamps *)

(** C3 at its failing input, in general form: a terminal update of a row
    whose [completed_at] is already set replaces the value ([completed_at =
    ?] where the RUNNING branch has [COALESCE(started_at, ?)]). *)
Theorem completed_at_overwritten (t0 t : Z) (job_id : string) (s : JobStatus)
    (p : option Z) (e : option string) (jobs : gmap string Job) (j : Job) :
  jobs !! job_id = Some j →
  completed_at j = Some t0 →
  s = COMPLETED ∨ s = FAILED →
  completed_at <$> get_job job_id (update_status t job_id s p e jobs) = Some (Some t).
Proof.
  intros Hj _ Hs. unfold get_job. rewrite (update_status_lookup _ _ _ _ _ _ _ Hj). simpl.
  rewrite (completed_at_written _ _ _ _ _ Hs). reflexivity.
Qed.

(** job-1 is cancelled at time 50; at time 60 the loop handles the line
    the generator yields for the stopped container and writes FAILED once
    more: [completed_at] moves from 50 to 60. *)
Lemma completed_at_overwritten_witness :
  completed_at <$> get_job "job-1"
      (update_status 50 "job-1" FAILED None (Some "Job cancelled by user") accepted)
  = Some (Some 50%Z)
  ∧ completed_at <$> get_job "job-1"
      (update_status 60 "job-1" FAILED None (Some "Container exited with code 137")
         (update_status 50 "job-1" FAILED None (Some "Job cancelled by user") accepted))
    = Some (Some 60%Z).
Proof.
  split; [vm_compute; reflexivity|].
  eapply (completed_at_overwritten 50 60 "job-1" FAILED None
            (Some "Container exited with code 137")
            (update_status 50 "job-1" FAILED None (Some "Job cancelled by user") accepted)).
  - vm_compute. reflexivity.
  - reflexivity.
  - right. reflexivity.
Defined.

(** ** C8: worker reconnection *)

(** A worker that exits with code 0 is not restarted. *)
Lemma no_reconnect_after_clean_exit (cfg : WorkerConfig) (later : list Launch) (c : Coordinator) :
  reconnects (snd (start_worker_node WORKER cfg (Exits 0 :: later) c)) = reconnects c.
Proof. reflexivity. Qed.

(** C8 at its failing input, in general form: with any positive
    [reconnect_attempts], [n] workers in a row that exit with code 1 are
    followed by [n] reconnects; the setting is tested for being positive and
    never counted down. *)
Theorem reconnects_not_bounded (cfg : WorkerConfig) (n : nat) (c : Coordinator) :
  (reconnect_attempts cfg > 0)%Z →
  reconnects (snd (start_worker_node WORKER cfg (replicate n (Exits 1)) c))
  = (reconnects c + n)%nat
  ∧ slept (snd (start_worker_node WORKER cfg (replicate n (Exits 1)) c))
    = (slept c + Z.of_nat n * reconnect_delay cfg)%Z.
Proof.
  intros Hpos. revert c. induction n as [|n IH]; intros c.
  - simpl. split; [lia | lia].
  - simpl. unfold _monitor_worker_process. simpl.
    rewrite (bool_decide_eq_true_2 _ Hpos). simpl.
    destruct (IH (mkCoordinator
                    (filter (λ p, p ≠ launched c) (worker_processes c ++ [launched c]))
                    (S (launched c)) (S (reconnects c))
                    (slept c + reconnect_delay cfg)%Z)) as [Hr Hs].
    rewrite Hr, Hs. simpl. split; lia.
Qed.

(** With the default ceiling of 5 attempts, eight failing workers are
    followed by eight reconnects. *)
Lemma reconnects_not_bounded_witness :
  (reconnect_attempts default_worker > 0)%Z
  ∧ reconnect_attempts default_worker = 5%Z
  ∧ reconnects (snd (start_worker_node WORKER default_worker (replicate 8 (Exits 1)) idle))
    = 8%nat.
Proof.
  assert (H : (reconnect_attempts default_worker > 0)%Z) by (simpl; lia).
  split; [exact H|]. split; [reflexivity|].
  exact (proj1 (reconnects_not_bounded default_worker 8 idle H)).
Defined.

(** ** C5: cancellation *)

(** In subprocess mode [stop_job_container] fails inside its own [try]:
    nothing is stopped and the entry stays. *)
Lemma stop_job_container_subprocess (job_id : string) (pid : Z) (w : World) :
  active_containers w !! job_id = Some (AsyncProcess pid) →
  stop_job_container job_id w = (Returned false, w).
Proof.
  intros Hh. unfold stop_job_container. eff. rewrite Hh. reflexivity.
Qed.

(** With a Docker SDK container whose [remove] succeeds the unit is stopped
    and the entry removed. *)
Lemma stop_job_container_sdk (job_id cid : string) (w : World) :
  active_containers w !! job_id = Some (DockerContainer cid None) →
  stop_job_container job_id w
  = (Returned true,
     with_active_containers (delete job_id)
       (with_live_units (filter (λ u, u ≠ DockerContainer cid None)) w)).
Proof.
  intros Hh. unfold stop_job_container. eff. rewrite Hh. reflexivity.
Qed.

(** When [remove] raises, the unit is stopped but the entry stays. *)
Lemma stop_job_container_sdk_removed (job_id cid e : string) (w : World) :
  active_containers w !! job_id = Some (DockerContainer cid (Some e)) →
  stop_job_container job_id w
  = (Returned false,
     with_live_units (filter (λ u, u ≠ DockerContainer cid (Some e))) w).
Proof.
  intros Hh. unfold stop_job_container. eff. rewrite Hh. reflexivity.
Qed.

(** Cancelling a job that is not RUNNING is refused with status 400 and
    changes nothing. *)
Lemma cancel_refused_unless_running (t : Z) (job_id : string) (w : World) (j : Job) :
  get_job job_id (jobs_table w) = Some j →
  status j ≠ RUNNING →
  cancel_job_endpoint t job_id w
  = (Returned (HTTPException 400
                 ("Job is not running (status: " +:+ status_text (status j) +:+ ")")), w).
Proof.
  intros Hj Hs. unfold cancel_job_endpoint. eff. rewrite Hj.
  destruct (decide (status j ≠ RUNNING)) as [_|Hn]; [reflexivity | contradiction].
Qed.

(** C5 at its failing input, in general form: a RUNNING job whose handle is
    the [asyncio] process of subprocess mode is reported as cancelled and
    stored as FAILED with the cancellation message, while its execution
    unit keeps running and its entry stays in [active_containers]. *)
Theorem cancel_leaves_subprocess_running (t : Z) (job_id : string) (pid : Z)
    (w : World) (j : Job) :
  get_job job_id (jobs_table w) = Some j →
  status j = RUNNING →
  active_containers w !! job_id = Some (AsyncProcess pid) →
  ∃ w', cancel_job_endpoint t job_id w
        = (Returned (Success "Job cancelled successfully"), w')
        ∧ status <$> get_job job_id (jobs_table w') = Some FAILED
        ∧ get_job job_id (jobs_table w') ≫= error_message = Some "Job cancelled by user"
        ∧ live_units w' = live_units w
        ∧ active_containers w' !! job_id = Some (AsyncProcess pid).
Proof.
  intros Hj Hs Hh.
  destruct (cancel_job_running t job_id w j Hj Hs) as (w' & Hc & Hg & Ha & Hl).
  exists w'. unfold cancel_job_endpoint.
  unfold mbind, Eff_bind, inspect, try_except, mret, Eff_ret. rewrite Hj.
  destruct (decide (status j ≠ RUNNING)) as [Hn|_]; [contradiction|].
  rewrite (stop_job_container_subprocess _ _ _ Hh), Hc.
  split; [reflexivity|]. rewrite Hg, Ha, Hl.
  split; [|split; [|split; [reflexivity | exact Hh]]].
  - reflexivity.
  - reflexivity.
Qed.

(** job-1 runs in subprocess mode as process 4242 and is cancelled at
    time 50. *)
Lemma cancel_leaves_subprocess_running_witness :
  ∃ w', cancel_job_endpoint 50 "job-1" subprocess_world
        = (Returned (Success "Job cancelled successfully"), w')
        ∧ status <$> get_job "job-1" (jobs_table w') = Some FAILED
        ∧ get_job "job-1" (jobs_table w') ≫= error_message = Some "Job cancelled by user"
        ∧ live_units w' = [AsyncProcess 4242]
        ∧ active_containers w' !! "job-1" = Some (AsyncProcess 4242).
Proof.
  apply (cancel_leaves_subprocess_running 50 "job-1" 4242 subprocess_world
           (update_row 1 RUNNING (Some 5%Z) None
              (mkJob "job-1" "sol" PENDING 0 None None "{}" "job-1_dem.tif" None 0))).
  - vm_compute. reflexivity.
  - reflexivity.
  - vm_compute. reflexivity.
Defined.

(** ** File removal *)

(** Removing files never touches the table of jobs. *)
Lemma remove_keeps_jobs (p : path) (w : World) :
  jobs_table (snd (remove p w)) = jobs_table w.
Proof. unfold remove. destruct (fault_of p (files w)); reflexivity. Qed.

Lemma remove_if_exists_keeps_jobs (p : path) (w : World) :
  jobs_table (snd (remove_if_exists p w)) = jobs_table w.
Proof.
  unfold remove_if_exists. eff.
  destruct (path_exists p (files w)); [apply remove_keeps_jobs | reflexivity].
Qed.

Lemma for_each_remove_keeps_jobs (names : list string) (w : World) :
  jobs_table (snd (for_each names (λ name, remove (UploadFile name)) w)) = jobs_table w.
Proof.
  revert w. induction names as [|n names IH]; intros w; [reflexivity|].
  simpl. unfold mbind, Eff_bind.
  pose proof (remove_keeps_jobs (UploadFile n) w) as Hn.
  destruct (remove (UploadFile n) w) as [[[]|e] w1]; simpl in *.
  - rewrite IH. exact Hn.
  - exact Hn.
Qed.

Lemma clean_up_files_keeps_jobs (job_id : string) (w : World) :
  jobs_table (snd (clean_up_files job_id w)) = jobs_table w.
Proof.
  unfold clean_up_files, mbind, Eff_bind, inspect.
  pose proof (remove_if_exists_keeps_jobs (ResultsDir job_id) w) as H1.
  destruct (remove_if_exists (ResultsDir job_id) w) as [[[]|e1] w1]; simpl in *; [|exact H1].
  pose proof (remove_if_exists_keeps_jobs (ResultsZip job_id) w1) as H2.
  destruct (remove_if_exists (ResultsZip job_id) w1) as [[[]|e2] w2]; simpl in *;
    [|congruence].
  rewrite for_each_remove_keeps_jobs. congruence.
Qed.

(** ** C10: the record goes before the files *)

(** [delete_job] on an existing job that is not RUNNING: the row is
    deleted, then the files are cleaned up inside the [try]. *)
Lemma delete_job_removes_record_first_aux (job_id : string) (w : World) (j : Job) :
  get_job job_id (jobs_table w) = Some j →
  status j ≠ RUNNING →
  delete_job job_id w
  = match clean_up_files job_id (with_jobs (delete job_id) w) with
    | (Returned _, w') => (Returned (true, ""), w')
    | (Raised e, w') => (Returned (false, "Database or filesystem error: " +:+ e), w')
    end.
Proof.
  intros Hj Hs. unfold delete_job.
  unfold try_except, mbind, Eff_bind, inspect, change, mret, Eff_ret. rewrite Hj.
  destruct (decide (status j = RUNNING)) as [Hr|_]; [contradiction|].
  destruct (clean_up_files job_id (with_jobs (delete job_id) w)) as [[[]|e] w'];
    reflexivity.
Qed.

(** C10: for an existing job that is not RUNNING, [delete_job] has removed
    the row from the table whatever it returns; when it returns a failure,
    the failure is the one of the handler around the file clean-up, and the
    row is gone all the same. *)
Theorem delete_job_removes_record_first (job_id : string) (w : World) (j : Job) :
  get_job job_id (jobs_table w) = Some j →
  status j ≠ RUNNING →
  ∃ success error_msg w',
    delete_job job_id w = (Returned (success, error_msg), w')
    ∧ jobs_table w' = delete job_id (jobs_table w)
    ∧ get_job job_id (jobs_table w') = None
    ∧ (success = false →
       ∃ e, error_msg = "Database or filesystem error: " +:+ e
            ∧ clean_up_files job_id (with_jobs (delete job_id) w) = (Raised e, w')).
Proof.
  intros Hj Hs. unfold delete_job.
  unfold try_except, mbind, Eff_bind, inspect, change, mret, Eff_ret. rewrite Hj.
  destruct (decide (status j = RUNNING)) as [Hr|_]; [contradiction|].
  pose proof (clean_up_files_keeps_jobs job_id (with_jobs (delete job_id) w)) as Hk.
  destruct (clean_up_files job_id (with_jobs (delete job_id) w)) as [[[]|e] w'];
    simpl in Hk.
  - exists true, "", w'. split; [reflexivity|]. split; [exact Hk|].
    split; [unfold get_job; rewrite Hk; apply lookup_delete_eq | discriminate].
  - exists false, ("Database or filesystem error: " +:+ e), w'.
    split; [reflexivity|]. split; [exact Hk|].
    split; [unfold get_job; rewrite Hk; apply lookup_delete_eq|].
    intros _. exists e. split; reflexivity.
Qed.

(** The results directory of the finished job-1 cannot be removed:
    [delete_job] fails with the text of the [OSError], the row is gone, the
    files are all still there. *)
Lemma delete_job_removes_record_first_witness :
  ∃ w', delete_job "job-1" (world_of finished_ok job1_files_locked)
        = (Returned (false,
                     "Database or filesystem error: [Errno 13] Permission denied: 'results/job-1'"),
           w')
        ∧ get_job "job-1" (jobs_table w') = None
        ∧ files w' = job1_files_locked.
Proof.
  destruct (delete_job_removes_record_first "job-1"
              (world_of finished_ok job1_files_locked)
              (update_row 100 COMPLETED (Some 100%Z) None
                 (update_row 1 RUNNING (Some 5%Z) None
                    (mkJob "job-1" "sol" PENDING 0 None None "{}" "job-1_dem.tif" None 0))))
    as (success & error_msg & w' & Hd & _ & Hg & _).
  - vm_compute. reflexivity.
  - discriminate.
  - exists w'. split; [|split; [exact Hg|]].
    + rewrite Hd. vm_compute in Hd. injection Hd as <- <- _. reflexivity.
    + vm_compute in Hd. injection Hd as _ _ <-. reflexivity.
Defined.

(** ** C4: which jobs can be deleted *)

Lemma remove_ok (p : path) (w : World) :
  faults (files w) = [] →
  remove p w = (Returned tt, with_files (remove_path p) w).
Proof. intros Hf. unfold remove, fault_of. rewrite Hf. reflexivity. Qed.

Lemma remove_path_faults (p : path) (fs : FileSystem) :
  faults (remove_path p fs) = faults fs.
Proof. destruct p; reflexivity. Qed.

Lemma path_exists_removed (p : path) (fs : FileSystem) :
  path_exists p (remove_path p fs) = false.
Proof.
  destruct p; simpl; apply bool_decide_eq_false_2; rewrite lookup_delete_eq;
    intros [x Hx]; discriminate.
Qed.

Lemma remove_if_exists_ok (p : path) (w : World) :
  faults (files w) = [] →
  ∃ w', remove_if_exists p w = (Returned tt, w')
        ∧ path_exists p (files w') = false
        ∧ faults (files w') = []
        ∧ jobs_table w' = jobs_table w
        ∧ (∀ q, path_exists q (files w) = false → path_exists q (files w') = false).
Proof.
  intros Hf. unfold remove_if_exists. eff.
  destruct (path_exists p (files w)) eqn:Hp.
  - rewrite (remove_ok p w Hf). eexists. split; [reflexivity|]. simpl.
    split; [apply path_exists_removed|]. split; [rewrite remove_path_faults; exact Hf|].
    split; [reflexivity|].
    intros q Hq. destruct p, q; simpl in *; try exact Hq;
      apply bool_decide_eq_false_2; apply bool_decide_eq_false_1 in Hq;
      intros [x Hx]; apply Hq; apply lookup_delete_Some in Hx as [_ Hx]; eauto.
  - exists w. repeat split; auto.
Qed.

Lemma for_each_remove_ok (names : list string) (w : World) :
  faults (files w) = [] →
  ∃ w', for_each names (λ name, remove (UploadFile name)) w = (Returned tt, w')
        ∧ results_dirs (files w') = results_dirs (files w)
        ∧ results_zips (files w') = results_zips (files w)
        ∧ (∀ k, k ∈ names → uploads (files w') !! k = None)
        ∧ (∀ k, uploads (files w) !! k = None → uploads (files w') !! k = None).
Proof.
  revert w. induction names as [|n names IH]; intros w Hf.
  - exists w. repeat split; auto. intros k Hk. inversion Hk.
  - simpl. unfold mbind, Eff_bind. rewrite (remove_ok _ w Hf).
    destruct (IH (with_files (remove_path (UploadFile n)) w)) as (w' & Hr & Hd & Hz & Hin & Hout).
    { simpl. exact Hf. }
    exists w'. split; [exact Hr|]. simpl in *.
    split; [exact Hd|]. split; [exact Hz|]. split.
    + intros k Hk. apply elem_of_cons in Hk as [->|Hk]; [|auto].
      apply Hout. apply lookup_delete_eq.
    + intros k Hk. apply Hout. rewrite lookup_delete_None. auto.
Qed.

Lemma clean_up_files_ok (job_id : string) (w : World) :
  faults (files w) = [] →
  ∃ w', clean_up_files job_id w = (Returned tt, w')
        ∧ path_exists (ResultsDir job_id) (files w') = false
        ∧ path_exists (ResultsZip job_id) (files w') = false
        ∧ glob_uploads job_id (files w') = [].
Proof.
  intros Hf. unfold clean_up_files, mbind, Eff_bind, inspect.
  destruct (remove_if_exists_ok (ResultsDir job_id) w Hf) as (w1 & -> & Hd1 & Hf1 & _ & _).
  destruct (remove_if_exists_ok (ResultsZip job_id) w1 Hf1) as (w2 & -> & Hz2 & Hf2 & _ & Hk2).
  destruct (for_each_remove_ok (glob_uploads job_id (files w2)) w2 Hf2)
    as (w3 & -> & Hd & Hz & Hin & Hout).
  exists w3. split; [reflexivity|].
  split; [simpl; rewrite Hd; exact (Hk2 (ResultsDir job_id) Hd1)|].
  split; [simpl; rewrite Hz; exact Hz2|].
  apply elem_of_nil_inv. intros name Hname.
  unfold glob_uploads in Hname. apply list_elem_of_filter in Hname as [Hp Hm].
  apply list_elem_of_fmap in Hm as ([k size] & -> & Hm). simpl in *.
  apply elem_of_map_to_list in Hm.
  destruct (uploads (files w2) !! k) as [size2|] eqn:Hk.
  - assert (k ∈ glob_uploads job_id (files w2)) as Hg.
    { unfold glob_uploads. apply list_elem_of_filter. split; [exact Hp|].
      apply list_elem_of_fmap. exists (k, size2). split; [reflexivity|].
      apply elem_of_map_to_list. exact Hk. }
    rewrite (Hin k Hg) in Hm. discriminate.
  - rewrite (Hout k Hk) in Hm. discriminate.
Qed.

(** C4, as the code has it: the only status that blocks deletion is
    RUNNING (refused, nothing changed, status 400 at the endpoint); in any
    other status, PENDING included, and with no file system error on the
    way, [delete_job] succeeds and leaves neither the row nor the results
    directory, the zip file or an upload named after the job. *)
Theorem delete_job_blocked_only_while_running (job_id : string) (w : World) (j : Job) :
  get_job job_id (jobs_table w) = Some j →
  (status j = RUNNING →
   delete_job job_id w = (Returned (false, "Cannot delete running job"), w)
   ∧ delete_job_endpoint job_id w
     = (Returned (HTTPException 400 "Cannot delete running job. Please cancel it first."), w))
  ∧ (status j ≠ RUNNING →
     faults (files w) = [] →
     ∃ w', delete_job job_id w = (Returned (true, ""), w')
           ∧ get_job job_id (jobs_table w') = None
           ∧ path_exists (ResultsDir job_id) (files w') = false
           ∧ path_exists (ResultsZip job_id) (files w') = false
           ∧ glob_uploads job_id (files w') = []).
Proof.
  intros Hj. split.
  - intros Hs.
    assert (Hd : delete_job job_id w = (Returned (false, "Cannot delete running job"), w)).
    { unfold delete_job. eff. rewrite Hj.
      destruct (decide (status j = RUNNING)); [reflexivity | contradiction]. }
    split; [exact Hd|]. unfold delete_job_endpoint, mbind, Eff_bind. rewrite Hd.
    reflexivity.
  - intros Hs Hf.
    pose proof (delete_job_removes_record_first_aux job_id w j Hj Hs) as Hform.
    destruct (clean_up_files_ok job_id (with_jobs (delete job_id) w) Hf)
      as (w' & Hc & Hd & Hz & Hg).
    exists w'. rewrite Hform, Hc. simpl.
    pose proof (clean_up_files_keeps_jobs job_id (with_jobs (delete job_id) w)) as Hk.
    rewrite Hc in Hk. simpl in Hk.
    split; [reflexivity|]. split; [|auto].
    unfold get_job. rewrite Hk. apply lookup_delete_eq.
Qed.

(** job-1 is still PENDING, with its upload, results and zip on disk:
    deletion goes through and nothing of the job is left. *)
Lemma delete_job_blocked_only_while_running_witness :
  status <$> get_job "job-1" (jobs_table (world_of submitted job1_files)) = Some PENDING
  ∧ ∃ w', delete_job "job-1" (world_of submitted job1_files) = (Returned (true, ""), w')
          ∧ get_job "job-1" (jobs_table w') = None
          ∧ path_exists (ResultsDir "job-1") (files w') = false
          ∧ path_exists (ResultsZip "job-1") (files w') = false
          ∧ glob_uploads "job-1" (files w') = [].
Proof.
  split; [vm_compute; reflexivity|].
  apply (proj2 (delete_job_blocked_only_while_running "job-1"
                  (world_of submitted job1_files)
                  (mkJob "job-1" "sol" PENDING 0 None None "{}" "job-1_dem.tif" None 0)
                  ltac:(vm_compute; reflexivity))).
  - discriminate.
  - reflexivity.
Defined.

(** C4 as stated fails twice: a PENDING job is deleted like a finished
    one, and the deletion of a COMPLETED job fails when a file cannot be
    removed. *)
Lemma pending_job_deleted_and_completed_job_not :
  (status <$> get_job "job-1" submitted = Some PENDING
   ∧ fst (delete_job "job-1" (world_of submitted job1_files)) = Returned (true, "")
   ∧ get_job "job-1" (jobs_table (snd (delete_job "job-1" (world_of submitted job1_files))))
     = None)
  ∧ (status <$> get_job "job-1" finished_ok = Some COMPLETED
     ∧ fst (delete_job "job-1" (world_of finished_ok job1_files_locked))
       = Returned (false,
                   "Database or filesystem error: [Errno 13] Permission denied: 'results/job-1'")
     ∧ files (snd (delete_job "job-1" (world_of finished_ok job1_files_locked)))
       = job1_files_locked).
Proof. vm_compute. repeat split; reflexivity. Qed.

(** ** C9: retention, dry run against live run *)

(** A dry run of either loop only counts. *)
Lemma clean_successful_dry (rows : list Job) (r : CleanupRun) :
  ∃ s, clean_successful true rows r = inl (mkRun s (uncommitted r) (world r))
       ∧ space_freed_mb s = space_freed_mb (stats r)
       ∧ errors s = errors (stats r)
       ∧ successful_cleaned s = (successful_cleaned (stats r) + Z.of_nat (length rows))%Z
       ∧ failed_deleted s = failed_deleted (stats r).
Proof.
  revert r. induction rows as [|job rows IH]; intros r.
  - exists (stats r). destruct r. simpl. repeat split; lia.
  - simpl. destruct (IH (mkRun (count_successful (stats r)) (uncommitted r) (world r)))
      as (s & Hs & Hsp & He & Hc & Hf).
    exists s. simpl in *. rewrite Hs. repeat split; auto. lia.
Qed.

Lemma delete_failed_dry (rows : list Job) (r : CleanupRun) :
  ∃ s, delete_failed true rows r = inl (mkRun s (uncommitted r) (world r))
       ∧ space_freed_mb s = space_freed_mb (stats r)
       ∧ errors s = errors (stats r)
       ∧ successful_cleaned s = successful_cleaned (stats r)
       ∧ failed_deleted s = (failed_deleted (stats r) + Z.of_nat (length rows))%Z.
Proof.
  revert r. induction rows as [|job rows IH]; intros r.
  - exists (stats r). destruct r. simpl. repeat split; lia.
  - simpl. destruct (IH (mkRun (count_failed (stats r)) (uncommitted r) (world r)))
      as (s & Hs & Hsp & He & Hc & Hf).
    exists s. simpl in *. rewrite Hs. repeat split; auto. lia.
Qed.

(** A dry run of [JobManager.cleanup_old_jobs] changes nothing, counts the
    selected jobs of both kinds and reports no space at all. *)
Lemma cleanup_old_jobs_dry (sql_before : Z → Z → bool) (now d h : Z) (w : World) :
  snd (cleanup_old_jobs sql_before now d h true w) = w
  ∧ space_freed_mb (fst (cleanup_old_jobs sql_before now d h true w)) = 0%Q
  ∧ successful_cleaned (fst (cleanup_old_jobs sql_before now d h true w))
    = Z.of_nat (length (select_expired sql_before COMPLETED (now - days d) (jobs_table w)))
  ∧ failed_deleted (fst (cleanup_old_jobs sql_before now d h true w))
    = Z.of_nat (length (select_expired sql_before FAILED (now - hours h) (jobs_table w))).
Proof.
  unfold cleanup_old_jobs.
  destruct (clean_successful_dry
              (select_expired sql_before COMPLETED (now - days d) (jobs_table w))
              (mkRun (mkStats 0 0 0 0 []) [] w)) as (s1 & H1 & Hsp1 & _ & Hc1 & Hf1).
  simpl in H1. rewrite H1.
  destruct (delete_failed_dry
              (select_expired sql_before FAILED (now - hours h) (jobs_table w))
              (mkRun s1 [] w)) as (s2 & H2 & Hsp2 & _ & Hc2 & Hf2).
  simpl in H2. rewrite H2.
  simpl in *. split; [reflexivity|]. split; [congruence|]. split; lia.
Qed.

(** C9 at its failing input.  job-1 finished at time 100 and has one file
    of 1 MiB under its results directory; the clean-up runs at time 700000
    with the default retention of 7 days and 12 hours, time stamps compared
    as numbers.  Both runs select the job and count it, but the dry run
    reports 0 MB where the live run reports 1 MB; the dry run of the
    stand-alone script reports what its live run reports. *)
Theorem dry_run_reports_no_reclaimed_space :
  let w := world_of finished_ok job1_files in
  let dry := cleanup_old_jobs Z.ltb 700000 7 12 true w in
  let live := cleanup_old_jobs Z.ltb 700000 7 12 false w in
  successful_cleaned (fst dry) = 1%Z
  ∧ successful_cleaned (fst live) = 1%Z
  ∧ space_freed_mb (fst dry) = 0%Q
  ∧ (space_freed_mb (fst live) == 1)%Q
  ∧ snd dry = w
  ∧ path_exists (ResultsDir "job-1") (files (snd live)) = false
  ∧ (JobCleanupManager.total_size_freed_mb
       (fst (JobCleanupManager.run_cleanup Z.ltb true 700000 7 12 w))
     == JobCleanupManager.total_size_freed_mb
          (fst (JobCleanupManager.run_cleanup Z.ltb false 700000 7 12 w)))%Q.
Proof.
  cbv zeta. split; [vm_compute; reflexivity|]. split; [vm_compute; reflexivity|].
  split; [apply cleanup_old_jobs_dry|]. split; [vm_compute; reflexivity|].
  split; [apply cleanup_old_jobs_dry|]. split; vm_compute; reflexivity.
Qed.

(** ** Strings *)

Lemma append_nil (s : string) : "" +:+ s = s.
Proof. reflexivity. Qed.

Lemma append_cons (c : ascii) (s1 s2 : string) :
  String c s1 +:+ s2 = String c (s1 +:+ s2).
Proof. reflexivity. Qed.

(** The characters of a decimal numeral: the digits and the minus sign. *)
Lemma string_of_uint_chars (d : Decimal.uint) :
  Forall (λ c, (45 ≤ nat_of_ascii c ≤ 57)%nat)
         (list_ascii_of_string (NilEmpty.string_of_uint d)).
Proof.
  induction d; simpl; [constructor | constructor; [vm_compute; lia | assumption] ..].
Qed.

Lemma str_chars (n : Z) :
  Forall (λ c, (45 ≤ nat_of_ascii c ≤ 57)%nat) (list_ascii_of_string (Py.str n)).
Proof.
  unfold Py.str, NilZero.string_of_int.
  assert (H : ∀ d, Forall (λ c, (45 ≤ nat_of_ascii c ≤ 57)%nat)
                     (list_ascii_of_string (NilZero.string_of_uint d))).
  { intros d. unfold NilZero.string_of_uint.
    destruct d; try apply string_of_uint_chars.
    simpl. constructor; [vm_compute; lia | constructor]. }
  destruct (Z.to_int n); [apply H|].
  simpl. constructor; [vm_compute; lia | apply H].
Qed.

Lemma str_not_empty (n : Z) : Py.str n ≠ "".
Proof.
  unfold Py.str, NilZero.string_of_int.
  destruct (Z.to_int n) as [d|d]; [|discriminate].
  unfold NilZero.string_of_uint. destruct d; simpl; discriminate.
Qed.

(** [s.replace(old, new)] is [s] when the first character of [old] does
    not occur in [s]. *)
Lemma replace_scan_absent (c0 : ascii) (old new s : string) :
  Forall (λ c, c ≠ c0) (list_ascii_of_string s) →
  Py.replace_scan (String c0 old) new 0 s = s.
Proof.
  induction s as [|c s IH]; intros H; [reflexivity|].
  simpl in H. inversion H as [|? ? Hc Hs]; subst.
  simpl. destruct (Ascii.ascii_dec c0 c) as [->|_]; [contradiction|].
  rewrite IH by assumption. reflexivity.
Qed.

Lemma numeral_char_not_space (c : ascii) :
  (45 ≤ nat_of_ascii c ≤ 57)%nat → Py.is_space c = false.
Proof.
  intros H. unfold Py.is_space. cbv zeta.
  destruct (Nat.leb_spec (nat_of_ascii c) 13), (Nat.leb_spec (nat_of_ascii c) 32);
    lia.
Qed.

Lemma numeral_char_not (c c0 : ascii) :
  (57 < nat_of_ascii c0)%nat → (45 ≤ nat_of_ascii c ≤ 57)%nat → c ≠ c0.
Proof. intros H0 H ->. lia. Qed.

(** [rstrip] leaves a text without white space as it is. *)
Lemma rstrip_no_space (s : string) :
  Forall (λ c, Py.is_space c = false) (list_ascii_of_string s) → Py.rstrip s = s.
Proof.
  induction s as [|c s IH]; intros H; [reflexivity|].
  simpl in H. inversion H as [|? ? Hc Hs]; subst.
  simpl. rewrite IH by assumption. rewrite Hc. destruct s; reflexivity.
Qed.

Lemma rstrip_app (s1 s2 : string) :
  s2 ≠ "" → Py.rstrip s2 = s2 → Py.rstrip (s1 +:+ s2) = s1 +:+ s2.
Proof.
  intros Hne H2. induction s1 as [|c s1 IH]; [exact H2|].
  rewrite append_cons. simpl. rewrite IH. destruct (s1 +:+ s2) eqn:E; [|reflexivity].
  destruct s1; [contradiction | discriminate].
Qed.



Arguments Py.str : simpl never.


Lemma container_exit_error_message (exit_code : Z) :
  Py.strip (Py.replace (Py.replace
     ("FAILED: Container exited with code " +:+ Py.str exit_code) "ERROR:" "")
     "FAILED:" "")
  = "Container exited with code " +:+ Py.str exit_code.
Proof.
  pose proof (str_chars exit_code) as Hc.
  pose proof (str_not_empty exit_code) as Hn.
  unfold Py.replace. rewrite !append_cons, append_nil. simpl.
  rewrite (replace_scan_absent "E" "RROR:" "" (Py.str exit_code)).
  2:{ eapply Forall_impl; [exact Hc|]. intros c H. apply numeral_char_not; [vm_compute; lia | exact H]. }
  simpl.
  rewrite (replace_scan_absent "F" "AILED:" "" (Py.str exit_code)).
  2:{ eapply Forall_impl; [exact Hc|]. intros c H. apply numeral_char_not; [vm_compute; lia | exact H]. }
  unfold Py.strip. simpl.
  rewrite <- ?append_cons. rewrite <- (append_nil (Py.str _)) at 1.
  rewrite <- ?append_cons.
  apply (rstrip_app "Container exited with code " (Py.str exit_code) Hn).
  apply rstrip_no_space. eapply Forall_impl; [exact Hc|].
  intros c H. apply numeral_char_not_space. exact H.
Qed.


(** ** The supervision loop *)

Arguments do_update_status : simpl never.

(** A call of [update_status] whose progress binds. *)
Lemma do_update_status_lookup (t : Z) (job_id : string) (s : JobStatus) (p : option Z)
    (e : option string) (w : World) (j : Job) :
  binds p = true →
  get_job job_id (jobs_table w) = Some j →
  ∃ w', do_update_status t job_id s p e w = (Returned tt, w')
        ∧ files w' = files w
        ∧ store_writes w' = store_writes w ++ [mkWrite job_id s p e]
        ∧ get_job job_id (jobs_table w') = Some (update_row t s p e j).
Proof.
  intros Hb Hj. unfold do_update_status. rewrite Hb.
  eexists. split; [reflexivity|]. simpl.
  split; [reflexivity|]. split; [reflexivity|].
  unfold get_job in *. apply update_status_lookup. exact Hj.
Qed.

(** A call whose progress does not bind raises and changes nothing. *)
Lemma do_update_status_overflow (t : Z) (job_id : string) (s : JobStatus) (p : option Z)
    (e : option string) (w : World) :
  binds p = false →
  do_update_status t job_id s p e w
  = (Raised "Python int too large to convert to SQLite INTEGER", w).
Proof. intros Hb. unfold do_update_status. rewrite Hb. reflexivity. Qed.

(** The [try] around the handling of a PROGRESS: update: the write is made
    and [last_progress] moves on when the percentage binds; otherwise the
    exception is dropped and nothing changes. *)
Lemma progress_step {A : Type} (t : Z) (job_id : string) (pct last : Q)
    (k : Q → Eff A) (w : World) :
  (last' ← try_except
             (do_update_status t job_id RUNNING (Some (Py.int pct)) None ;; mret pct)
             (λ _, mret last);
   k last') w
  = if fits_sqlite_integer (Py.int pct)
    then (do_update_status t job_id RUNNING (Some (Py.int pct)) None ;; k pct) w
    else k last w.
Proof.
  unfold mbind, Eff_bind, try_except, do_update_status, binds, change, raise, mret, Eff_ret.
  destruct (fits_sqlite_integer (Py.int pct)); reflexivity.
Qed.

Lemma cleanup_job_data_keep_results (job_id : string) (w : World) :
  ∃ w', cleanup_job_data job_id true w = (Returned tt, w')
        ∧ jobs_table w' = jobs_table w ∧ store_writes w' = store_writes w.
Proof.
  unfold cleanup_job_data, try_except, mbind, Eff_bind, inspect, mret, Eff_ret.
  destruct (path_exists (TempDir job_id) (files w)); [|eauto].
  unfold remove. destruct (fault_of (TempDir job_id) (files w)); eauto.
Qed.

Section Loop.

Variable float : string → option Q.

(** The loop never raises and leaves the files alone.  From a RUNNING job
    it is left by [break] with the job COMPLETED at 100 or FAILED, and read
    to the end with the job still RUNNING. *)
Lemma consume_spec (job_id : string) (progress_stream : list ProgressUpdate) :
  ∀ (last_progress : Q) (w : World) (j : Job),
    get_job job_id (jobs_table w) = Some j →
    status j = RUNNING →
    ∃ left w' j',
      consume float job_id last_progress progress_stream w = (Returned left, w')
      ∧ files w' = files w
      ∧ get_job job_id (jobs_table w') = Some j'
      ∧ match left with
        | ReadToEnd => status j' = RUNNING
        | LeftByBreak =>
            (status j' = COMPLETED ∧ progress j' = 100%Z) ∨ status j' = FAILED
        end.
Proof.
  induction progress_stream as [|[now update] later IH]; intros last w j Hj Hs.
  - exists ReadToEnd, w, j. repeat split; assumption.
  - cbn [consume].
    destruct (Py.startswith update "PROGRESS:").
    { destruct (Py.contains "%" _); [|eapply IH; eassumption].
      destruct (float _) as [pct|]; [|eapply IH; eassumption].
      destruct (Py.ne pct last); [|eapply IH; eassumption].
      rewrite progress_step.
      destruct (fits_sqlite_integer (Py.int pct)) eqn:Hfit; [|eapply IH; eassumption].
      destruct (do_update_status_lookup now job_id RUNNING (Some (Py.int pct)) None w j
                  Hfit Hj) as (w1 & Hw & Hf & _ & Hg).
      unfold mbind, Eff_bind. rewrite Hw.
      destruct (IH pct w1 _ Hg (update_row_status _ _ _ _ _)) as (l & w' & j' & H1 & H2 & H3).
      exists l, w', j'. split; [exact H1|]. split; [congruence | exact H3]. }
    destruct (Py.startswith update "STATUS:"); [eapply IH; eassumption|].
    destruct (Py.startswith update "COMPLETED:").
    { destruct (do_update_status_lookup now job_id COMPLETED (Some 100%Z) None w j eq_refl Hj)
        as (w1 & Hw & Hf & _ & Hg).
      unfold mbind, Eff_bind. rewrite Hw.
      eexists LeftByBreak, w1, _. split; [reflexivity|]. split; [exact Hf|].
      split; [exact Hg|]. left. split; [apply update_row_status|].
      rewrite update_row_progress. reflexivity. }
    destruct (Py.startswith update "ERROR:" || Py.startswith update "FAILED:").
    { destruct (do_update_status_lookup now job_id FAILED None
                  (Some (Py.strip (Py.replace (Py.replace update "ERROR:" "") "FAILED:" "")))
                  w j eq_refl Hj) as (w1 & Hw & Hf & _ & Hg).
      unfold mbind, Eff_bind. rewrite Hw.
      eexists LeftByBreak, w1, _. split; [reflexivity|]. split; [exact Hf|].
      split; [exact Hg|]. right. apply update_row_status. }
    eapply IH; eassumption.
Qed.

(** Updates that carry no marker are passed over: the job stays RUNNING
    with the error message it had. *)
Lemma consume_unmarked (job_id : string) (before later : list ProgressUpdate) :
  Forall (λ u, is_terminal_marker (text u) = false) before →
  ∀ (last_progress : Q) (w : World) (j : Job),
    get_job job_id (jobs_table w) = Some j →
    status j = RUNNING →
    ∃ last' w' j',
      consume float job_id last_progress (before ++ later) w
      = consume float job_id last' later w'
      ∧ files w' = files w
      ∧ get_job job_id (jobs_table w') = Some j'
      ∧ status j' = RUNNING.
Proof.
  induction 1 as [|[now update] before Hu _ IH]; intros last w j Hj Hs.
  - exists last, w, j. repeat split; assumption.
  - simpl in Hu. unfold is_terminal_marker in Hu.
    apply orb_false_elim in Hu as [Hu Hfailed].
    apply orb_false_elim in Hu as [Hcompleted Herror].
    rewrite <- app_comm_cons. cbn [consume].
    destruct (Py.startswith update "PROGRESS:").
    { destruct (Py.contains "%" _); [|eapply IH; eassumption].
      destruct (float _) as [pct|]; [|eapply IH; eassumption].
      destruct (Py.ne pct last); [|eapply IH; eassumption].
      rewrite progress_step.
      destruct (fits_sqlite_integer (Py.int pct)) eqn:Hfit; [|eapply IH; eassumption].
      destruct (do_update_status_lookup now job_id RUNNING (Some (Py.int pct)) None w j
                  Hfit Hj) as (w1 & Hw & Hf & _ & Hg).
      unfold mbind, Eff_bind. rewrite Hw.
      destruct (IH pct w1 _ Hg (update_row_status _ _ _ _ _)) as (l & w' & j' & H1 & H2 & H3).
      exists l, w', j'. split; [exact H1|]. split; [congruence | exact H3]. }
    destruct (Py.startswith update "STATUS:"); [eapply IH; eassumption|].
    rewrite Hcompleted, Herror, Hfailed. simpl.
    eapply IH; eassumption.
Qed.

(** The whole task in terms of what the loop did. *)
Lemma execute_after_loop (started finished : Z) (job_id : string)
    (progress_stream : list ProgressUpdate) (stream_end : StreamEnd)
    (w w1 w2 : World) (j2 : Job) (left : LoopExit) :
  do_update_status started job_id RUNNING (Some 5%Z) None w = (Returned tt, w1) →
  consume float job_id 0 progress_stream w1 = (Returned left, w2) →
  get_job job_id (jobs_table w2) = Some j2 →
  ∃ w',
    execute_containerized_workflow float started finished true job_id
      progress_stream stream_end w = (Returned tt, w')
    ∧ get_job job_id (jobs_table w')
      = Some match left, stream_end with
             | ReadToEnd, GeneratorRaised e =>
                 update_row finished FAILED None
                   (Some ("Container execution failed: " +:+ e)) j2
             | _, _ =>
                 if decide (status j2 = RUNNING)
                 then update_row finished COMPLETED (Some 100%Z) None j2
                 else j2
             end.
Proof.
  intros Hj Hc Hj2.
  unfold execute_containerized_workflow.
  unfold mbind at 1. unfold Eff_bind at 1.
  assert (Hbody : ∃ w3,
    try_except
      (do_update_status started job_id RUNNING (Some 5%Z) None ;;
       if negb true then
         do_update_status finished job_id FAILED None
           (Some "Docker not available or image not found")
       else
         left ← consume float job_id 0 progress_stream;
         (match left, stream_end with
          | ReadToEnd, GeneratorRaised e => raise e
          | _, _ => mret tt
          end) ;;
         job ← inspect (λ w, get_job job_id (jobs_table w));
         match job with
         | Some job =>
             if decide (status job = RUNNING)
             then do_update_status finished job_id COMPLETED (Some 100%Z) None
             else mret tt
         | None => mret tt
         end)
      (λ e, do_update_status finished job_id FAILED None
              (Some ("Container execution failed: " +:+ e))) w = (Returned tt, w3)
    ∧ get_job job_id (jobs_table w3)
      = Some match left, stream_end with
             | ReadToEnd, GeneratorRaised e =>
                 update_row finished FAILED None
                   (Some ("Container execution failed: " +:+ e)) j2
             | _, _ =>
                 if decide (status j2 = RUNNING)
                 then update_row finished COMPLETED (Some 100%Z) None j2
                 else j2
             end).
  { unfold try_except, mbind, Eff_bind. simpl negb. cbv iota.
    rewrite Hj. change (negb true) with false. cbv beta iota. rewrite Hc. cbv beta iota.
    destruct left, stream_end; simpl; unfold inspect, mret, Eff_ret, raise; simpl;
      rewrite ?Hj2;
      try (destruct (decide (status j2 = RUNNING));
           [ destruct (do_update_status_lookup finished job_id COMPLETED (Some 100%Z) None
                         w2 j2 eq_refl Hj2) as (w3 & Hw & _ & _ & Hg);
             rewrite Hw; exists w3; split; [reflexivity | exact Hg]
           | exists w2; split; [reflexivity | exact Hj2] ]).
    destruct (do_update_status_lookup finished job_id FAILED None
                (Some ("Container execution failed: " +:+ e)) w2 j2 eq_refl Hj2)
      as (w3 & Hw & _ & _ & Hg).
    rewrite Hw. exists w3. split; [reflexivity | exact Hg]. }
  destruct Hbody as (w3 & Hb & Hg3). rewrite Hb.
  destruct (cleanup_job_data_keep_results job_id w3) as (w4 & Hw4 & Hj4 & _).
  unfold try_except. rewrite Hw4. exists w4. split; [reflexivity|].
  rewrite Hj4. exact Hg3.
Qed.

(** A run whose first updates carry no marker: the job is RUNNING when the
    loop reaches the updates after them. *)
Lemma execute_unmarked_then (started finished : Z) (job_id : string)
    (before later : list ProgressUpdate) (stream_end : StreamEnd) (w : World) (j : Job) :
  get_job job_id (jobs_table w) = Some j →
  Forall (λ u, is_terminal_marker (text u) = false) before →
  ∃ last w1 j1,
    get_job job_id (jobs_table w1) = Some j1
    ∧ status j1 = RUNNING
    ∧ ∀ how w2 j2,
        consume float job_id last later w1 = (Returned how, w2) →
        get_job job_id (jobs_table w2) = Some j2 →
        ∃ w',
          execute_containerized_workflow float started finished true job_id
            (before ++ later) stream_end w = (Returned tt, w')
          ∧ get_job job_id (jobs_table w')
            = Some match how, stream_end with
                   | ReadToEnd, GeneratorRaised e =>
                       update_row finished FAILED None
                         (Some ("Container execution failed: " +:+ e)) j2
                   | _, _ =>
                       if decide (status j2 = RUNNING)
                       then update_row finished COMPLETED (Some 100%Z) None j2
                       else j2
                   end.
Proof.
  intros Hj Hbefore.
  destruct (do_update_status_lookup started job_id RUNNING (Some 5%Z) None w j eq_refl Hj)
    as (w0 & Hw0 & _ & _ & Hg0).
  destruct (consume_unmarked job_id before later Hbefore 0 w0 _ Hg0
              (update_row_status _ _ _ _ _)) as (last & w1 & j1 & Hc & _ & Hg1 & Hs1).
  exists last, w1, j1. split; [exact Hg1|]. split; [exact Hs1|].
  intros how w2 j2 Hlater Hg2.
  eapply execute_after_loop; [exact Hw0 | | exact Hg2].
  rewrite Hc. exact Hlater.
Qed.

(** The update of a clean exit. *)
Lemma consume_completed (job_id : string) (last_progress : Q) (u : ProgressUpdate)
    (w : World) (j : Job) :
  text u = "COMPLETED: Workflow execution finished successfully" →
  get_job job_id (jobs_table w) = Some j →
  ∃ w', consume float job_id last_progress [u] w = (Returned LeftByBreak, w')
        ∧ get_job job_id (jobs_table w')
          = Some (update_row (arrival u) COMPLETED (Some 100%Z) None j).
Proof.
  destruct u as [now update]. cbn [text arrival]. intros -> Hj.
  destruct (do_update_status_lookup now job_id COMPLETED (Some 100%Z) None w j eq_refl Hj)
    as (w1 & Hw & _ & _ & Hg).
  exists w1. split; [|exact Hg].
  simpl. unfold mbind, Eff_bind. rewrite Hw. reflexivity.
Qed.


(** However the task goes, it returns, and the job it was given is then
    COMPLETED at 100 or FAILED. *)
Lemma execute_ends_terminal (started finished : Z) (docker_available : bool)
    (job_id : string) (progress_stream : list ProgressUpdate) (stream_end : StreamEnd)
    (w : World) (j : Job) :
  get_job job_id (jobs_table w) = Some j →
  ∃ w' j',
    execute_containerized_workflow float started finished docker_available job_id
      progress_stream stream_end w = (Returned tt, w')
    ∧ get_job job_id (jobs_table w') = Some j'
    ∧ ((status j' = COMPLETED ∧ progress j' = 100%Z) ∨ status j' = FAILED).
Proof.
  intros Hj.
  destruct (do_update_status_lookup started job_id RUNNING (Some 5%Z) None w j eq_refl Hj)
    as (w0 & Hw0 & _ & _ & Hg0).
  destruct docker_available.
  - destruct (consume_spec job_id progress_stream 0 w0 _ Hg0 (update_row_status _ _ _ _ _))
      as (how & w2 & j2 & Hc & _ & Hg2 & Hhow).
    destruct (execute_after_loop started finished job_id progress_stream stream_end
                w w0 w2 j2 how Hw0 Hc Hg2) as (w' & He & Hg').
    eexists w', _. split; [exact He|]. split; [exact Hg'|].
    destruct how.
    + destruct Hhow as [[Hs Hp]|Hs];
        (destruct (decide (status j2 = RUNNING)) as [Hr|_]; [congruence|]);
        [left; split; assumption | right; assumption].
    + destruct stream_end.
      * destruct (decide (status j2 = RUNNING)) as [_|Hr]; [|contradiction].
        left. split; [apply update_row_status|]. rewrite update_row_progress. reflexivity.
      * right. apply update_row_status.
  - destruct (do_update_status_lookup finished job_id FAILED None
                (Some "Docker not available or image not found") w0 _ eq_refl Hg0)
      as (w1 & Hw1 & _ & _ & Hg1).
    destruct (cleanup_job_data_keep_results job_id w1) as (w2 & Hw2 & Hj2 & _).
    eexists w2, _. split; [|split; [rewrite Hj2; exact Hg1 | right; apply update_row_status]].
    unfold execute_containerized_workflow, try_except, mbind, Eff_bind.
    rewrite Hw0. change (negb false) with true. cbv beta iota.
    rewrite Hw1. cbv beta iota. rewrite Hw2. reflexivity.
Qed.


(** An ERROR: update ends the loop and stores its text. *)
Lemma consume_error_update (job_id : string) (last_progress : Q) (u : ProgressUpdate)
    (x : string) (after : list ProgressUpdate) (w : World) (j : Job) :
  text u = "ERROR: " +:+ x →
  get_job job_id (jobs_table w) = Some j →
  ∃ w', consume float job_id last_progress (u :: after) w = (Returned LeftByBreak, w')
        ∧ get_job job_id (jobs_table w')
          = Some (update_row (arrival u) FAILED None
                    (Some (Py.strip (Py.replace (Py.replace ("ERROR: " +:+ x) "ERROR:" "")
                                       "FAILED:" ""))) j).
Proof.
  destruct u as [now update]. cbn [text arrival]. intros -> Hj.
  cbn [consume].
  change (Py.startswith ("ERROR: " +:+ x) "PROGRESS:") with false.
  change (Py.startswith ("ERROR: " +:+ x) "STATUS:") with false.
  change (Py.startswith ("ERROR: " +:+ x) "COMPLETED:") with false.
  change (Py.startswith ("ERROR: " +:+ x) "ERROR:") with true.
  cbv iota. cbn [orb].
  destruct (do_update_status_lookup now job_id FAILED None
              (Some (Py.strip (Py.replace (Py.replace ("ERROR: " +:+ x) "ERROR:" "")
                                 "FAILED:" ""))) w j eq_refl Hj)
    as (w1 & Hw & _ & _ & Hg).
  exists w1. split; [|exact Hg].
  unfold mbind, Eff_bind. rewrite Hw. reflexivity.
Qed.

(** A stream whose first marker is an ERROR: update leaves the job FAILED
    with the text of that update. *)
Lemma execute_error_update (started finished : Z) (job_id : string)
    (before : list string) (x : string) (after : list string)
    (progress_stream : list ProgressUpdate) (stream_end : StreamEnd) (w : World) (j : Job) :
  get_job job_id (jobs_table w) = Some j →
  Forall (λ update, is_terminal_marker update = false) before →
  text <$> progress_stream = before ++ ("ERROR: " +:+ x) :: after →
  ∃ w' j',
    execute_containerized_workflow float started finished true job_id
      progress_stream stream_end w = (Returned tt, w')
    ∧ get_job job_id (jobs_table w') = Some j'
    ∧ status j' = FAILED
    ∧ error_message j'
      = Some (Py.strip (Py.replace (Py.replace ("ERROR: " +:+ x) "ERROR:" "") "FAILED:" "")).
Proof.
  intros Hj Hbefore Hstream.
  apply fmap_app_inv in Hstream as (b & t & Hb & Ht & ->).
  symmetry in Ht. apply fmap_cons_inv in Ht as (u & rest & Hu & Hrest & ->).
  assert (Hun : Forall (λ u, is_terminal_marker (text u) = false) b).
  { apply (Forall_fmap text (λ update, is_terminal_marker update = false)).
    rewrite <- Hb. exact Hbefore. }
  destruct (execute_unmarked_then started finished job_id b (u :: rest) stream_end
              w j Hj Hun) as (last & w1 & j1 & Hg1 & Hs1 & Hrun).
  destruct (consume_error_update job_id last u x rest w1 j1 (eq_sym Hu) Hg1)
    as (w2 & Hc & Hg2).
  destruct (Hrun _ _ _ Hc Hg2) as (w' & He & Hg').
  eexists w', _. split; [exact He|]. split.
  { rewrite Hg'. destruct (decide _) as [Hr|_]; [|reflexivity].
    rewrite update_row_status in Hr. discriminate. }
  split; [apply update_row_status | apply update_row_error].
Qed.

End Loop.

(** ** C7: exit codes *)

Section Output.

Variable task_percent : Z → Z → option string.
Variable generic_percent : Z → Z → string.




End Output.




(** ** C6: which PROGRESS lines are written *)




(** ** C2: the progress value *)

(** C2, as the code has it: the store keeps the progress value it is given,
    whatever the status and the progress of the row (no clamp to [0,100], no
    monotonicity test, a COMPLETED row included), as long as the value can
    be bound as an SQLite INTEGER; a value outside 64 bits makes the call
    raise and leaves the table as it was.  What the supervision task
    ensures is the end state: when it returns, the job is COMPLETED with
    progress exactly 100, or FAILED. *)
Theorem progress_stored_as_given (float : string → option Q) (started finished : Z)
    (docker_available : bool) (job_id : string) (progress_stream : list ProgressUpdate)
    (stream_end : StreamEnd) (t : Z) (s : JobStatus) (p : Z) (e : option string)
    (w : World) (j : Job) :
  get_job job_id (jobs_table w) = Some j →
  (fits_sqlite_integer p = true →
   ∃ w', do_update_status t job_id s (Some p) e w = (Returned tt, w')
         ∧ progress <$> get_job job_id (jobs_table w') = Some p)
  ∧ (fits_sqlite_integer p = false →
     do_update_status t job_id s (Some p) e w
     = (Raised "Python int too large to convert to SQLite INTEGER", w))
  ∧ ∃ w' j',
      execute_containerized_workflow float started finished docker_available job_id
        progress_stream stream_end w = (Returned tt, w')
      ∧ get_job job_id (jobs_table w') = Some j'
      ∧ ((status j' = COMPLETED ∧ progress j' = 100%Z) ∨ status j' = FAILED).
Proof.
  intros Hj. split; [|split].
  - intros Hfit.
    destruct (do_update_status_lookup t job_id s (Some p) e w j Hfit Hj)
      as (w' & Hw & _ & _ & Hg).
    exists w'. split; [exact Hw|]. rewrite Hg. simpl.
    rewrite update_row_progress. reflexivity.
  - intros Hfit. apply do_update_status_overflow. exact Hfit.
  - apply execute_ends_terminal with (j := j). exact Hj.
Qed.

(** A progress of 150 is stored on the running job, and the run over the
    updates 50, 30, 150 ends COMPLETED at 100. *)
Lemma progress_stored_as_given_witness :
  (∃ w', do_update_status 20 "job-1" RUNNING (Some 150%Z) None
           (world_of accepted no_files) = (Returned tt, w')
         ∧ progress <$> get_job "job-1" (jobs_table w') = Some 150%Z)
  ∧ do_update_status 20 "job-1" RUNNING (Some (2 ^ 63)%Z) None (world_of accepted no_files)
    = (Raised "Python int too large to convert to SQLite INTEGER",
       world_of accepted no_files)
  ∧ ∃ w' j',
      execute_containerized_workflow Decimal.float 1 99 true "job-1"
        (timed 10 ["PROGRESS: 50%"; "PROGRESS: 30%"; "PROGRESS: 150%"]) Exhausted
        (world_of accepted no_files) = (Returned tt, w')
      ∧ get_job "job-1" (jobs_table w') = Some j'
      ∧ ((status j' = COMPLETED ∧ progress j' = 100%Z) ∨ status j' = FAILED).
Proof.
  assert (Hj : get_job "job-1" (jobs_table (world_of accepted no_files))
               = Some (update_row 1 RUNNING (Some 5%Z) None
                         (mkJob "job-1" "sol" PENDING 0 None None "{}" "job-1_dem.tif"
                                None 0))).
  { vm_compute. reflexivity. }
  destruct (progress_stored_as_given Decimal.float 1 99 true "job-1"
              (timed 10 ["PROGRESS: 50%"; "PROGRESS: 30%"; "PROGRESS: 150%"]) Exhausted
              20 RUNNING 150 None (world_of accepted no_files) _ Hj) as (H1 & _ & H3).
  destruct (progress_stored_as_given Decimal.float 1 99 true "job-1" [] Exhausted
              20 RUNNING (2 ^ 63)%Z None (world_of accepted no_files) _ Hj) as (_ & H2 & _).
  split; [exact (H1 eq_refl)|]. split; [exact (H2 eq_refl) | exact H3].
Defined.

(** C2 as stated fails: while job-1 is RUNNING the stored progress goes
    from 50 down to 30 and then to 150, and a progress update that reaches
    the store after the job is COMPLETED replaces the 100. *)
Lemma progress_decreases_and_exceeds_100 :
  (status <$> get_job "job-1" accepted = Some RUNNING)
  ∧ (let after lines :=
       get_job "job-1"
         (jobs_table (snd (consume Decimal.float "job-1" 0 (timed 10 lines)
                             (world_of accepted no_files)))) in
     (λ j, (status j, progress j)) <$> after ["PROGRESS: 50%"] = Some (RUNNING, 50%Z)
     ∧ (λ j, (status j, progress j)) <$> after ["PROGRESS: 50%"; "PROGRESS: 30%"]
       = Some (RUNNING, 30%Z)
     ∧ (λ j, (status j, progress j))
         <$> after ["PROGRESS: 50%"; "PROGRESS: 30%"; "PROGRESS: 150%"]
       = Some (RUNNING, 150%Z))
  ∧ (λ j, (status j, progress j)) <$> get_job "job-1" finished_ok = Some (COMPLETED, 100%Z)
  ∧ progress <$> get_job "job-1"
                   (update_status 101 "job-1" RUNNING (Some 10%Z) None finished_ok)
    = Some 10%Z.
Proof. vm_compute. repeat split; reflexivity. Qed.

(** * Further properties *)

(** ** The supervision task and the other rows *)

Lemma do_update_status_own_row (t : Z) (job_id : string) (s : JobStatus) (p : option Z)
    (e : option string) (w : World) (k : string) :
  k ≠ job_id ∨ jobs_table w !! job_id = None →
  jobs_table (snd (do_update_status t job_id s p e w)) !! k = jobs_table w !! k.
Proof.
  intros Hk. unfold do_update_status, change, raise.
  destruct (binds p); [|reflexivity]. destruct Hk as [Hk|Hmissing]; simpl.
  - apply update_status_other. congruence.
  - rewrite (update_status_missing _ _ _ _ _ _ Hmissing). reflexivity.
Qed.

Lemma cleanup_job_data_keeps_jobs (job_id : string) (keep_results : bool) (w : World) :
  ∃ w', cleanup_job_data job_id keep_results w = (Returned tt, w')
        ∧ jobs_table w' = jobs_table w ∧ store_writes w' = store_writes w.
Proof.
  unfold cleanup_job_data, try_except, mbind, Eff_bind, inspect, mret, Eff_ret, raise.
  destruct (path_exists (TempDir job_id) (files w)) eqn:Htemp.
  - unfold remove at 1. destruct (fault_of (TempDir job_id) (files w)); [eauto|].
    destruct keep_results; [eauto|].
    destruct (path_exists (ResultsDir job_id) _); [|eauto].
    unfold remove. destruct (fault_of (ResultsDir job_id) _); eauto.
  - destruct keep_results; [eauto|].
    destruct (path_exists (ResultsDir job_id) (files w)); eauto.
Qed.

Section OwnRow.

Variable float : string → option Q.

Lemma consume_own_row (job_id : string) (progress_stream : list ProgressUpdate) :
  ∀ (last_progress : Q) (w : World) (k : string),
    k ≠ job_id ∨ jobs_table w !! job_id = None →
    jobs_table (snd (consume float job_id last_progress progress_stream w)) !! k
    = jobs_table w !! k.
Proof.
  induction progress_stream as [|[now update] later IH]; intros last w k Hk;
    [reflexivity|].
  assert (Hstep : ∀ t s p e last',
            jobs_table (snd ((do_update_status t job_id s p e ;;
                              consume float job_id last' later) w)) !! k
            = jobs_table w !! k).
  { intros t s p e last'. unfold mbind, Eff_bind.
    pose proof (do_update_status_own_row t job_id s p e w) as Hown.
    destruct (do_update_status t job_id s p e w) as [[[]|err] w1] eqn:Hw; simpl in Hown;
      [|apply Hown; exact Hk].
    rewrite IH.
    - apply Hown. exact Hk.
    - destruct Hk as [Hk|Hk]; [left; exact Hk | right].
      rewrite Hown; [exact Hk | right; exact Hk]. }
  cbn [consume].
  destruct (Py.startswith update "PROGRESS:").
  { destruct (Py.contains "%" _); [|apply IH; exact Hk].
    destruct (float _) as [pct|]; [|apply IH; exact Hk].
    destruct (Py.ne pct last); [|apply IH; exact Hk].
    rewrite progress_step.
    destruct (fits_sqlite_integer (Py.int pct)); [apply Hstep | apply IH; exact Hk]. }
  destruct (Py.startswith update "STATUS:"); [apply IH; exact Hk|].
  destruct (Py.startswith update "COMPLETED:").
  { unfold mbind, Eff_bind.
    pose proof (do_update_status_own_row now job_id COMPLETED (Some 100%Z) None w k Hk) as Hown.
    destruct (do_update_status now job_id COMPLETED (Some 100%Z) None w) as [[[]|err] w1];
      exact Hown. }
  destruct (Py.startswith update "ERROR:" || Py.startswith update "FAILED:").
  { unfold mbind, Eff_bind.
    pose proof (do_update_status_own_row now job_id FAILED None
                  (Some (Py.strip (Py.replace (Py.replace update "ERROR:" "") "FAILED:" "")))
                  w k Hk) as Hown.
    destruct (do_update_status now job_id FAILED None _ w) as [[[]|err] w1]; exact Hown. }
  apply IH. exact Hk.
Qed.

End OwnRow.

(** Steps that keep a reflexive and transitive relation between the state
    before and the state after compose. *)
Section Preservation.

Variable R : World → World → Prop.
Hypothesis R_refl : ∀ w, R w w.
Hypothesis R_trans : ∀ a b c, R a b → R b c → R a c.

Lemma mret_preserves {A : Type} (a : A) (w : World) : R w (snd ((mret a : Eff A) w)).
Proof. apply R_refl. Qed.

Lemma raise_preserves {A : Type} (e : string) (w : World) : R w (snd (@raise A e w)).
Proof. apply R_refl. Qed.

Lemma inspect_preserves {A : Type} (f : World → A) (w : World) : R w (snd (inspect f w)).
Proof. apply R_refl. Qed.

Lemma bind_preserves {A B : Type} (m : Eff A) (k : A → Eff B) :
  (∀ w, R w (snd (m w))) → (∀ a w, R w (snd (k a w))) →
  ∀ w, R w (snd ((m ≫= k) w)).
Proof.
  intros Hm Hk w. unfold mbind, Eff_bind. specialize (Hm w).
  destruct (m w) as [[a|e] w1]; simpl in *; [|exact Hm].
  eapply R_trans; [exact Hm | apply Hk].
Qed.

Lemma try_except_preserves {A : Type} (body : Eff A) (handler : string → Eff A) :
  (∀ w, R w (snd (body w))) → (∀ e w, R w (snd (handler e w))) →
  ∀ w, R w (snd (try_except body handler w)).
Proof.
  intros Hb Hh w. unfold try_except. specialize (Hb w).
  destruct (body w) as [[a|e] w1]; simpl in *; [exact Hb|].
  eapply R_trans; [exact Hb | apply Hh].
Qed.

End Preservation.

Lemma only_row_refl (job_id : string) (w : World) : only_row job_id w w.
Proof. intros k _. reflexivity. Qed.

Lemma only_row_trans (job_id : string) (a b c : World) :
  only_row job_id a b → only_row job_id b c → only_row job_id a c.
Proof.
  intros Hab Hbc k Hk. rewrite Hbc, Hab; [reflexivity | exact Hk |].
  destruct Hk as [Hk|Hk]; [left; exact Hk | right].
  rewrite Hab; [exact Hk | right; exact Hk].
Qed.

Lemma do_update_status_only_row (t : Z) (job_id : string) (s : JobStatus) (p : option Z)
    (e : option string) (w : World) :
  only_row job_id w (snd (do_update_status t job_id s p e w)).
Proof. intros k Hk. apply do_update_status_own_row. exact Hk. Qed.

Lemma cleanup_job_data_only_row (job_id : string) (keep_results : bool) (w : World) :
  only_row job_id w (snd (cleanup_job_data job_id keep_results w)).
Proof.
  destruct (cleanup_job_data_keeps_jobs job_id keep_results w) as (w' & -> & Hj & _).
  intros k _. simpl. rewrite Hj. reflexivity.
Qed.

Lemma execute_only_row (float : string → option Q) (started finished : Z)
    (docker_available : bool) (job_id : string) (progress_stream : list ProgressUpdate)
    (stream_end : StreamEnd) (w : World) :
  only_row job_id w
    (snd (execute_containerized_workflow float started finished docker_available job_id
            progress_stream stream_end w)).
Proof.
  pose proof (only_row_refl job_id) as Hrefl.
  pose proof (only_row_trans job_id) as Htrans.
  unfold execute_containerized_workflow. revert w.
  apply bind_preserves; [exact Htrans| |].
  - apply try_except_preserves; [exact Htrans| |].
    + apply bind_preserves; [exact Htrans| |].
      * apply do_update_status_only_row.
      * intros _. destruct (negb docker_available).
        { apply do_update_status_only_row. }
        apply bind_preserves; [exact Htrans| |].
        { intros w k Hk. apply consume_own_row. exact Hk. }
        intros how. apply bind_preserves; [exact Htrans| |].
        { intros w. destruct how, stream_end; apply Hrefl. }
        intros _. apply bind_preserves; [exact Htrans| |].
        { intros w. apply Hrefl. }
        intros [job|] w; [|apply Hrefl].
        destruct (decide (status job = RUNNING)); [|apply Hrefl].
        apply do_update_status_only_row.
    + intros e. apply do_update_status_only_row.
  - intros _. apply try_except_preserves; [exact Htrans| |].
    + apply cleanup_job_data_only_row.
    + intros e w. apply Hrefl.
Qed.

(** The supervision task changes no row but the one of its own job, and
    when that row is not there (the job was deleted in the meantime) it does
    not bring it back: the table is left as it was. *)
Theorem execute_changes_only_its_job (float : string → option Q) (started finished : Z)
    (docker_available : bool) (job_id : string) (progress_stream : list ProgressUpdate)
    (stream_end : StreamEnd) (w : World) :
  let w' := snd (execute_containerized_workflow float started finished docker_available
                   job_id progress_stream stream_end w) in
  (∀ other, other ≠ job_id → get_job other (jobs_table w') = get_job other (jobs_table w))
  ∧ (get_job job_id (jobs_table w) = None → jobs_table w' = jobs_table w).
Proof.
  cbv zeta.
  pose proof (execute_only_row float started finished docker_available job_id
                progress_stream stream_end w) as Hown.
  split.
  - intros other Hother. apply Hown. left. exact Hother.
  - intros Hmissing. apply map_eq. intros k. apply Hown. right. exact Hmissing.
Qed.

(** ** The supervision loop: markers *)

Lemma prefix_cons (a c : ascii) (p s : string) :
  String.prefix (String a p) (String c s)
  = if Ascii.ascii_dec a c then String.prefix p s else false.
Proof. reflexivity. Qed.

(** An update that starts with COMPLETED:, ERROR: or FAILED: starts with
    neither PROGRESS: nor STATUS:. *)
Lemma marker_not_progress (update : string) :
  is_terminal_marker update = true →
  Py.startswith update "PROGRESS:" = false ∧ Py.startswith update "STATUS:" = false.
Proof.
  unfold is_terminal_marker, Py.startswith. destruct update as [|c s]; [discriminate|].
  rewrite !prefix_cons. intros H.
  destruct (Ascii.ascii_dec "P" c) as [<-|_].
  { exfalso. revert H.
    repeat (destruct (Ascii.ascii_dec _ _) as [Heq|_]; [discriminate Heq|]).
    discriminate. }
  destruct (Ascii.ascii_dec "S" c) as [<-|_].
  { exfalso. revert H.
    repeat (destruct (Ascii.ascii_dec _ _) as [Heq|_]; [discriminate Heq|]).
    discriminate. }
  split; reflexivity.
Qed.

Section Markers.

Variable float : string → option Q.

(** At a marker the loop is left: what follows in the stream is not read. *)
Lemma consume_marker (job_id : string) (last_progress : Q) (u : ProgressUpdate)
    (after : list ProgressUpdate) (w : World) :
  is_terminal_marker (text u) = true →
  consume float job_id last_progress (u :: after) w
  = consume float job_id last_progress [u] w
  ∧ ∃ w', consume float job_id last_progress [u] w = (Returned LeftByBreak, w').
Proof.
  destruct u as [now update]. cbn [text]. intros Hm.
  destruct (marker_not_progress update Hm) as [Hp Hs].
  cbn [consume]. rewrite Hp, Hs.
  unfold is_terminal_marker in Hm.
  destruct (Py.startswith update "COMPLETED:").
  - split; [reflexivity|]. unfold mbind, Eff_bind, do_update_status, change. simpl. eauto.
  - simpl in Hm. rewrite Hm.
    split; [reflexivity|]. unfold mbind, Eff_bind, do_update_status, change. simpl. eauto.
Qed.

Lemma consume_until_marker (job_id : string) (before : list ProgressUpdate)
    (u : ProgressUpdate) (after : list ProgressUpdate) :
  is_terminal_marker (text u) = true →
  ∀ (last_progress : Q) (w : World),
    consume float job_id last_progress (before ++ u :: after) w
    = consume float job_id last_progress (before ++ [u]) w
    ∧ ∃ w', consume float job_id last_progress (before ++ [u]) w = (Returned LeftByBreak, w').
Proof.
  intros Hm. induction before as [|[now update] before IH]; intros last w.
  - apply consume_marker. exact Hm.
  - rewrite <- !app_comm_cons.
    assert (Hstep : ∀ t s p e last',
      binds p = true →
      (do_update_status t job_id s p e ;;
       consume float job_id last' (before ++ u :: after)) w
      = (do_update_status t job_id s p e ;; consume float job_id last' (before ++ [u])) w
      ∧ ∃ w', (do_update_status t job_id s p e ;;
               consume float job_id last' (before ++ [u])) w = (Returned LeftByBreak, w')).
    { intros t s p e last' Hb. unfold mbind, Eff_bind, do_update_status, change.
      rewrite Hb. cbv beta iota. apply IH. }
    cbn [consume].
    destruct (Py.startswith update "PROGRESS:").
    { destruct (Py.contains "%" _); [|apply IH].
      destruct (float _) as [pct|]; [|apply IH].
      destruct (Py.ne pct last); [|apply IH].
      rewrite !progress_step.
      destruct (fits_sqlite_integer (Py.int pct)) eqn:Hfit; [|apply IH].
      apply Hstep. exact Hfit. }
    destruct (Py.startswith update "STATUS:"); [apply IH|].
    destruct (Py.startswith update "COMPLETED:").
    { split; [reflexivity|]. unfold mbind, Eff_bind, do_update_status, change. simpl.
      eauto. }
    destruct (Py.startswith update "ERROR:" || Py.startswith update "FAILED:").
    { split; [reflexivity|]. unfold mbind, Eff_bind, do_update_status, change. simpl.
      eauto. }
    apply IH.
Qed.

End Markers.

(** The first update that starts with COMPLETED:, ERROR: or FAILED: ends
    the supervision: the updates after it are never read, and neither is the
    way the generator would have ended. *)
Theorem updates_after_marker_not_read (float : string → option Q) (started finished : Z)
    (docker_available : bool) (job_id : string) (before : list ProgressUpdate)
    (u : ProgressUpdate) (after : list ProgressUpdate) (stream_end : StreamEnd) (w : World) :
  is_terminal_marker (text u) = true →
  execute_containerized_workflow float started finished docker_available job_id
    (before ++ u :: after) stream_end w
  = execute_containerized_workflow float started finished docker_available job_id
      (before ++ [u]) Exhausted w.
Proof.
  intros Hm. unfold execute_containerized_workflow, try_except, mbind, Eff_bind.
  destruct (do_update_status started job_id RUNNING (Some 5%Z) None w) as [[[]|e] w0];
    [|reflexivity].
  destruct (negb docker_available); [reflexivity|].
  destruct (consume_until_marker float job_id before u after Hm 0 w0) as (-> & w1 & ->).
  reflexivity.
Qed.

(** The loop stops at the COMPLETED: update of a stream: the failure two
    updates later is not stored. *)
Lemma updates_after_marker_not_read_witness :
  execute_containerized_workflow Decimal.float 1 99 true "job-1"
    (timed 10 ["PROGRESS: 50%"; "COMPLETED: done"; "PROGRESS: 70%"; "ERROR: late"])
    (GeneratorRaised "boom") (world_of submitted no_files)
  = execute_containerized_workflow Decimal.float 1 99 true "job-1"
      (timed 10 ["PROGRESS: 50%"; "COMPLETED: done"]) Exhausted (world_of submitted no_files).
Proof.
  exact (updates_after_marker_not_read Decimal.float 1 99 true "job-1"
           [mkUpdate 10 "PROGRESS: 50%"] (mkUpdate 11 "COMPLETED: done")
           [mkUpdate 12 "PROGRESS: 70%"; mkUpdate 13 "ERROR: late"]
           (GeneratorRaised "boom") (world_of submitted no_files) eq_refl).
Defined.

(** ** The supervision task: how a job ends *)

Lemma docker_unavailable_fails_job_aux (float : string → option Q) (started finished : Z)
    (job_id : string) (progress_stream : list ProgressUpdate) (stream_end : StreamEnd)
    (w : World) (j : Job) :
  get_job job_id (jobs_table w) = Some j →
  ∃ w',
    execute_containerized_workflow float started finished false job_id
      progress_stream stream_end w = (Returned tt, w')
    ∧ get_job job_id (jobs_table w')
      = Some (update_row finished FAILED None
                (Some "Docker not available or image not found")
                (update_row started RUNNING (Some 5%Z) None j)).
Proof.
  intros Hj.
  destruct (do_update_status_lookup started job_id RUNNING (Some 5%Z) None w j eq_refl Hj)
    as (w0 & Hw0 & _ & _ & Hg0).
  destruct (do_update_status_lookup finished job_id FAILED None
              (Some "Docker not available or image not found") w0 _ eq_refl Hg0)
    as (w1 & Hw1 & _ & _ & Hg1).
  destruct (cleanup_job_data_keeps_jobs job_id true w1) as (w2 & Hw2 & Hj2 & _).
  exists w2. split.
  - unfold execute_containerized_workflow, try_except, mbind, Eff_bind.
    rewrite Hw0. change (negb false) with true. cbv beta iota.
    rewrite Hw1. cbv beta iota. rewrite Hw2. reflexivity.
  - rewrite Hj2. exact Hg1.
Qed.

(** Without a usable Docker backend the job is put to RUNNING at 5 and then
    to FAILED, in two writes; the progress stream is not read. *)
Theorem docker_unavailable_fails_job (float : string → option Q) (started finished : Z)
    (job_id : string) (progress_stream : list ProgressUpdate) (stream_end : StreamEnd)
    (w : World) (j : Job) :
  get_job job_id (jobs_table w) = Some j →
  ∃ w',
    execute_containerized_workflow float started finished false job_id
      progress_stream stream_end w = (Returned tt, w')
    ∧ get_job job_id (jobs_table w')
      = Some (update_row finished FAILED None
                (Some "Docker not available or image not found")
                (update_row started RUNNING (Some 5%Z) None j))
    ∧ store_writes w'
      = store_writes w
        ++ [mkWrite job_id RUNNING (Some 5%Z) None;
            mkWrite job_id FAILED None (Some "Docker not available or image not found")].
Proof.
  intros Hj.
  destruct (do_update_status_lookup started job_id RUNNING (Some 5%Z) None w j eq_refl Hj)
    as (w0 & Hw0 & _ & Hlog0 & Hg0).
  destruct (do_update_status_lookup finished job_id FAILED None
              (Some "Docker not available or image not found") w0 _ eq_refl Hg0)
    as (w1 & Hw1 & _ & Hlog1 & Hg1).
  destruct (cleanup_job_data_keeps_jobs job_id true w1) as (w2 & Hw2 & Hj2 & Hlog2).
  exists w2. split; [|split].
  - unfold execute_containerized_workflow, try_except, mbind, Eff_bind.
    rewrite Hw0. change (negb false) with true. cbv beta iota.
    rewrite Hw1. cbv beta iota. rewrite Hw2. reflexivity.
  - rewrite Hj2. exact Hg1.
  - rewrite Hlog2, Hlog1, Hlog0, <- app_assoc. reflexivity.
Qed.

(** job-1, just submitted, on a host without Docker. *)
Lemma docker_unavailable_fails_job_witness :
  ∃ w',
    execute_containerized_workflow Decimal.float 1 2 false "job-1"
      (timed 10 ["PROGRESS: 50%"; "COMPLETED: done"]) Exhausted
      (world_of submitted no_files) = (Returned tt, w')
    ∧ (λ j, (status j, progress j, started_at j, completed_at j, error_message j))
        <$> get_job "job-1" (jobs_table w')
      = Some (FAILED, 5%Z, Some 1%Z, Some 2%Z,
              Some "Docker not available or image not found")
    ∧ length (store_writes w') = 2%nat.
Proof.
  destruct (docker_unavailable_fails_job Decimal.float 1 2 "job-1"
              (timed 10 ["PROGRESS: 50%"; "COMPLETED: done"]) Exhausted
              (world_of submitted no_files)
              (mkJob "job-1" "sol" PENDING 0 None None "{}" "job-1_dem.tif" None 0)
              ltac:(vm_compute; reflexivity)) as (w' & He & Hg & Hlog).
  exists w'. split; [exact He|]. split.
  - rewrite Hg. reflexivity.
  - rewrite Hlog. reflexivity.
Defined.

(** A generator that raises before any COMPLETED:, ERROR: or FAILED: update
    leaves the job FAILED with the text of the exception after
    "Container execution failed: ". *)
Theorem generator_error_fails_job (float : string → option Q) (started finished : Z)
    (job_id : string) (progress_stream : list ProgressUpdate) (e : string)
    (w : World) (j : Job) :
  get_job job_id (jobs_table w) = Some j →
  Forall (λ u, is_terminal_marker (text u) = false) progress_stream →
  ∃ w' j',
    execute_containerized_workflow float started finished true job_id
      progress_stream (GeneratorRaised e) w = (Returned tt, w')
    ∧ get_job job_id (jobs_table w') = Some j'
    ∧ status j' = FAILED
    ∧ error_message j' = Some ("Container execution failed: " +:+ e)
    ∧ completed_at j' = Some finished.
Proof.
  intros Hj Hun.
  destruct (execute_unmarked_then float started finished job_id progress_stream []
              (GeneratorRaised e) w j Hj Hun) as (last & w1 & j1 & Hg1 & Hs1 & Hrun).
  destruct (Hrun ReadToEnd w1 j1 eq_refl Hg1) as (w' & He & Hg').
  rewrite app_nil_r in He.
  eexists w', _. split; [exact He|]. split; [exact Hg'|].
  split; [apply update_row_status|]. split; [apply update_row_error|].
  apply completed_at_written. right. reflexivity.
Qed.

Lemma generator_error_fails_job_witness :
  ∃ w' j',
    execute_containerized_workflow Decimal.float 1 99 true "job-1"
      (timed 10 ["STATUS: Container environment ready"; "PROGRESS: 30%"])
      (GeneratorRaised "connection reset") (world_of submitted no_files) = (Returned tt, w')
    ∧ get_job "job-1" (jobs_table w') = Some j'
    ∧ status j' = FAILED
    ∧ error_message j' = Some "Container execution failed: connection reset"
    ∧ completed_at j' = Some 99%Z.
Proof.
  apply (generator_error_fails_job Decimal.float 1 99 "job-1" _ "connection reset"
           (world_of submitted no_files)
           (mkJob "job-1" "sol" PENDING 0 None None "{}" "job-1_dem.tif" None 0)).
  - vm_compute. reflexivity.
  - repeat constructor.
Defined.
(** ** The supervision task: time stamps *)

Section Stamps.

Variable float : string → option Q.

(** Updates without marker keep the job RUNNING with the [started_at] it
    has. *)
Lemma consume_unmarked_stamps (job_id : string) (before later : list ProgressUpdate) :
  Forall (λ u, is_terminal_marker (text u) = false) before →
  ∀ (last_progress : Q) (w : World) (j : Job) (t0 : Z),
    get_job job_id (jobs_table w) = Some j →
    status j = RUNNING →
    started_at j = Some t0 →
    ∃ last' w' j',
      consume float job_id last_progress (before ++ later) w
      = consume float job_id last' later w'
      ∧ get_job job_id (jobs_table w') = Some j'
      ∧ status j' = RUNNING
      ∧ started_at j' = Some t0.
Proof.
  induction 1 as [|[now update] before Hu _ IH]; intros last w j t0 Hj Hs Ht0.
  - exists last, w, j. repeat split; assumption.
  - simpl in Hu. unfold is_terminal_marker in Hu.
    apply orb_false_elim in Hu as [Hu Hfailed].
    apply orb_false_elim in Hu as [Hcompleted Herror].
    rewrite <- app_comm_cons. cbn [consume].
    destruct (Py.startswith update "PROGRESS:").
    { destruct (Py.contains "%" _); [|eapply IH; eassumption].
      destruct (float _) as [pct|]; [|eapply IH; eassumption].
      destruct (Py.ne pct last); [|eapply IH; eassumption].
      rewrite progress_step.
      destruct (fits_sqlite_integer (Py.int pct)) eqn:Hfit; [|eapply IH; eassumption].
      destruct (do_update_status_lookup now job_id RUNNING (Some (Py.int pct)) None w j
                  Hfit Hj) as (w1 & Hw & _ & _ & Hg).
      unfold mbind, Eff_bind. rewrite Hw.
      apply (IH pct w1 _ t0 Hg).
      - apply update_row_status.
      - apply started_at_first_write_wins. exact Ht0. }
    destruct (Py.startswith update "STATUS:"); [eapply IH; eassumption|].
    rewrite Hcompleted, Herror, Hfailed. simpl.
    eapply IH; eassumption.
Qed.

(** At a marker the loop is left with a terminal write stamped with the
    arrival of that update. *)
Lemma consume_marker_row (job_id : string) (last_progress : Q) (u : ProgressUpdate)
    (after : list ProgressUpdate) (w : World) (j : Job) :
  is_terminal_marker (text u) = true →
  get_job job_id (jobs_table w) = Some j →
  ∃ w' s p e,
    (s = COMPLETED ∨ s = FAILED)
    ∧ consume float job_id last_progress (u :: after) w = (Returned LeftByBreak, w')
    ∧ get_job job_id (jobs_table w') = Some (update_row (arrival u) s p e j).
Proof.
  destruct u as [now update]. cbn [text arrival]. intros Hm Hj.
  destruct (marker_not_progress update Hm) as [Hp Hs].
  cbn [consume]. rewrite Hp, Hs. unfold is_terminal_marker in Hm.
  destruct (Py.startswith update "COMPLETED:").
  - destruct (do_update_status_lookup now job_id COMPLETED (Some 100%Z) None w j eq_refl Hj)
      as (w1 & Hw & _ & _ & Hg).
    exists w1, COMPLETED, (Some 100%Z), None. split; [left; reflexivity|].
    split; [|exact Hg]. unfold mbind, Eff_bind. rewrite Hw. reflexivity.
  - simpl in Hm. rewrite Hm.
    destruct (do_update_status_lookup now job_id FAILED None
                (Some (Py.strip (Py.replace (Py.replace update "ERROR:" "") "FAILED:" "")))
                w j eq_refl Hj) as (w1 & Hw & _ & _ & Hg).
    eexists w1, FAILED, None, _. split; [right; reflexivity|].
    split; [|exact Hg]. unfold mbind, Eff_bind. rewrite Hw. reflexivity.
Qed.

End Stamps.

(** When the supervision task returns, the job has both time stamps.
    [started_at] is the one it had, or else the time of the first write.
    [completed_at] is the arrival of the first COMPLETED:, ERROR: or FAILED:
    update of the stream, the one that ended the loop; when the stream has
    no such update, or Docker is not available, it is the time of the
    closing write. *)
Theorem finished_job_has_time_stamps (float : string → option Q) (started finished : Z)
    (job_id : string) (w : World) (j : Job) :
  get_job job_id (jobs_table w) = Some j →
  (∀ (before : list ProgressUpdate) (u : ProgressUpdate) (after : list ProgressUpdate)
     (stream_end : StreamEnd),
     Forall (λ u, is_terminal_marker (text u) = false) before →
     is_terminal_marker (text u) = true →
     ∃ w' j',
       execute_containerized_workflow float started finished true job_id
         (before ++ u :: after) stream_end w = (Returned tt, w')
       ∧ get_job job_id (jobs_table w') = Some j'
       ∧ started_at j' = Some (default started (started_at j))
       ∧ completed_at j' = Some (arrival u))
  ∧ (∀ (progress_stream : list ProgressUpdate) (stream_end : StreamEnd),
       Forall (λ u, is_terminal_marker (text u) = false) progress_stream →
       ∃ w' j',
         execute_containerized_workflow float started finished true job_id
           progress_stream stream_end w = (Returned tt, w')
         ∧ get_job job_id (jobs_table w') = Some j'
         ∧ started_at j' = Some (default started (started_at j))
         ∧ completed_at j' = Some finished)
  ∧ (∀ (progress_stream : list ProgressUpdate) (stream_end : StreamEnd),
       ∃ w' j',
         execute_containerized_workflow float started finished false job_id
           progress_stream stream_end w = (Returned tt, w')
         ∧ get_job job_id (jobs_table w') = Some j'
         ∧ started_at j' = Some (default started (started_at j))
         ∧ completed_at j' = Some finished).
Proof.
  intros Hj.
  assert (Hstart : started_at (update_row started RUNNING (Some 5%Z) None j)
                   = Some (default started (started_at j))).
  { unfold update_row. simpl. destruct (started_at j); reflexivity. }
  destruct (do_update_status_lookup started job_id RUNNING (Some 5%Z) None w j eq_refl Hj)
    as (w0 & Hw0 & _ & _ & Hg0).
  split; [|split].
  - intros before u after stream_end Hbefore Hm.
    destruct (consume_unmarked_stamps float job_id before (u :: after) Hbefore 0 w0 _ _
                Hg0 (update_row_status _ _ _ _ _) Hstart)
      as (last & w1 & j1 & Hc & Hg1 & Hs1 & Ht1).
    destruct (consume_marker_row float job_id last u after w1 j1 Hm Hg1)
      as (w2 & s & p & e & Hterminal & Hc2 & Hg2).
    rewrite <- Hc in Hc2.
    destruct (execute_after_loop float started finished job_id (before ++ u :: after)
                stream_end w w0 w2 _ LeftByBreak Hw0 Hc2 Hg2) as (w' & He & Hg').
    eexists w', _. split; [exact He|]. split; [exact Hg'|].
    destruct (decide _) as [Hr|_].
    { rewrite update_row_status in Hr. destruct Hterminal; congruence. }
    split.
    + rewrite started_at_only_when_running; [exact Ht1|].
      destruct Hterminal; congruence.
    + apply completed_at_written. exact Hterminal.
  - intros progress_stream stream_end Hun.
    destruct (consume_unmarked_stamps float job_id progress_stream [] Hun 0 w0 _ _
                Hg0 (update_row_status _ _ _ _ _) Hstart)
      as (last & w1 & j1 & Hc & Hg1 & Hs1 & Ht1).
    rewrite app_nil_r in Hc. cbn [consume] in Hc.
    destruct (execute_after_loop float started finished job_id progress_stream
                stream_end w w0 w1 j1 ReadToEnd Hw0 Hc Hg1) as (w' & He & Hg').
    eexists w', _. split; [exact He|]. split; [exact Hg'|].
    destruct stream_end.
    + destruct (decide (status j1 = RUNNING)) as [_|Hr]; [|contradiction].
      split; [apply started_at_first_write_wins; exact Ht1|].
      apply completed_at_written. left. reflexivity.
    + split; [apply started_at_first_write_wins; exact Ht1|].
      apply completed_at_written. right. reflexivity.
  - intros progress_stream stream_end.
    destruct (docker_unavailable_fails_job_aux float started finished job_id
                progress_stream stream_end w j Hj) as (w' & He & Hg).
    eexists w', _. split; [exact He|]. split; [exact Hg|].
    split; [apply started_at_first_write_wins; exact Hstart|].
    apply completed_at_written. right. reflexivity.
Qed.

(** job-1 runs from time 1; its stream has an ERROR: update handled at
    time 12 and a second one at time 13, which is not read. *)
Lemma finished_job_has_time_stamps_witness :
  ∃ w' j',
    execute_containerized_workflow Decimal.float 1 99 true "job-1"
      (timed 10 ["PROGRESS: 30%"; "PROGRESS: 50%"; "ERROR: r.sun failed"; "ERROR: late"])
      Exhausted (world_of submitted no_files) = (Returned tt, w')
    ∧ get_job "job-1" (jobs_table w') = Some j'
    ∧ started_at j' = Some 1%Z
    ∧ completed_at j' = Some 12%Z.
Proof.
  destruct (finished_job_has_time_stamps Decimal.float 1 99 "job-1"
              (world_of submitted no_files)
              (mkJob "job-1" "sol" PENDING 0 None None "{}" "job-1_dem.tif" None 0)
              ltac:(vm_compute; reflexivity)) as (Hmarker & _ & _).
  apply (Hmarker [mkUpdate 10 "PROGRESS: 30%"; mkUpdate 11 "PROGRESS: 50%"]
           (mkUpdate 12 "ERROR: r.sun failed") [mkUpdate 13 "ERROR: late"] Exhausted).
  - repeat constructor.
  - reflexivity.
Defined.

(** ** The SDK path: exit codes *)

Section ContainerExit.

Variable float : string → option Q.

(** The update of a container that exits with a non-zero code. *)
Lemma consume_container_exit_error (job_id : string) (last_progress : Q)
    (u : ProgressUpdate) (exit_code : Z) (w : World) (j : Job) :
  text u = "FAILED: Container exited with code " +:+ Py.str exit_code →
  get_job job_id (jobs_table w) = Some j →
  ∃ w', consume float job_id last_progress [u] w = (Returned LeftByBreak, w')
        ∧ get_job job_id (jobs_table w')
          = Some (update_row (arrival u) FAILED None
                    (Some ("Container exited with code " +:+ Py.str exit_code)) j).
Proof.
  destruct u as [now update]. cbn [text arrival]. intros -> Hj.
  cbn [consume]. rewrite container_exit_error_message.
  destruct (do_update_status_lookup now job_id FAILED None
              (Some ("Container exited with code " +:+ Py.str exit_code)) w j eq_refl Hj)
    as (w1 & Hw & _ & _ & Hg).
  exists w1. split; [|exact Hg].
  rewrite !append_cons, append_nil. simpl.
  unfold mbind, Eff_bind. rewrite <- ?append_cons.
  rewrite <- (append_nil (Py.str exit_code)) at 1. rewrite <- ?append_cons.
  rewrite Hw. reflexivity.
Qed.

End ContainerExit.

(** A stream of updates without marker, followed by the updates of the
    exit of the container. *)
Lemma execute_container_exit (float : string → option Q) (started finished : Z)
    (job_id : string) (yielded : list string) (exit_code : Z)
    (progress_stream : list ProgressUpdate) (stream_end : StreamEnd)
    (w : World) (j : Job) :
  get_job job_id (jobs_table w) = Some j →
  Forall (λ update, is_terminal_marker update = false) yielded →
  text <$> progress_stream = yielded ++ container_exit_updates exit_code →
  ∃ w' j',
    execute_containerized_workflow float started finished true job_id
      progress_stream stream_end w = (Returned tt, w')
    ∧ get_job job_id (jobs_table w') = Some j'
    ∧ (exit_code = 0%Z → status j' = COMPLETED ∧ progress j' = 100%Z)
    ∧ (exit_code ≠ 0%Z →
       status j' = FAILED
       ∧ error_message j' = Some ("Container exited with code " +:+ Py.str exit_code)).
Proof.
  intros Hj Hyielded Hstream. revert Hstream.
  unfold container_exit_updates.
  destruct (decide (exit_code = 0%Z)) as [Hrc|Hrc]; intros Hstream;
    apply fmap_app_inv in Hstream as (before & tail & Hbefore & Htail & ->);
    symmetry in Htail; apply fmap_cons_inv in Htail as (u & rest & Hu & Hrest & ->);
    symmetry in Hrest; apply fmap_nil_inv in Hrest as ->;
    (assert (Hun : Forall (λ u, is_terminal_marker (text u) = false) before);
     [ apply (Forall_fmap text (λ update, is_terminal_marker update = false));
       rewrite <- Hbefore; exact Hyielded |]);
    destruct (execute_unmarked_then float started finished job_id before [u] stream_end
                w j Hj Hun) as (last & w1 & j1 & Hg1 & Hs1 & Hrun).
  - destruct (consume_completed float job_id last u w1 j1 (eq_sym Hu) Hg1)
      as (w2 & Hc & Hg2).
    destruct (Hrun _ _ _ Hc Hg2) as (w' & He & Hg').
    exists w', (update_row (arrival u) COMPLETED (Some 100%Z) None j1).
    split; [exact He|]. split.
    { rewrite Hg'. destruct (decide _) as [Hr|_]; [|reflexivity].
      rewrite update_row_status in Hr. discriminate. }
    split; [|contradiction]. intros _.
    split; [apply update_row_status|]. rewrite update_row_progress. reflexivity.
  - destruct (consume_container_exit_error float job_id last u exit_code w1 j1
                (eq_sym Hu) Hg1) as (w2 & Hc & Hg2).
    destruct (Hrun _ _ _ Hc Hg2) as (w' & He & Hg').
    eexists w', _. split; [exact He|]. split.
    { rewrite Hg'. destruct (decide _) as [Hr|_]; [|reflexivity].
      rewrite update_row_status in Hr. discriminate. }
    split; [contradiction|]. intros _.
    split; [apply update_row_status | apply update_row_error].
Qed.

(** A job run through the Docker SDK whose log gave no COMPLETED:, ERROR: or
    FAILED: update ends COMPLETED at 100 when the container exits with code
    0, and FAILED with the message "Container exited with code <N>"
    otherwise. *)
Theorem container_exit_code_finalizes_job (float : string → option Q)
    (started finished : Z) (job_id : string) (logged : list string) (exit_code : Z)
    (progress_stream : list ProgressUpdate) (stream_end : StreamEnd)
    (w : World) (j : Job) :
  get_job job_id (jobs_table w) = Some j →
  Forall (λ update, is_terminal_marker update = false) logged →
  text <$> progress_stream = _monitor_container (ContainerExited logged exit_code) →
  ∃ w' j',
    execute_containerized_workflow float started finished true job_id
      progress_stream stream_end w = (Returned tt, w')
    ∧ get_job job_id (jobs_table w') = Some j'
    ∧ (exit_code = 0%Z → status j' = COMPLETED ∧ progress j' = 100%Z)
    ∧ (exit_code ≠ 0%Z →
       status j' = FAILED
       ∧ error_message j' = Some ("Container exited with code " +:+ Py.str exit_code)).
Proof.
  intros Hj Hlogged Hstream.
  apply (execute_container_exit float started finished job_id
           ("STATUS: Container started, initializing workflow..." :: logged) exit_code
           progress_stream stream_end w j Hj).
  - constructor; [reflexivity | exact Hlogged].
  - rewrite Hstream. reflexivity.
Qed.

(** A container killed with code 137 after two updates. *)
Lemma container_exit_code_finalizes_job_witness :
  ∃ w' j',
    execute_containerized_workflow Decimal.float 1 99 true "job-1"
      (timed 10 (_monitor_container
                   (ContainerExited ["PROGRESS: 12.3% (45/365 tasks)";
                                     "STATUS: Processing DEM"] 137)))
      Exhausted (world_of submitted no_files) = (Returned tt, w')
    ∧ get_job "job-1" (jobs_table w') = Some j'
    ∧ status j' = FAILED
    ∧ error_message j' = Some "Container exited with code 137".
Proof.
  destruct (container_exit_code_finalizes_job Decimal.float 1 99 "job-1"
              ["PROGRESS: 12.3% (45/365 tasks)"; "STATUS: Processing DEM"] 137
              (timed 10 (_monitor_container
                           (ContainerExited ["PROGRESS: 12.3% (45/365 tasks)";
                                             "STATUS: Processing DEM"] 137)))
              Exhausted (world_of submitted no_files)
              (mkJob "job-1" "sol" PENDING 0 None None "{}" "job-1_dem.tif" None 0)
              ltac:(vm_compute; reflexivity) ltac:(repeat constructor)
              ltac:(vm_compute; reflexivity)) as (w' & j' & He & Hg & _ & Hfailed).
  destruct Hfailed as [H1 H2]; [discriminate|].
  exists w', j'. split; [exact He|]. split; [exact Hg|]. split; [exact H1 | exact H2].
Defined.

(** ** The store over a history of updates *)

Lemma replay_lookup (history : list Update) :
  ∀ (jobs : gmap string Job) (job_id : string) (j : Job),
    jobs !! job_id = Some j →
    ∃ j', replay history jobs !! job_id = Some j'
          ∧ (∀ t0, started_at j = Some t0 → started_at j' = Some t0)
          ∧ (Forall (λ u, upd_job u = job_id → upd_status u ≠ RUNNING) history →
             started_at j' = started_at j)
          ∧ id j' = id j ∧ created_at j' = created_at j
          ∧ workflow_type j' = workflow_type j ∧ dem_filename j' = dem_filename j
          ∧ parameters j' = parameters j.
Proof.
  induction history as [|[t k s p e] history IH]; intros jobs job_id j Hj.
  - exists j. simpl. repeat split; auto.
  - simpl. destruct (decide (k = job_id)) as [->|Hk].
    + pose proof (update_status_lookup t job_id s p e jobs j Hj) as Hstep.
      destruct (IH _ job_id _ Hstep)
        as (j' & Hj' & Hkeep & Hnever & Hid & Hcreated & Hwf & Hdem & Hpar).
      exists j'. split; [exact Hj'|].
      split; [|split].
      * intros t0 Ht0. apply Hkeep. apply started_at_first_write_wins. exact Ht0.
      * intros Hall. inversion Hall as [|? ? Hhead Htail]; subst. simpl in Hhead.
        rewrite (Hnever Htail). apply started_at_only_when_running. apply Hhead.
        reflexivity.
      * rewrite Hid, Hcreated, Hwf, Hdem, Hpar. destruct s, p; repeat split; reflexivity.
    + destruct (IH (update_status t k s p e jobs) job_id j)
        as (j' & Hj' & Hkeep & Hnever & Hrest).
      { rewrite update_status_other; [exact Hj | exact Hk]. }
      exists j'. split; [exact Hj'|]. split; [exact Hkeep|]. split; [|exact Hrest].
      intros Hall. inversion Hall; subst. auto.
Qed.

(** [started_at] is written once: whatever calls of [update_status] follow,
    for this job or for others, a job keeps the [started_at] it has; and a
    job that no call sets to RUNNING never gets one, even when it is set to
    COMPLETED or FAILED.  The identity columns never change. *)
Theorem started_at_written_once (history : list Update) (jobs : gmap string Job)
    (job_id : string) (j : Job) :
  get_job job_id jobs = Some j →
  ∃ j', get_job job_id (replay history jobs) = Some j'
        ∧ (∀ t0, started_at j = Some t0 → started_at j' = Some t0)
        ∧ (Forall (λ u, upd_job u = job_id → upd_status u ≠ RUNNING) history →
           started_at j' = started_at j)
        ∧ id j' = id j ∧ created_at j' = created_at j
        ∧ workflow_type j' = workflow_type j ∧ dem_filename j' = dem_filename j
        ∧ parameters j' = parameters j.
Proof. intros Hj. apply replay_lookup. exact Hj. Qed.

(** job-1 is set to FAILED while still PENDING: it has a [completed_at]
    and no [started_at]; the running job-1 keeps its [started_at] through a
    later RUNNING write and the final one. *)
Lemma started_at_written_once_witness :
  (∃ j', get_job "job-1"
           (replay [mkUpd 7 "job-1" FAILED None (Some "Job cancelled by user")] submitted)
         = Some j'
         ∧ started_at j' = None ∧ completed_at j' = Some 7%Z)
  ∧ (∃ j', get_job "job-1"
             (replay [mkUpd 20 "job-1" RUNNING (Some 40%Z) None;
                      mkUpd 30 "job-2" RUNNING (Some 5%Z) None;
                      mkUpd 40 "job-1" COMPLETED (Some 100%Z) None] accepted)
           = Some j'
           ∧ started_at j' = Some 1%Z).
Proof.
  split.
  - destruct (started_at_written_once
                [mkUpd 7 "job-1" FAILED None (Some "Job cancelled by user")] submitted
                "job-1" (mkJob "job-1" "sol" PENDING 0 None None "{}" "job-1_dem.tif" None 0)
                ltac:(vm_compute; reflexivity)) as (j' & Hg & _ & Hnever & _).
    exists j'. split; [exact Hg|]. split.
    + rewrite Hnever; [reflexivity|]. repeat constructor. discriminate.
    + vm_compute in Hg. injection Hg as <-. reflexivity.
  - destruct (started_at_written_once
                [mkUpd 20 "job-1" RUNNING (Some 40%Z) None;
                 mkUpd 30 "job-2" RUNNING (Some 5%Z) None;
                 mkUpd 40 "job-1" COMPLETED (Some 100%Z) None] accepted
                "job-1" (update_row 1 RUNNING (Some 5%Z) None
                           (mkJob "job-1" "sol" PENDING 0 None None "{}" "job-1_dem.tif" None 0))
                ltac:(vm_compute; reflexivity)) as (j' & Hg & Hkeep & _).
    exists j'. split; [exact Hg|]. apply Hkeep. reflexivity.
Defined.

(** An update for an id that is not in the table changes nothing, and a
    history of updates neither adds nor removes a row. *)
Theorem updates_keep_the_rows (history : list Update) (jobs : gmap string Job) :
  dom (replay history jobs) = dom jobs
  ∧ (Forall (λ u, get_job (upd_job u) jobs = None) history → replay history jobs = jobs).
Proof.
  revert jobs. induction history as [|u history IH]; intros jobs; [split; reflexivity|].
  simpl. destruct (IH (update_status (at_time u) (upd_job u) (upd_status u)
                         (upd_progress u) (upd_error u) jobs)) as [Hdom Hsame].
  split.
  - rewrite Hdom. unfold update_status. apply dom_alter_L.
  - intros Hall. inversion Hall as [|? ? Hhead Htail]; subst.
    unfold get_job in *. rewrite (update_status_missing _ _ _ _ _ _ Hhead) in *.
    apply Hsame. exact Htail.
Qed.


(** ** Submission *)

Lemma endswith_refl (s : string) : PyText.endswith s s = true.
Proof. destruct s; cbn [PyText.endswith]; rewrite String.eqb_refl; reflexivity. Qed.

Lemma endswith_lower (s suffix : string) :
  PyText.endswith s suffix = true →
  PyText.endswith (PyText.lower s) (PyText.lower suffix) = true.
Proof.
  induction s as [|c s IH]; intros H; cbn [PyText.endswith] in H;
    apply orb_true_iff in H as [H|H].
  - apply String.eqb_eq in H as <-. reflexivity.
  - discriminate.
  - apply String.eqb_eq in H as <-. apply endswith_refl.
  - cbn [PyText.lower PyText.endswith]. rewrite (IH H). apply orb_true_r.
Qed.

(** [submit_job] tests the file name as it is, [upload_file] tests it in
    lower case: a name [submit_job] accepts is accepted by [upload_file], but
    [DEM.TIF] passes the upload and is refused at submission.  A refused
    submission is answered with status 400 and changes nothing. *)
Theorem submit_job_stricter_than_upload (json_dumps : Parameters → string)
    (job_id : string) (now : Z) (workflow_type filename : string) (size : N)
    (save : SaveOutcome) (step linke_value albedo_value : Q) (num_threads : Z)
    (start_year end_year : option Z) (w : World) :
  (submit_job_accepts filename = true → upload_file_accepts filename = true)
  ∧ (submit_job_accepts filename = false →
     submit_job json_dumps job_id now workflow_type filename size save step linke_value
       albedo_value num_threads start_year end_year w
     = (Returned (SubmitRejected 400 "DEM file must be a GeoTIFF (.tif or .tiff)"), w))
  ∧ upload_file_accepts "DEM.TIF" = true
  ∧ submit_job_accepts "DEM.TIF" = false.
Proof.
  split; [|split; [|split; reflexivity]].
  - unfold submit_job_accepts, upload_file_accepts. intros H.
    apply orb_true_iff in H as [H|H]; apply endswith_lower in H.
    + change (PyText.lower ".tif") with ".tif" in H. rewrite H. reflexivity.
    + change (PyText.lower ".tiff") with ".tiff" in H. rewrite H. apply orb_true_r.
  - intros H. unfold submit_job. rewrite H. reflexivity.
Qed.

Lemma prefix_append (p s : string) : String.prefix p (p +:+ s) = true.
Proof.
  induction p as [|c p IH]; [destruct s; reflexivity|].
  rewrite append_cons, prefix_cons.
  destruct (Ascii.ascii_dec c c); [exact IH | contradiction].
Qed.

Section Submitted.

Variable json_dumps : Parameters → string.
Variable float : string → option Q.

(** An accepted submission under a fresh id stores the upload as
    [<job_id>_<filename>] and a PENDING row with progress 0 that names it. *)
Lemma submit_job_saved (job_id : string) (now : Z) (workflow_type filename : string)
    (size : N) (step linke_value albedo_value : Q) (num_threads : Z)
    (start_year end_year : option Z) (w : World) :
  submit_job_accepts filename = true →
  get_job job_id (jobs_table w) = None →
  ∃ w1,
    submit_job json_dumps job_id now workflow_type filename size Saved step linke_value
      albedo_value num_threads start_year end_year w = (Returned (Submitted job_id), w1)
    ∧ get_job job_id (jobs_table w1)
      = Some (mkJob job_id workflow_type PENDING now None None
                (json_dumps (job_parameters workflow_type step linke_value albedo_value
                               num_threads start_year end_year))
                (job_id +:+ "_" +:+ filename) None 0)
    ∧ (∀ other, other ≠ job_id → get_job other (jobs_table w1) = get_job other (jobs_table w))
    ∧ files w1 = write_upload (job_id +:+ "_" +:+ filename) size (files w).
Proof.
  intros Hname Hfresh. unfold submit_job. rewrite Hname. simpl negb. cbv iota.
  unfold mbind, Eff_bind, change, inspect, mret, Eff_ret. simpl.
  unfold get_job in Hfresh. rewrite Hfresh.
  eexists. split; [reflexivity|]. simpl. split; [apply lookup_insert_eq|].
  split; [|reflexivity].
  intros other Hother. unfold get_job. apply lookup_insert_ne. congruence.
Qed.

End Submitted.

(** Every accepted submission ends in a final state: once the supervision
    task handed to the event loop returns, the job is COMPLETED with
    progress 100 or FAILED, whatever the backend and the stream do. *)
Theorem accepted_submission_ends_terminal (json_dumps : Parameters → string)
    (float : string → option Q) (job_id : string) (now : Z)
    (workflow_type filename : string) (size : N) (step linke_value albedo_value : Q)
    (num_threads : Z) (start_year end_year : option Z)
    (started finished : Z) (docker_available : bool)
    (progress_stream : list ProgressUpdate) (stream_end : StreamEnd) (w : World) :
  submit_job_accepts filename = true →
  get_job job_id (jobs_table w) = None →
  ∃ w1 w2 j',
    submit_job json_dumps job_id now workflow_type filename size Saved step linke_value
      albedo_value num_threads start_year end_year w = (Returned (Submitted job_id), w1)
    ∧ (status <$> get_job job_id (jobs_table w1) = Some PENDING
       ∧ progress <$> get_job job_id (jobs_table w1) = Some 0%Z
       ∧ dem_filename <$> get_job job_id (jobs_table w1)
         = Some (job_id +:+ "_" +:+ filename)
       ∧ uploads (files w1) !! (job_id +:+ "_" +:+ filename) = Some size)
    ∧ execute_containerized_workflow float started finished docker_available job_id
        progress_stream stream_end w1 = (Returned tt, w2)
    ∧ get_job job_id (jobs_table w2) = Some j'
    ∧ ((status j' = COMPLETED ∧ progress j' = 100%Z) ∨ status j' = FAILED).
Proof.
  intros Hname Hfresh.
  destruct (submit_job_saved json_dumps job_id now workflow_type filename size step
              linke_value albedo_value num_threads start_year end_year w Hname Hfresh)
    as (w1 & Hsubmit & Hrow & _ & Hfiles).
  destruct (execute_ends_terminal float started finished docker_available job_id
              progress_stream stream_end w1 _ Hrow) as (w2 & j' & Hrun & Hg & Hend).
  exists w1, w2, j'. split; [exact Hsubmit|]. split.
  { rewrite Hrow, Hfiles. simpl. repeat split; try reflexivity. apply lookup_insert_eq. }
  split; [exact Hrun|]. split; [exact Hg | exact Hend].
Qed.

Lemma accepted_submission_ends_terminal_witness :
  ∃ w1 w2 j',
    submit_job (λ _, "{}") "job-2" 5 "sol" "dem.tif" 4096 Saved
      (Qmake 15 1) (Qmake 3 1) (Qmake 1 5) 4 None None (world_of accepted no_files)
    = (Returned (Submitted "job-2"), w1)
    ∧ (status <$> get_job "job-2" (jobs_table w1) = Some PENDING
       ∧ progress <$> get_job "job-2" (jobs_table w1) = Some 0%Z
       ∧ dem_filename <$> get_job "job-2" (jobs_table w1) = Some "job-2_dem.tif"
       ∧ uploads (files w1) !! "job-2_dem.tif" = Some 4096%N)
    ∧ execute_containerized_workflow Decimal.float 6 99 true "job-2"
        (timed 10 ["PROGRESS: 30%"]) Exhausted w1 = (Returned tt, w2)
    ∧ get_job "job-2" (jobs_table w2) = Some j'
    ∧ ((status j' = COMPLETED ∧ progress j' = 100%Z) ∨ status j' = FAILED).
Proof.
  apply (accepted_submission_ends_terminal (λ _, "{}") Decimal.float "job-2" 5 "sol"
           "dem.tif" 4096 (Qmake 15 1) (Qmake 3 1) (Qmake 1 5) 4 None None 6 99 true
           (timed 10 ["PROGRESS: 30%"]) Exhausted (world_of accepted no_files)).
  - reflexivity.
  - vm_compute. reflexivity.
Defined.

Lemma glob_uploads_empty (job_id name : string) (fs : FileSystem) :
  glob_uploads job_id fs = [] →
  uploads fs !! (job_id +:+ "_" +:+ name) = None.
Proof.
  intros Hglob. destruct (uploads fs !! (job_id +:+ "_" +:+ name)) as [size|] eqn:Hk;
    [|reflexivity].
  assert (Hin : (job_id +:+ "_" +:+ name) ∈ glob_uploads job_id fs).
  { unfold glob_uploads. apply list_elem_of_filter. split.
    - unfold Py.startswith.
      replace (job_id +:+ "_" +:+ name) with ((job_id +:+ "_") +:+ name).
      + rewrite prefix_append. exact I.
      + clear. induction job_id as [|c s IH]; [reflexivity|].
        rewrite !append_cons, IH. reflexivity.
    - apply list_elem_of_fmap. exists (job_id +:+ "_" +:+ name, size).
      split; [reflexivity|]. apply elem_of_map_to_list. exact Hk. }
  rewrite Hglob in Hin. inversion Hin.
Qed.

(** What [submit_job] stores, [delete_job] finds: deleting a job that was
    just submitted, with no file system error on the way, succeeds and
    leaves neither the row nor the uploaded DEM. *)
Theorem submitted_job_deleted_without_trace (json_dumps : Parameters → string)
    (job_id : string) (now : Z) (workflow_type filename : string) (size : N)
    (step linke_value albedo_value : Q) (num_threads : Z)
    (start_year end_year : option Z) (w : World) :
  submit_job_accepts filename = true →
  get_job job_id (jobs_table w) = None →
  faults (files w) = [] →
  ∃ w1 w2,
    submit_job json_dumps job_id now workflow_type filename size Saved step linke_value
      albedo_value num_threads start_year end_year w = (Returned (Submitted job_id), w1)
    ∧ uploads (files w1) !! (job_id +:+ "_" +:+ filename) = Some size
    ∧ delete_job job_id w1 = (Returned (true, ""), w2)
    ∧ get_job job_id (jobs_table w2) = None
    ∧ uploads (files w2) !! (job_id +:+ "_" +:+ filename) = None.
Proof.
  intros Hname Hfresh Hfaults.
  destruct (submit_job_saved json_dumps job_id now workflow_type filename size step
              linke_value albedo_value num_threads start_year end_year w Hname Hfresh)
    as (w1 & Hsubmit & Hrow & _ & Hfiles).
  assert (Hf1 : faults (files (with_jobs (delete job_id) w1)) = []).
  { simpl. rewrite Hfiles. exact Hfaults. }
  destruct (clean_up_files_ok job_id (with_jobs (delete job_id) w1) Hf1)
    as (w2 & Hclean & _ & _ & Hglob).
  exists w1, w2. split; [exact Hsubmit|].
  split; [rewrite Hfiles; apply lookup_insert_eq|].
  pose proof (delete_job_removes_record_first_aux job_id w1 _ Hrow) as Hdelete.
  rewrite Hclean in Hdelete. split; [apply Hdelete; discriminate|].
  split.
  - pose proof (clean_up_files_keeps_jobs job_id (with_jobs (delete job_id) w1)) as Hkeep.
    rewrite Hclean in Hkeep. simpl in Hkeep. unfold get_job. rewrite Hkeep.
    apply lookup_delete_eq.
  - apply glob_uploads_empty. exact Hglob.
Qed.

Lemma submitted_job_deleted_without_trace_witness :
  ∃ w1 w2,
    submit_job (λ _, "{}") "job-2" 5 "sol" "dem.tif" 4096 Saved
      (Qmake 15 1) (Qmake 3 1) (Qmake 1 5) 4 None None (world_of accepted job1_files)
    = (Returned (Submitted "job-2"), w1)
    ∧ uploads (files w1) !! "job-2_dem.tif" = Some 4096%N
    ∧ delete_job "job-2" w1 = (Returned (true, ""), w2)
    ∧ get_job "job-2" (jobs_table w2) = None
    ∧ uploads (files w2) !! "job-2_dem.tif" = None.
Proof.
  apply (submitted_job_deleted_without_trace (λ _, "{}") "job-2" 5 "sol" "dem.tif" 4096
           (Qmake 15 1) (Qmake 3 1) (Qmake 1 5) 4 None None (world_of accepted job1_files)).
  - reflexivity.
  - vm_compute. reflexivity.
  - reflexivity.
Defined.

(** ** Retention: what a pass removes *)

Lemma files_removed_refl (dirs names : list string) (fs : FileSystem) :
  files_removed dirs names fs fs.
Proof. unfold files_removed. split_and!; auto. Qed.

Lemma files_removed_trans (dirs names : list string) (a b c : FileSystem) :
  files_removed dirs names a b → files_removed dirs names b c →
  files_removed dirs names a c.
Proof.
  intros (H1 & H2 & H3 & H4 & H5 & H6 & H7) (G1 & G2 & G3 & G4 & G5 & G6 & G7).
  unfold files_removed. split_and!.
  - intros k Hk. rewrite G1, H1; auto.
  - auto.
  - intros n Hn. rewrite G3, H3; auto.
  - auto.
  - congruence.
  - congruence.
  - congruence.
Qed.

Lemma files_removed_mono (dirs dirs' names names' : list string) (a b : FileSystem) :
  dirs ⊆ dirs' → names ⊆ names' →
  files_removed dirs names a b → files_removed dirs' names' a b.
Proof.
  intros Hd Hn (H1 & H2 & H3 & H4 & H5 & H6 & H7). unfold files_removed.
  split_and!; auto.
Qed.

Lemma remove_results_frame (job_id : string) (fs : FileSystem) :
  files_removed [job_id] [] fs (remove_path (ResultsDir job_id) fs).
Proof.
  unfold files_removed. split_and!; simpl; auto.
  - intros k Hk. apply lookup_delete_ne. intros ->. apply Hk. left.
  - intros k Hk. rewrite lookup_delete_None. auto.
Qed.

Lemma remove_upload_frame (name : string) (fs : FileSystem) :
  files_removed [] [name] fs (remove_path (UploadFile name) fs).
Proof.
  unfold files_removed. split_and!; simpl; auto.
  - intros k Hk. apply lookup_delete_ne. intros ->. apply Hk. left.
  - intros k Hk. rewrite lookup_delete_None. auto.
Qed.

Section RetentionLoops.

Variable sql_before : Z → Z → bool.

Lemma elem_of_select_expired (wanted : JobStatus) (cutoff : Z) (jobs : gmap string Job)
    (j : Job) :
  j ∈ select_expired sql_before wanted cutoff jobs
  ↔ is_expired sql_before wanted cutoff j = true ∧ ∃ k, jobs !! k = Some j.
Proof.
  unfold select_expired. rewrite list_elem_of_filter, list_elem_of_fmap. split.
  - intros (He & [k j'] & -> & Hin). apply elem_of_map_to_list in Hin.
    split; [apply Is_true_true; exact He | eauto].
  - intros (He & k & Hk). split; [apply Is_true_true; exact He|].
    exists (k, j). split; [reflexivity|]. apply elem_of_map_to_list. exact Hk.
Qed.

(** What one step on the results directory of a job does. *)
Lemma purge_results_spec (job_id : string) (r : CleanupRun) :
  ∃ r', (purge_results job_id r = inl r'
         ∧ results_dirs (files (world r')) !! job_id = None
         ∨ ∃ e, purge_results job_id r = inr (e, r')
                ∧ fault_of (ResultsDir job_id) (files (world r)) = Some e)
        ∧ uncommitted r' = uncommitted r
        ∧ jobs_table (world r') = jobs_table (world r)
        ∧ errors (stats r') = errors (stats r)
        ∧ processed_jobs (stats r') = processed_jobs (stats r)
        ∧ successful_cleaned (stats r') = successful_cleaned (stats r)
        ∧ failed_deleted (stats r') = failed_deleted (stats r)
        ∧ files_removed [job_id] [] (files (world r)) (files (world r')).
Proof.
  unfold purge_results. destruct (path_exists (ResultsDir job_id) (files (world r))) eqn:Hp.
  - unfold remove. destruct (fault_of (ResultsDir job_id) (files (world r))) as [e|] eqn:Hf.
    + eexists. split; [right; exists e; split; reflexivity|]. simpl.
      repeat split; auto.
    + eexists. split; [left; split; [reflexivity|]; simpl; apply lookup_delete_eq|].
      simpl. split; [reflexivity|]. split; [reflexivity|]. split; [reflexivity|].
      split; [reflexivity|]. split; [reflexivity|]. split; [reflexivity|].
      apply remove_results_frame.
  - exists r. split.
    + left. split; [reflexivity|]. simpl in Hp. apply bool_decide_eq_false_1 in Hp.
      destruct (results_dirs (files (world r)) !! job_id); [|reflexivity].
      exfalso. apply Hp. eauto.
    + repeat split; auto.
Qed.

(** What one step on the upload of a job does. *)
Lemma purge_upload_spec (dem : string) (r : CleanupRun) :
  ∃ r', (purge_upload dem r = inl r'
         ∧ (dem ≠ "" → uploads (files (world r')) !! dem = None)
         ∨ ∃ e, purge_upload dem r = inr (e, r')
                ∧ fault_of (UploadFile dem) (files (world r)) = Some e)
        ∧ uncommitted r' = uncommitted r
        ∧ jobs_table (world r') = jobs_table (world r)
        ∧ errors (stats r') = errors (stats r)
        ∧ processed_jobs (stats r') = processed_jobs (stats r)
        ∧ successful_cleaned (stats r') = successful_cleaned (stats r)
        ∧ failed_deleted (stats r') = failed_deleted (stats r)
        ∧ files_removed [] [dem] (files (world r)) (files (world r')).
Proof.
  unfold purge_upload. destruct dem as [|c dem].
  { exists r. split; [left; split; [reflexivity | intros H; contradiction]|].
    repeat split; auto. }
  destruct (uploads (files (world r)) !! String c dem) as [size|] eqn:Hu.
  - unfold remove. destruct (fault_of (UploadFile (String c dem)) (files (world r)))
      as [e|] eqn:Hf.
    + eexists. split; [right; exists e; split; reflexivity|]. simpl. repeat split; auto.
    + eexists. split; [left; split; [reflexivity|]; intros _; simpl; apply lookup_delete_eq|].
      simpl. split; [reflexivity|]. split; [reflexivity|]. split; [reflexivity|].
      split; [reflexivity|]. split; [reflexivity|]. split; [reflexivity|].
      apply remove_upload_frame.
  - exists r. split; [left; split; [reflexivity | intros _; exact Hu]|].
    repeat split; auto.
Qed.

End RetentionLoops.

Ltac subset_of_cons :=
  let x := fresh "x" in
  let Hx := fresh "Hx" in
  intros x Hx; cbn [fmap list_fmap] in *;
  repeat rewrite elem_of_cons in *; rewrite ?elem_of_nil in *; tauto.

Section RetentionPass.

Variable sql_before : Z → Z → bool.

(** The first loop of a live pass. *)
Lemma clean_successful_live (rows : list Job) :
  ∀ r, ∃ r',
    (clean_successful false rows r = inl r'
     ∧ (∀ k, k ∈ id <$> rows → results_dirs (files (world r')) !! k = None)
     ∧ successful_cleaned (stats r')
       = (successful_cleaned (stats r) + Z.of_nat (length rows))%Z
     ∧ processed_jobs (stats r') = (processed_jobs (stats r) + Z.of_nat (length rows))%Z
     ∨ ∃ e p, clean_successful false rows r = inr (e, r')
              ∧ fault_of p (files (world r)) = Some e)
    ∧ uncommitted r' = uncommitted r
    ∧ jobs_table (world r') = jobs_table (world r)
    ∧ errors (stats r') = errors (stats r)
    ∧ failed_deleted (stats r') = failed_deleted (stats r)
    ∧ files_removed (id <$> rows) [] (files (world r)) (files (world r')).
Proof.
  induction rows as [|job rows IH]; intros r.
  - exists r. split; [left; split; [reflexivity|]|].
    + split; [intros k Hk; inversion Hk|]. simpl. split; lia.
    + split_and!; auto. apply files_removed_refl.
  - cbn [clean_successful].
    destruct (purge_results_spec (id job) r)
      as (r1 & Hstep & Hu1 & Hj1 & He1 & Hp1 & Hs1 & Hf1 & Hframe1).
    destruct Hstep as [[Hpurge Hgone]|(e & Hpurge & Hfault)]; rewrite Hpurge.
    + destruct (IH (mkRun (count_successful (stats r1)) (uncommitted r1) (world r1)))
        as (r' & Hrest & Hu & Hj & He & Hf & Hframe).
      simpl in *. exists r'. split.
      * destruct Hrest as [(Hrun & Hdirs & Hcount & Hproc)|(e & p & Hrun & Hfault)].
        -- left. split; [exact Hrun|]. split; [|split; lia].
           intros k Hk. apply elem_of_cons in Hk as [->|Hk]; [|apply Hdirs; exact Hk].
           destruct Hframe as (_ & Hnone & _). apply Hnone. exact Hgone.
        -- right. exists e, p. split; [exact Hrun|].
           unfold fault_of in *. destruct Hframe1 as (_ & _ & _ & _ & _ & _ & Hfaults).
           rewrite <- Hfaults. exact Hfault.
      * split; [congruence|]. split; [congruence|]. split; [congruence|].
        split; [congruence|].
        eapply files_removed_trans.
        -- eapply files_removed_mono; [| |exact Hframe1]; subset_of_cons.
        -- eapply files_removed_mono; [| |exact Hframe]; subset_of_cons.
    + exists r1. split; [right; exists e, (ResultsDir (id job)); split; [reflexivity|exact Hfault]|].
      split; [exact Hu1|]. split; [exact Hj1|]. split; [exact He1|]. split; [exact Hf1|].
      eapply files_removed_mono; [| |exact Hframe1]; subset_of_cons.
Qed.

(** The second loop of a live pass. *)
Lemma delete_failed_live (rows : list Job) :
  ∀ r, ∃ r',
    (delete_failed false rows r = inl r'
     ∧ uncommitted r' = uncommitted r ++ (id <$> rows)
     ∧ (∀ k, k ∈ id <$> rows → results_dirs (files (world r')) !! k = None)
     ∧ (∀ n, n ∈ dem_filename <$> rows → n ≠ "" → uploads (files (world r')) !! n = None)
     ∧ failed_deleted (stats r') = (failed_deleted (stats r) + Z.of_nat (length rows))%Z
     ∧ processed_jobs (stats r') = (processed_jobs (stats r) + Z.of_nat (length rows))%Z
     ∨ ∃ e p, delete_failed false rows r = inr (e, r')
              ∧ fault_of p (files (world r)) = Some e)
    ∧ jobs_table (world r') = jobs_table (world r)
    ∧ errors (stats r') = errors (stats r)
    ∧ successful_cleaned (stats r') = successful_cleaned (stats r)
    ∧ files_removed (id <$> rows) (dem_filename <$> rows)
        (files (world r)) (files (world r')).
Proof.
  induction rows as [|job rows IH]; intros r.
  - exists r. split; [left; split; [reflexivity|]|].
    + split; [rewrite app_nil_r; reflexivity|].
      split; [intros k Hk; inversion Hk|]. split; [intros k Hk; inversion Hk|].
      simpl. split; lia.
    + split_and!; auto. apply files_removed_refl.
  - cbn [delete_failed].
    destruct (purge_results_spec (id job) r)
      as (r1 & Hstep1 & Hu1 & Hj1 & He1 & Hp1 & Hs1 & Hf1 & Hframe1).
    destruct Hstep1 as [[Hpurge1 Hgone1]|(e & Hpurge1 & Hfault1)]; rewrite Hpurge1.
    2:{ exists r1. split; [right; exists e, (ResultsDir (id job)); split;
                            [reflexivity|exact Hfault1]|].
        split; [exact Hj1|]. split; [exact He1|]. split; [exact Hs1|].
        eapply files_removed_mono; [| |exact Hframe1]; subset_of_cons. }
    destruct (purge_upload_spec (dem_filename job) r1)
      as (r2 & Hstep2 & Hu2 & Hj2 & He2 & Hp2 & Hs2 & Hf2 & Hframe2).
    assert (Hfaults1 : faults (files (world r1)) = faults (files (world r)))
      by (destruct Hframe1 as (_ & _ & _ & _ & _ & _ & H); exact H).
    assert (Hframe12 : files_removed (id <$> job :: rows) (dem_filename <$> job :: rows)
                         (files (world r)) (files (world r2))).
    { eapply files_removed_trans.
      - eapply files_removed_mono; [| |exact Hframe1]; subset_of_cons.
      - eapply files_removed_mono; [| |exact Hframe2]; subset_of_cons. }
    destruct Hstep2 as [[Hpurge2 Hgone2]|(e & Hpurge2 & Hfault2)]; rewrite Hpurge2.
    2:{ exists r2. split.
        - right. exists e, (UploadFile (dem_filename job)). split; [reflexivity|].
          unfold fault_of in *. rewrite <- Hfaults1. exact Hfault2.
        - split; [congruence|]. split; [congruence|]. split; [congruence|].
          exact Hframe12. }
    destruct (IH (mkRun (count_failed (stats r2)) (uncommitted r2 ++ [id job]) (world r2)))
      as (r' & Hrest & Hj & He & Hs & Hframe).
    simpl in *. exists r'. split.
    + destruct Hrest as [(Hrun & Hun & Hdirs & Hups & Hcount & Hproc)|(e & p & Hrun & Hfault)].
      * left. split; [exact Hrun|].
        split; [rewrite Hun, Hu2, Hu1, <- app_assoc; reflexivity|].
        split; [|split; [|split; lia]].
        -- intros k Hk. apply elem_of_cons in Hk as [->|Hk]; [|apply Hdirs; exact Hk].
           destruct Hframe as (_ & Hnone & _). apply Hnone.
           destruct Hframe2 as (_ & Hnone2 & _). apply Hnone2. exact Hgone1.
        -- intros n Hn Hne. apply elem_of_cons in Hn as [->|Hn]; [|apply Hups; assumption].
           destruct Hframe as (_ & _ & _ & Hnone & _). apply Hnone. apply Hgone2. exact Hne.
      * right. exists e, p. split; [exact Hrun|].
        unfold fault_of in *.
        destruct Hframe2 as (_ & _ & _ & _ & _ & _ & Hfaults2).
        rewrite <- Hfaults1, <- Hfaults2. exact Hfault.
    + split; [congruence|]. split; [congruence|]. split; [congruence|].
      eapply files_removed_trans; [exact Hframe12|].
      eapply files_removed_mono; [| |exact Hframe]; subset_of_cons.
Qed.

End RetentionPass.

Section RetentionLive.

Variable sql_before : Z → Z → bool.

(** A live pass of [JobManager.cleanup_old_jobs]: either every removal went
    through, and the rows of the expired failed jobs are deleted at the
    commit, or a removal raised, and no row is deleted. *)
Lemma cleanup_old_jobs_live (now d h : Z) (w : World) :
  let successful := select_expired sql_before COMPLETED (now - days d) (jobs_table w) in
  let failed := select_expired sql_before FAILED (now - hours h) (jobs_table w) in
  ∃ s w',
    cleanup_old_jobs sql_before now d h false w = (s, w')
    ∧ files_removed (id <$> successful ++ failed) (dem_filename <$> failed)
        (files w) (files w')
    ∧ (errors s = []
       ∧ jobs_table w' = foldr delete (jobs_table w) (id <$> failed)
       ∧ (∀ k, k ∈ id <$> successful ++ failed → results_dirs (files w') !! k = None)
       ∧ (∀ n, n ∈ dem_filename <$> failed → n ≠ "" → uploads (files w') !! n = None)
       ∧ successful_cleaned s = Z.of_nat (length successful)
       ∧ failed_deleted s = Z.of_nat (length failed)
       ∧ processed_jobs s = Z.of_nat (length successful + length failed)
       ∨ ∃ e p, errors s = ["Error during cleanup: " +:+ e]
                ∧ fault_of p (files w) = Some e
                ∧ jobs_table w' = jobs_table w).
Proof.
  cbv zeta. unfold cleanup_old_jobs.
  set (successful := select_expired sql_before COMPLETED (now - days d) (jobs_table w)).
  set (failed := select_expired sql_before FAILED (now - hours h) (jobs_table w)).
  destruct (clean_successful_live successful (mkRun (mkStats 0 0 0 0 []) [] w))
    as (r1 & Hfirst & Hu1 & Hj1 & He1 & Hf1 & Hframe1).
  simpl in Hu1, Hj1, He1, Hf1, Hframe1.
  destruct Hfirst as [(Hrun1 & Hdirs1 & Hcount1 & Hproc1)|(e & p & Hrun1 & Hfault1)];
    rewrite Hrun1.
  2:{ eexists _, _. split; [reflexivity|]. simpl. split.
      - eapply files_removed_mono; [| |exact Hframe1].
        + intros x Hx. rewrite fmap_app. apply elem_of_app. left. exact Hx.
        + intros x Hx. inversion Hx.
      - right. exists e, p. rewrite He1. split; [reflexivity|]. split; [exact Hfault1|].
        exact Hj1. }
  simpl in Hcount1, Hproc1.
  destruct (delete_failed_live failed r1) as (r2 & Hsecond & Hj2 & He2 & Hs2 & Hframe2).
  assert (Hframe : files_removed (id <$> successful ++ failed) (dem_filename <$> failed)
                     (files w) (files (world r2))).
  { eapply files_removed_trans.
    - eapply files_removed_mono; [| |exact Hframe1].
      + intros x Hx. rewrite fmap_app. apply elem_of_app. left. exact Hx.
      + intros x Hx. inversion Hx.
    - eapply files_removed_mono; [| |exact Hframe2].
      + intros x Hx. rewrite fmap_app. apply elem_of_app. right. exact Hx.
      + intros x Hx. exact Hx. }
  destruct Hsecond as [(Hrun2 & Hun2 & Hdirs2 & Hups2 & Hcount2 & Hproc2)
                      |(e & p & Hrun2 & Hfault2)]; rewrite Hrun2.
  - eexists _, _. split; [reflexivity|]. simpl. split; [exact Hframe|].
    left. split; [congruence|].
    split; [rewrite Hun2, Hu1, Hj2, Hj1; reflexivity|].
    split; [|split; [exact Hups2|]].
    + intros k Hk. rewrite fmap_app in Hk. apply elem_of_app in Hk as [Hk|Hk].
      * destruct Hframe2 as (_ & Hnone & _). apply Hnone, Hdirs1, Hk.
      * apply Hdirs2, Hk.
    + split; [lia|]. split; [lia|]. lia.
  - eexists _, _. split; [reflexivity|]. simpl. split; [exact Hframe|].
    right. exists e, p. rewrite He2, He1. split; [reflexivity|]. split.
    + unfold fault_of in *. destruct Hframe1 as (_ & _ & _ & _ & _ & _ & Hfaults).
      rewrite <- Hfaults. exact Hfault2.
    + congruence.
Qed.

End RetentionLive.

(** ** Retention: the rows *)

(** A retention pass deletes rows at its commit only: when it reports an
    error (a removal raised), no row of the table has been deleted, though
    the files removed before the error are gone. *)
Theorem failed_cleanup_deletes_no_row (sql_before : Z → Z → bool) (now d h : Z)
    (dry_run : bool) (w : World) :
  errors (fst (cleanup_old_jobs sql_before now d h dry_run w)) ≠ [] →
  jobs_table (snd (cleanup_old_jobs sql_before now d h dry_run w)) = jobs_table w.
Proof.
  destruct dry_run.
  - intros _. destruct (cleanup_old_jobs_dry sql_before now d h w) as [-> _]. reflexivity.
  - destruct (cleanup_old_jobs_live sql_before now d h w) as (s & w' & -> & _ & Hcases).
    simpl. destruct Hcases as [(Herr & _)|(e & p & _ & _ & Hjobs)].
    + intros Hne. contradiction.
    + intros _. exact Hjobs.
Qed.

(** The results directory of the failed job-1 is removed, its upload cannot
    be: the pass reports the error and the row stays. *)
Lemma failed_cleanup_deletes_no_row_witness :
  let w := mkWorld (update_status 100 "job-1" FAILED None (Some "r.sun failed") accepted)
             (mkFS {[ "job-1" := [1048576%N] ]} ∅ {[ "job-1_dem.tif" := 4096%N ]} ∅
                   [(UploadFile "job-1_dem.tif", "[Errno 13] Permission denied")])
             ∅ ∅ [] [] in
  errors (fst (cleanup_old_jobs Z.ltb 700000 7 12 false w))
  = ["Error during cleanup: [Errno 13] Permission denied"]
  ∧ jobs_table (snd (cleanup_old_jobs Z.ltb 700000 7 12 false w)) = jobs_table w
  ∧ path_exists (ResultsDir "job-1") (files w) = true
  ∧ path_exists (ResultsDir "job-1") (files (snd (cleanup_old_jobs Z.ltb 700000 7 12 false w)))
    = false.
Proof.
  cbv zeta. split; [vm_compute; reflexivity|]. split.
  - apply failed_cleanup_deletes_no_row. vm_compute. discriminate.
  - split; vm_compute; reflexivity.
Defined.

Lemma expired_key (sql_before : Z → Z → bool) (wanted : JobStatus) (cutoff : Z)
    (jobs : gmap string Job) (k : string) (j : Job) :
  keyed_by_id jobs → jobs !! k = Some j →
  (k ∈ id <$> select_expired sql_before wanted cutoff jobs
   ↔ is_expired sql_before wanted cutoff j = true).
Proof.
  intros Hkeyed Hj. rewrite list_elem_of_fmap. split.
  - intros (j' & -> & Hin). apply elem_of_select_expired in Hin as (He & k' & Hk').
    pose proof (Hkeyed _ _ Hk') as Hid. rewrite Hid in Hj.
    rewrite Hk' in Hj. injection Hj as <-. exact He.
  - intros He. exists j. split; [symmetry; apply Hkeyed; exact Hj|].
    apply elem_of_select_expired. split; [exact He | eauto].
Qed.

Lemma no_faults (p : path) (fs : FileSystem) (e : string) :
  faults fs = [] → fault_of p fs = Some e → False.
Proof. unfold fault_of. intros ->. discriminate. Qed.

Lemma clean_pass_rows (sql_before : Z → Z → bool) (now d h : Z) (w : World) :
  faults (files w) = [] →
  (∀ k j, jobs_table w !! k = Some j → id j = k) →
  let pass := cleanup_old_jobs sql_before now d h false w in
  errors (fst pass) = []
  ∧ (∀ k j, get_job k (jobs_table w) = Some j →
       (is_expired sql_before FAILED (now - hours h) j = true →
        get_job k (jobs_table (snd pass)) = None
        ∧ path_exists (ResultsDir k) (files (snd pass)) = false
        ∧ (dem_filename j ≠ "" →
           path_exists (UploadFile (dem_filename j)) (files (snd pass)) = false))
       ∧ (is_expired sql_before FAILED (now - hours h) j = false →
          get_job k (jobs_table (snd pass)) = Some j)
       ∧ (is_expired sql_before COMPLETED (now - days d) j = true →
          path_exists (ResultsDir k) (files (snd pass)) = false))
  ∧ results_zips (files (snd pass)) = results_zips (files w).
Proof.
  intros Hfaults Hkeyed. cbv zeta.
  destruct (cleanup_old_jobs_live sql_before now d h w) as (s & w' & -> & Hframe & Hcases).
  simpl. destruct Hcases as [(Herr & Hjobs & Hdirs & Hups & _)|(e & p & _ & Hfault & _)];
    [|exfalso; eapply no_faults; eassumption].
  split; [exact Herr|]. split; [|destruct Hframe as (_ & _ & _ & _ & Hz & _); exact Hz].
  intros k j Hj. unfold get_job in *.
  pose proof (expired_key sql_before FAILED (now - hours h) _ k j Hkeyed Hj) as Hfailed.
  pose proof (expired_key sql_before COMPLETED (now - days d) _ k j Hkeyed Hj) as Hcompleted.
  split; [|split].
  - intros He. apply Hfailed in He. split; [|split].
    + rewrite Hjobs. apply lookup_foldr_delete. exact He.
    + apply bool_decide_eq_false_2. rewrite Hdirs; [intros [x Hx]; discriminate|].
      rewrite fmap_app. apply elem_of_app. right. exact He.
    + intros Hne. apply bool_decide_eq_false_2.
      rewrite Hups; [intros [x Hx]; discriminate| |exact Hne].
      apply list_elem_of_fmap. apply list_elem_of_fmap in He as (j' & Hid & Hin).
      apply elem_of_select_expired in Hin as Hin'. destruct Hin' as (_ & k' & Hk').
      pose proof (Hkeyed _ _ Hk') as Hid'. rewrite Hid, Hid' in Hj.
      rewrite Hk' in Hj. injection Hj as <-. exists j'. split; [reflexivity | exact Hin].
  - intros He. rewrite Hjobs, lookup_foldr_delete_not_elem_of; [exact Hj|].
    intros Hin. apply Hfailed in Hin. congruence.
  - intros He. apply Hcompleted in He. apply bool_decide_eq_false_2.
    rewrite Hdirs; [intros [x Hx]; discriminate|].
    rewrite fmap_app. apply elem_of_app. left. exact He.
Qed.

(** A live retention pass on a file system without errors, with cutoffs
    that Python can compute: it reports no error; the rows of the failed
    jobs past their cutoff are deleted together with their results
    directory and their upload; every other row stays as it is; of the
    completed jobs past their cutoff the results directory goes and nothing
    else.  Every upload that is not the DEM of a failed job past its cutoff
    stays, those of the cleaned completed jobs included; the results of the
    jobs that neither query selects stay; the zip files of earlier downloads
    and the temporary directories are left where they are. *)
Theorem clean_pass_row_policy (sql_before : Z → Z → bool) (now d h : Z) (w : World) :
  faults (files w) = [] →
  (∀ k j, jobs_table w !! k = Some j → id j = k) →
  cutoffs_computed now d h →
  let pass := cleanup_old_jobs sql_before now d h false w in
  errors (fst pass) = []
  ∧ (∀ k j, get_job k (jobs_table w) = Some j →
       (is_expired sql_before FAILED (now - hours h) j = true →
        get_job k (jobs_table (snd pass)) = None
        ∧ path_exists (ResultsDir k) (files (snd pass)) = false
        ∧ (dem_filename j ≠ "" →
           path_exists (UploadFile (dem_filename j)) (files (snd pass)) = false))
       ∧ (is_expired sql_before FAILED (now - hours h) j = false →
          get_job k (jobs_table (snd pass)) = Some j)
       ∧ (is_expired sql_before COMPLETED (now - days d) j = true →
          path_exists (ResultsDir k) (files (snd pass)) = false)
       ∧ (is_expired sql_before FAILED (now - hours h) j = false →
          is_expired sql_before COMPLETED (now - days d) j = false →
          results_dirs (files (snd pass)) !! k = results_dirs (files w) !! k))
  ∧ (∀ name,
       (∀ k j, get_job k (jobs_table w) = Some j →
               is_expired sql_before FAILED (now - hours h) j = true →
               dem_filename j ≠ name) →
       uploads (files (snd pass)) !! name = uploads (files w) !! name)
  ∧ results_zips (files (snd pass)) = results_zips (files w)
  ∧ temp_dirs (files (snd pass)) = temp_dirs (files w).
Proof.
  intros Hfaults Hkeyed _.
  destruct (clean_pass_rows sql_before now d h w Hfaults Hkeyed) as (Herr & Hrows & Hzips).
  cbv zeta in *.
  destruct (cleanup_old_jobs_live sql_before now d h w) as (s & w' & Hpass & Hframe & _).
  rewrite Hpass in *. simpl in *.
  destruct Hframe as (Hdirs & _ & Huploads & _ & _ & Htemp & _).
  split; [exact Herr|]. split; [|split; [|split; [exact Hzips | exact Htemp]]].
  - intros k j Hj. destruct (Hrows k j Hj) as (H1 & H2 & H3).
    split; [exact H1|]. split; [exact H2|]. split; [exact H3|].
    intros Hf Hc. apply Hdirs. rewrite fmap_app. intros Hin.
    unfold get_job in Hj. apply elem_of_app in Hin as [Hin|Hin].
    + apply (expired_key sql_before COMPLETED (now - days d) _ k j Hkeyed Hj) in Hin.
      congruence.
    + apply (expired_key sql_before FAILED (now - hours h) _ k j Hkeyed Hj) in Hin.
      congruence.
  - intros name Hname. apply Huploads. intros Hin.
    apply list_elem_of_fmap in Hin as (j & Hdem & Hin).
    apply elem_of_select_expired in Hin as (He & k & Hk).
    apply (Hname k j Hk He). symmetry. exact Hdem.
Qed.

(** job-1 finished at 100 and has results, an upload and the zip of a
    download: a pass at 700000 removes the results only. *)
Lemma clean_pass_row_policy_witness :
  let w := world_of finished_ok job1_files in
  let pass := cleanup_old_jobs Z.ltb 700000 7 12 false w in
  errors (fst pass) = []
  ∧ status <$> get_job "job-1" (jobs_table (snd pass)) = Some COMPLETED
  ∧ path_exists (ResultsDir "job-1") (files (snd pass)) = false
  ∧ uploads (files (snd pass)) !! "job-1_dem.tif" = Some 4096%N
  ∧ results_zips (files (snd pass)) = results_zips (files w).
Proof.
  cbv zeta.
  assert (Hkeyed : ∀ k j, jobs_table (world_of finished_ok job1_files) !! k = Some j →
                          id j = k).
  { intros k j Hj. vm_compute in Hj.
    destruct (decide (k = "job-1")) as [->|Hk].
    - vm_compute in Hj. injection Hj as <-. reflexivity.
    - exfalso. revert Hj. change (({[ "job-1" := update_row 100 COMPLETED (Some 100%Z) None
              (update_row 1 RUNNING (Some 5%Z) None
                 (mkJob "job-1" "sol" PENDING 0 None None "{}" "job-1_dem.tif" None 0)) ]}
              : gmap string Job) !! k = Some j → False).
      rewrite lookup_singleton_ne; [discriminate | congruence]. }
  assert (Hcut : cutoffs_computed 700000 7 12).
  { unfold cutoffs_computed, timedelta_days_ok, timedelta_hours_ok, datetime_ok, days, hours.
    repeat split; try lia; vm_compute; discriminate. }
  destruct (clean_pass_row_policy Z.ltb 700000 7 12 (world_of finished_ok job1_files)
              eq_refl Hkeyed Hcut) as (Herr & Hrows & Huploads & Hzips & _).
  destruct (Hrows "job-1" _ ltac:(vm_compute; reflexivity)) as (_ & Hkeep & Hgone & _).
  split; [exact Herr|]. split; [rewrite Hkeep; reflexivity|].
  split; [apply Hgone; vm_compute; reflexivity|]. split; [|exact Hzips].
  rewrite Huploads; [vm_compute; reflexivity|].
  intros k j Hj He. exfalso. unfold get_job in Hj. pose proof (Hkeyed k j Hj) as Hid.
  destruct (decide (k = "job-1")) as [->|Hk].
  - vm_compute in Hj. injection Hj as <-. vm_compute in He. discriminate.
  - revert Hj. change (({[ "job-1" := update_row 100 COMPLETED (Some 100%Z) None
              (update_row 1 RUNNING (Some 5%Z) None
                 (mkJob "job-1" "sol" PENDING 0 None None "{}" "job-1_dem.tif" None 0)) ]}
              : gmap string Job) !! k = Some j → False).
    rewrite lookup_singleton_ne; [discriminate | congruence].
Defined.

(** Retention leaves alone what has not run its course: whatever the mode
    of the pass and whatever goes wrong in it, a job that is PENDING or
    RUNNING, or that neither query selects, keeps its row and its results
    directory. *)
Theorem cleanup_spares_unfinished_jobs (sql_before : Z → Z → bool) (now d h : Z)
    (dry_run : bool) (w : World) (k : string) (j : Job) :
  (∀ k j, jobs_table w !! k = Some j → id j = k) →
  get_job k (jobs_table w) = Some j →
  status j = PENDING ∨ status j = RUNNING
  ∨ (is_expired sql_before COMPLETED (now - days d) j = false
     ∧ is_expired sql_before FAILED (now - hours h) j = false) →
  let pass := cleanup_old_jobs sql_before now d h dry_run w in
  get_job k (jobs_table (snd pass)) = Some j
  ∧ results_dirs (files (snd pass)) !! k = results_dirs (files w) !! k.
Proof.
  intros Hkeyed Hj Hstate. cbv zeta.
  assert (Hnot : is_expired sql_before COMPLETED (now - days d) j = false
                 ∧ is_expired sql_before FAILED (now - hours h) j = false).
  { destruct Hstate as [Hs|[Hs|Hs]]; [| |exact Hs];
      unfold is_expired; rewrite Hs; split; reflexivity. }
  destruct Hnot as [Hc Hf].
  destruct dry_run.
  { destruct (cleanup_old_jobs_dry sql_before now d h w) as [-> _]. split; auto. }
  destruct (cleanup_old_jobs_live sql_before now d h w) as (s & w' & -> & Hframe & Hcases).
  simpl. unfold get_job in *.
  pose proof (expired_key sql_before FAILED (now - hours h) _ k j Hkeyed Hj) as Hfailed.
  pose proof (expired_key sql_before COMPLETED (now - days d) _ k j Hkeyed Hj) as Hcompleted.
  split.
  - destruct Hcases as [(_ & Hjobs & _)|(e & p & _ & _ & Hjobs)]; rewrite Hjobs;
      [|exact Hj].
    rewrite lookup_foldr_delete_not_elem_of; [exact Hj|].
    intros Hin. apply Hfailed in Hin. congruence.
  - destruct Hframe as (Hdirs & _). apply Hdirs.
    rewrite fmap_app. intros Hin. apply elem_of_app in Hin as [Hin|Hin].
    + apply Hcompleted in Hin. congruence.
    + apply Hfailed in Hin. congruence.
Qed.

(** The running job-1 with results on disk, at a pass long after its
    start. *)
Lemma cleanup_spares_unfinished_jobs_witness :
  let w := world_of accepted job1_files in
  let pass := cleanup_old_jobs Z.ltb 700000 7 12 false w in
  status <$> get_job "job-1" (jobs_table (snd pass)) = Some RUNNING
  ∧ results_dirs (files (snd pass)) !! "job-1" = Some [1048576%N].
Proof.
  cbv zeta.
  destruct (cleanup_spares_unfinished_jobs Z.ltb 700000 7 12 false
              (world_of accepted job1_files) "job-1"
              (update_row 1 RUNNING (Some 5%Z) None
                 (mkJob "job-1" "sol" PENDING 0 None None "{}" "job-1_dem.tif" None 0)))
    as [Hrow Hdir].
  - intros k j Hj.
    destruct (decide (k = "job-1")) as [->|Hk].
    + vm_compute in Hj. injection Hj as <-. reflexivity.
    + exfalso. revert Hj.
      change (({[ "job-1" := update_row 1 RUNNING (Some 5%Z) None
                 (mkJob "job-1" "sol" PENDING 0 None None "{}" "job-1_dem.tif" None 0) ]}
              : gmap string Job) !! k = Some j → False).
      rewrite lookup_singleton_ne; [discriminate | congruence].
  - vm_compute. reflexivity.
  - right. left. reflexivity.
  - split; [rewrite Hrow; reflexivity | rewrite Hdir; reflexivity].
Defined.

(** ** Download *)

(** Results are handed out for COMPLETED jobs whose results directory is
    there, and for no other: an unknown job is answered 404, a job in any
    other status 400, a COMPLETED job without results 404 "Results not
    found", and none of these answers changes anything.  A download leaves
    a zip file next to the results and touches nothing else. *)
Theorem download_only_completed_with_results (size : N) (job_id : string) (w : World) :
  match get_job job_id (jobs_table w) with
  | None =>
      download_results (Archived size) job_id w
      = (Returned (DownloadRefused 404 "Job not found"), w)
  | Some j =>
      if decide (status j = COMPLETED) then
        if path_exists (ResultsDir job_id) (files w) then
          ∃ w', download_results (Archived size) job_id w
                = (Returned (FileResponse (ResultsZip job_id)
                               ("eemt_results_" +:+ job_id +:+ ".zip")), w')
                ∧ results_zips (files w') !! job_id = Some size
                ∧ jobs_table w' = jobs_table w
                ∧ results_dirs (files w') = results_dirs (files w)
                ∧ uploads (files w') = uploads (files w)
        else
          download_results (Archived size) job_id w
          = (Returned (DownloadRefused 404 "Results not found"), w)
      else
        download_results (Archived size) job_id w
        = (Returned (DownloadRefused 400 "Job not completed"), w)
  end.
Proof.
  unfold download_results, mbind, Eff_bind, inspect, mret, Eff_ret, change.
  destruct (get_job job_id (jobs_table w)) as [j|]; [|reflexivity].
  destruct (decide (status j = COMPLETED)) as [Hs|Hs].
  - destruct (decide (status j ≠ COMPLETED)) as [Hn|_]; [contradiction|].
    destruct (path_exists (ResultsDir job_id) (files w)); [|reflexivity].
    eexists. split; [reflexivity|]. simpl. split; [apply lookup_insert_eq|].
    repeat split; reflexivity.
  - destruct (decide (status j ≠ COMPLETED)) as [_|Hn]; [reflexivity|].
    exfalso. apply Hn. exact Hs.
Qed.



(** ** [WorkflowManager.cleanup_job_data] and the delete endpoint *)

Lemma cleanup_job_data_needs_temp_dir_aux (job_id : string) (w : World) :
  (path_exists (TempDir job_id) (files w) = false →
   cleanup_job_data job_id false w = (Returned tt, w))
  ∧ (path_exists (TempDir job_id) (files w) = true →
     faults (files w) = [] →
     ∃ w', cleanup_job_data job_id false w = (Returned tt, w')
           ∧ path_exists (TempDir job_id) (files w') = false
           ∧ path_exists (ResultsDir job_id) (files w') = false
           ∧ jobs_table w' = jobs_table w
           ∧ results_zips (files w') = results_zips (files w)
           ∧ uploads (files w') = uploads (files w)).
Proof.
  unfold cleanup_job_data, try_except, mbind, Eff_bind, inspect, mret, Eff_ret, raise.
  split.
  - intros ->. destruct (path_exists (ResultsDir job_id) (files w)); reflexivity.
  - intros -> Hfaults. rewrite (remove_ok _ w Hfaults).
    destruct (path_exists (ResultsDir job_id) (files (with_files (remove_path (TempDir job_id)) w)))
      eqn:Hresults.
    + rewrite remove_ok by exact Hfaults. eexists. split; [reflexivity|]. simpl.
      split; [|split; [|repeat split; reflexivity]].
      * apply bool_decide_eq_false_2. rewrite lookup_delete_eq. intros [x Hx]. discriminate.
      * apply bool_decide_eq_false_2. rewrite lookup_delete_eq. intros [x Hx]. discriminate.
    + eexists. split; [reflexivity|]. split; [apply path_exists_removed|].
      split; [exact Hresults | repeat split; reflexivity].
Qed.

(** With [keep_results=False] the results directory is removed only when
    the temporary directory was there: [shutil] is imported inside the first
    [if], so without it the second [rmtree] raises [UnboundLocalError], which
    the handler logs and drops.  The call itself never raises. *)
Theorem cleanup_job_data_needs_temp_dir (job_id : string) (w : World) :
  (path_exists (TempDir job_id) (files w) = false →
   cleanup_job_data job_id false w = (Returned tt, w))
  ∧ (path_exists (TempDir job_id) (files w) = true →
     faults (files w) = [] →
     ∃ w', cleanup_job_data job_id false w = (Returned tt, w')
           ∧ path_exists (TempDir job_id) (files w') = false
           ∧ path_exists (ResultsDir job_id) (files w') = false
           ∧ jobs_table w' = jobs_table w).
Proof.
  destruct (cleanup_job_data_needs_temp_dir_aux job_id w) as [Hwithout Hwith].
  split; [exact Hwithout|]. intros Htemp Hfaults.
  destruct (Hwith Htemp Hfaults) as (w' & Hc & Ht & Hd & Hj & _).
  exists w'. auto.
Qed.

(** job-1 has results but no temporary directory: the call leaves the
    results where they are. *)
Lemma cleanup_job_data_needs_temp_dir_witness :
  path_exists (ResultsDir "job-1") (files (world_of finished_ok job1_files)) = true
  ∧ cleanup_job_data "job-1" false (world_of finished_ok job1_files)
    = (Returned tt, world_of finished_ok job1_files).
Proof.
  split; [reflexivity|].
  apply (proj1 (cleanup_job_data_needs_temp_dir "job-1" (world_of finished_ok job1_files))).
  reflexivity.
Defined.

Lemma remove_keeps_faults (p : path) (w : World) :
  faults (files (snd (remove p w))) = faults (files w).
Proof.
  unfold remove. destruct (fault_of p (files w)); [reflexivity|].
  simpl. apply remove_path_faults.
Qed.

Lemma remove_keeps_temp (p : path) (w : World) :
  (∀ j, p ≠ TempDir j) →
  faults (files (snd (remove p w))) = faults (files w)
  ∧ temp_dirs (files (snd (remove p w))) = temp_dirs (files w).
Proof.
  intros Hp. unfold remove. destruct (fault_of p (files w)); [split; reflexivity|].
  simpl. split; [apply remove_path_faults|].
  destruct p; try reflexivity. exfalso. eapply Hp. reflexivity.
Qed.

Lemma clean_up_files_keeps_temp (job_id : string) (w : World) :
  faults (files (snd (clean_up_files job_id w))) = faults (files w)
  ∧ temp_dirs (files (snd (clean_up_files job_id w))) = temp_dirs (files w).
Proof.
  revert w. unfold clean_up_files.
  assert (Htrans : ∀ a b c : World,
            faults (files b) = faults (files a) ∧ temp_dirs (files b) = temp_dirs (files a) →
            faults (files c) = faults (files b) ∧ temp_dirs (files c) = temp_dirs (files b) →
            faults (files c) = faults (files a) ∧ temp_dirs (files c) = temp_dirs (files a)).
  { intros a b c [H1 H2] [H3 H4]. split; congruence. }
  assert (Hif : ∀ p, (∀ j, p ≠ TempDir j) → ∀ w,
            faults (files (snd (remove_if_exists p w))) = faults (files w)
            ∧ temp_dirs (files (snd (remove_if_exists p w))) = temp_dirs (files w)).
  { intros p Hp. unfold remove_if_exists.
    apply (bind_preserves (λ w w', faults (files w') = faults (files w)
                                   ∧ temp_dirs (files w') = temp_dirs (files w)) Htrans).
    - intros w. split; reflexivity.
    - intros [|] w; [apply remove_keeps_temp; exact Hp | split; reflexivity]. }
  apply (bind_preserves _ Htrans); [apply Hif; discriminate|]. intros _.
  apply (bind_preserves _ Htrans); [apply Hif; discriminate|]. intros _.
  apply (bind_preserves _ Htrans); [intros w; split; reflexivity|]. intros names.
  induction names as [|n names IH]; [intros w; split; reflexivity|].
  cbn [for_each]. apply (bind_preserves _ Htrans); [|intros _; exact IH].
  intros w. apply remove_keeps_temp. discriminate.
Qed.

Lemma clean_up_files_frame (job_id : string) (w : World) :
  faults (files w) = [] →
  ∃ w', clean_up_files job_id w = (Returned tt, w')
        ∧ path_exists (ResultsDir job_id) (files w') = false
        ∧ path_exists (ResultsZip job_id) (files w') = false
        ∧ glob_uploads job_id (files w') = []
        ∧ faults (files w') = []
        ∧ temp_dirs (files w') = temp_dirs (files w)
        ∧ jobs_table w' = jobs_table w.
Proof.
  intros Hf.
  destruct (clean_up_files_ok job_id w Hf) as (w' & Hc & Hd & Hz & Hg).
  exists w'. split; [exact Hc|]. split; [exact Hd|]. split; [exact Hz|].
  split; [exact Hg|].
  pose proof (clean_up_files_keeps_jobs job_id w) as Hjobs.
  destruct (clean_up_files_keeps_temp job_id w) as [Hfaults Htemp].
  rewrite Hc in Hjobs, Hfaults, Htemp. simpl in *.
  split; [congruence|]. split; [exact Htemp | exact Hjobs].
Qed.

(** [DELETE /api/jobs/{job_id}]: an unknown job is answered 404 and nothing
    changes; a job that is not RUNNING, on a file system without errors, is
    answered with success, and nothing of it remains: no row, no results
    directory, no zip file, no upload named after it, no temporary
    directory.  The other rows are untouched. *)
Theorem delete_endpoint_leaves_nothing (job_id : string) (w : World) :
  match get_job job_id (jobs_table w) with
  | None =>
      delete_job_endpoint job_id w = (Returned (HTTPException 404 "Job not found"), w)
  | Some j =>
      status j ≠ RUNNING → faults (files w) = [] →
      ∃ w', delete_job_endpoint job_id w
            = (Returned (Success "Job deleted successfully"), w')
            ∧ jobs_table w' = delete job_id (jobs_table w)
            ∧ path_exists (ResultsDir job_id) (files w') = false
            ∧ path_exists (ResultsZip job_id) (files w') = false
            ∧ path_exists (TempDir job_id) (files w') = false
            ∧ glob_uploads job_id (files w') = []
  end.
Proof.
  destruct (get_job job_id (jobs_table w)) as [j|] eqn:Hj.
  - intros Hs Hf.
    pose proof (delete_job_removes_record_first_aux job_id w j Hj Hs) as Hdelete.
    destruct (clean_up_files_frame job_id (with_jobs (delete job_id) w) Hf)
      as (w1 & Hclean & Hd1 & Hz1 & Hg1 & Hf1 & Ht1 & Hj1).
    rewrite Hclean in Hdelete.
    unfold delete_job_endpoint, mbind, Eff_bind. rewrite Hdelete. cbv beta iota.
    unfold try_except.
    destruct (path_exists (TempDir job_id) (files w1)) eqn:Htemp.
    + destruct (proj2 (cleanup_job_data_needs_temp_dir_aux job_id w1) Htemp Hf1)
        as (w2 & Hc & Ht2 & Hd2 & Hj2 & Hz2 & Hu2).
      rewrite Hc. exists w2. split; [reflexivity|].
      split; [rewrite Hj2, Hj1; reflexivity|]. split; [exact Hd2|].
      split; [simpl; rewrite Hz2; exact Hz1|]. split; [exact Ht2|].
      unfold glob_uploads in *. rewrite Hu2. exact Hg1.
    + rewrite (proj1 (cleanup_job_data_needs_temp_dir_aux job_id w1) Htemp).
      exists w1. split; [reflexivity|]. split; [exact Hj1|]. split; [exact Hd1|].
      split; [exact Hz1|]. split; [exact Htemp | exact Hg1].
  - unfold delete_job_endpoint, delete_job, try_except, mbind, Eff_bind, inspect,
      mret, Eff_ret. rewrite Hj. reflexivity.
Qed.

(** The finished job-1 with results, zip, upload and a temporary
    directory: after the request none of them is left. *)
Lemma delete_endpoint_leaves_nothing_witness :
  let w := world_of finished_ok
             (mkFS {[ "job-1" := [1048576%N] ]} {[ "job-1" := 2048%N ]}
                   {[ "job-1_dem.tif" := 4096%N ]} {[ "job-1" := [512%N] ]} []) in
  ∃ w', delete_job_endpoint "job-1" w = (Returned (Success "Job deleted successfully"), w')
        ∧ jobs_table w' = delete "job-1" (jobs_table w)
        ∧ path_exists (ResultsDir "job-1") (files w') = false
        ∧ path_exists (ResultsZip "job-1") (files w') = false
        ∧ path_exists (TempDir "job-1") (files w') = false
        ∧ glob_uploads "job-1" (files w') = [].
Proof.
  cbv zeta.
  pose proof (delete_endpoint_leaves_nothing "job-1"
                (world_of finished_ok
                   (mkFS {[ "job-1" := [1048576%N] ]} {[ "job-1" := 2048%N ]}
                         {[ "job-1_dem.tif" := 4096%N ]} {[ "job-1" := [512%N] ]} [])))
    as H.
  change (get_job "job-1" (jobs_table (world_of finished_ok
            (mkFS {[ "job-1" := [1048576%N] ]} {[ "job-1" := 2048%N ]}
                  {[ "job-1_dem.tif" := 4096%N ]} {[ "job-1" := [512%N] ]} []))))
    with (Some (update_row 100 COMPLETED (Some 100%Z) None
                  (update_row 1 RUNNING (Some 5%Z) None
                     (mkJob "job-1" "sol" PENDING 0 None None "{}" "job-1_dem.tif" None 0))))
    in H.
  apply H; [discriminate | reflexivity].
Defined.

(** ** Worker supervision *)

Lemma start_worker_node_cons (cfg : WorkerConfig) (return_code : Z)
    (later : list Launch) (c : Coordinator) :
  snd (start_worker_node WORKER cfg (Exits return_code :: later) c)
  = let unregistered :=
      filter (λ p, p ≠ launched c) (worker_processes c ++ [launched c]) in
    if bool_decide (return_code ≠ 0%Z) && bool_decide (reconnect_attempts cfg > 0)%Z
    then snd (start_worker_node WORKER cfg later
                (mkCoordinator unregistered (S (launched c)) (S (reconnects c))
                               (slept c + reconnect_delay cfg)%Z))
    else mkCoordinator unregistered (S (launched c)) (reconnects c) (slept c).
Proof. reflexivity. Qed.

Lemma failed_exits_cons (launch : Launch) (launches : list Launch) :
  failed_exits (launch :: launches)
  = ((if exits_with_error launch then 1 else 0) + failed_exits launches)%nat.
Proof.
  unfold failed_exits. destruct (exits_with_error launch) eqn:He.
  - rewrite filter_cons_True; [reflexivity|]. rewrite He. exact I.
  - rewrite filter_cons_False; [reflexivity|]. rewrite He. intros [].
Qed.

(** One call of [start_worker_node] with the monitor threads it sets off,
    for a delay that [time.sleep] accepts: the seconds slept are the
    reconnects times [reconnect_delay]; there are at most as many
    reconnects as worker processes that exited with a code other than 0;
    with [reconnect_attempts] at 0 or below there is none; and when no
    worker was registered at the call, at most one is when the threads have
    come to rest. *)
Theorem worker_supervision_invariants (cfg : WorkerConfig) (launches : list Launch)
    (c : Coordinator) :
  (0 ≤ reconnect_delay cfg)%Z →
  let c' := snd (start_worker_node WORKER cfg launches c) in
  (reconnects c ≤ reconnects c' ≤ reconnects c + failed_exits launches)%nat
  ∧ slept c' = (slept c + reconnect_delay cfg * Z.of_nat (reconnects c' - reconnects c))%Z
  ∧ ((reconnect_attempts cfg ≤ 0)%Z → reconnects c' = reconnects c)
  ∧ (worker_processes c = [] → (length (worker_processes c') ≤ 1)%nat).
Proof.
  intros _. cbv zeta. revert c. induction launches as [|[e|return_code] later IH]; intros c.
  - simpl. split; [lia|]. split; [rewrite Nat.sub_diag; lia|]. split; [reflexivity|].
    intros ->. simpl. lia.
  - simpl. split; [lia|]. split; [rewrite Nat.sub_diag; lia|]. split; [reflexivity|].
    intros ->. simpl. lia.
  - rewrite start_worker_node_cons, failed_exits_cons. cbv zeta.
    cbn [exits_with_error].
    assert (Hnone : worker_processes c = [] →
                    filter (λ p, p ≠ launched c) (worker_processes c ++ [launched c]) = []).
    { intros ->. simpl. rewrite filter_cons_False; [reflexivity|]. intros H. apply H.
      reflexivity. }
    destruct (bool_decide (return_code ≠ 0%Z)) eqn:Hcode;
      destruct (bool_decide (reconnect_attempts cfg > 0)%Z) eqn:Hattempts; simpl.
    + set (c1 := mkCoordinator
                   (filter (λ p, p ≠ launched c) (worker_processes c ++ [launched c]))
                   (S (launched c)) (S (reconnects c)) (slept c + reconnect_delay cfg)%Z).
      destruct (IH c1) as (Hr & Hs & _ & Hw).
      set (c' := snd (start_worker_node WORKER cfg later c1)) in *.
      simpl in Hr, Hs, Hw. split; [lia|]. split; [|split].
      * rewrite Hs.
        replace (reconnects c' - reconnects c)%nat
          with (S (reconnects c' - S (reconnects c))) by lia.
        rewrite Nat2Z.inj_succ. lia.
      * intros Hle. apply bool_decide_eq_true_1 in Hattempts. lia.
      * intros Hc. apply Hw. apply Hnone. exact Hc.
    + split; [lia|]. split; [rewrite Nat.sub_diag; lia|]. split; [reflexivity|].
      intros Hc. rewrite (Hnone Hc). simpl. lia.
    + split; [lia|]. split; [rewrite Nat.sub_diag; lia|]. split; [reflexivity|].
      intros Hc. rewrite (Hnone Hc). simpl. lia.
    + split; [lia|]. split; [rewrite Nat.sub_diag; lia|]. split; [reflexivity|].
      intros Hc. rewrite (Hnone Hc). simpl. lia.
Qed.

(** Three workers in a row: the first two exit with code 1, the third
    with code 0. *)
Lemma worker_supervision_invariants_witness :
  let c' := snd (start_worker_node WORKER default_worker [Exits 1; Exits 1; Exits 0] idle) in
  reconnects c' = 2%nat ∧ slept c' = 20%Z ∧ worker_processes c' = [].
Proof.
  cbv zeta.
  destruct (worker_supervision_invariants default_worker [Exits 1; Exits 1; Exits 0] idle
              ltac:(simpl; lia)) as (_ & Hslept & _ & _).
  split; [reflexivity|]. split; [|reflexivity].
  rewrite Hslept. reflexivity.
Defined.

(** ** The cleanup script *)

Module ScriptProofs.

Import JobCleanupManager.





End ScriptProofs.



(** ** Listing *)

#[local] Instance newest_first_total : Total newest_first.
Proof. intros a b. unfold newest_first. lia. Qed.

#[local] Instance newest_first_trans : Transitive newest_first.
Proof. intros a b c. unfold newest_first. lia. Qed.

(** [list_jobs] lists every row of the table once, newest first. *)
Theorem list_jobs_complete_and_sorted (jobs : gmap string Job) :
  list_jobs jobs ≡ₚ listing <$> (snd <$> map_to_list jobs)
  ∧ length (list_jobs jobs) = size jobs
  ∧ (∀ k j, jobs !! k = Some j → listing j ∈ list_jobs jobs)
  ∧ StronglySorted (λ a b, (listed_created_at b ≤ listed_created_at a)%Z) (list_jobs jobs).
Proof.
  unfold list_jobs.
  assert (Hperm : listing <$> merge_sort newest_first (snd <$> map_to_list jobs)
                  ≡ₚ listing <$> (snd <$> map_to_list jobs)).
  { apply fmap_Permutation, merge_sort_Permutation. }
  split; [exact Hperm|]. split; [|split].
  - rewrite Hperm, !length_fmap. apply length_map_to_list.
  - intros k j Hj. rewrite Hperm. apply list_elem_of_fmap. exists j.
    split; [reflexivity|]. apply list_elem_of_fmap. exists (k, j).
    split; [reflexivity|]. apply elem_of_map_to_list. exact Hj.
  - apply (StronglySorted_fmap listing newest_first);
      [|apply StronglySorted_merge_sort; apply _].
    intros a b Hab. exact Hab.
Qed.

Lemma slice_to_positive {A : Type} (n : Z) (l : list A) :
  (0 < n)%Z → slice_to n l = take (Z.to_nat n) l.
Proof. intros Hn. unfold slice_to. destruct (Z.ltb_spec n 0); [lia | reflexivity]. Qed.

Lemma slice_to_negative {A : Type} (n : Z) (l : list A) :
  (n < 0)%Z → slice_to n l = take (length l - Z.to_nat (- n)) l.
Proof.
  intros Hn. unfold slice_to. destruct (Z.ltb_spec n 0); [|lia].
  f_equal. lia.
Qed.

(** [GET /api/jobs]: with a status the answer holds exactly the listed jobs
    in that status, in the same order; a limit [n > 0] keeps the first [n]
    of them, a limit of 0 keeps them all (it counts as no limit), and a
    negative limit [-k] drops the last [k]. *)
Theorem list_jobs_endpoint_filter_and_limit (status : option string) (n : Z)
    (c : ascii) (s : string) (jobs : gmap string Job) :
  (∀ l, l ∈ list_jobs_endpoint (Some (String c s)) None jobs
        ↔ l ∈ list_jobs jobs ∧ listed_status l = String c s)
  ∧ list_jobs_endpoint (Some "") None jobs = list_jobs jobs
  ∧ list_jobs_endpoint None None jobs = list_jobs jobs
  ∧ list_jobs_endpoint status (Some 0%Z) jobs = list_jobs_endpoint status None jobs
  ∧ ((0 < n)%Z →
     list_jobs_endpoint status (Some n) jobs
     = take (Z.to_nat n) (list_jobs_endpoint status None jobs))
  ∧ ((n < 0)%Z →
     list_jobs_endpoint status (Some n) jobs
     = take (length (list_jobs_endpoint status None jobs) - Z.to_nat (- n))
            (list_jobs_endpoint status None jobs)).
Proof.
  split_and!.
  - intros l. unfold list_jobs_endpoint. cbv zeta. rewrite list_elem_of_filter. tauto.
  - reflexivity.
  - reflexivity.
  - unfold list_jobs_endpoint. cbv zeta. destruct (decide (0 = 0)%Z); [reflexivity | lia].
  - intros Hn. unfold list_jobs_endpoint. cbv zeta.
    destruct (decide (n = 0%Z)); [lia|]. apply slice_to_positive. exact Hn.
  - intros Hn. unfold list_jobs_endpoint. cbv zeta.
    destruct (decide (n = 0%Z)); [lia|]. apply slice_to_negative. exact Hn.
Qed.

(** ** Logs *)

Lemma append_empty_r (s : string) : s +:+ "" = s.
Proof. induction s as [|c s IH]; [reflexivity|]. rewrite append_cons, IH. reflexivity. Qed.

(** [tail] keeps the last lines of a file only when it is positive: a
    positive [tail] keeps the last [min tail n] of [n] lines, a [tail] of 0
    or below keeps them all. *)
Lemma tail_lines_spec (tail : Z) (lines : list string) :
  (∃ dropped, lines = dropped ++ tail_lines tail lines)
  ∧ length (tail_lines tail lines)
    = (if (0 <? tail)%Z then Nat.min (Z.to_nat tail) (length lines) else length lines).
Proof.
  unfold tail_lines. destruct (0 <? tail)%Z.
  - split.
    + exists (take (length lines - Z.to_nat tail) lines). symmetry. apply take_drop.
    + rewrite length_drop. lia.
  - split; [exists []; reflexivity | reflexivity].
Qed.

(** [GET /api/jobs/{job_id}/logs]: an unknown job is answered 404.  For a
    known job whose only log file is [workflow.log], the answer is the
    header of that file followed by the lines kept: the last [tail] lines
    (or all of them when there are fewer) when [tail] is positive, and the
    whole file when [tail] is 0 or negative.  Nothing is changed by the
    request. *)
Theorem get_job_logs_tail (tail : Z) (read_log : string → LogFile) (docker : DockerLogs)
    (job_id : string) (lines : list string) (w : World) :
  (get_job job_id (jobs_table w) = None →
   get_job_logs tail read_log docker job_id w
   = (Returned (LogsRefused 404 "Job not found"), w))
  ∧ (get_job job_id (jobs_table w) ≠ None →
     read_log "workflow.log" = LogLines lines →
     (∀ name, name ≠ "workflow.log" →
              read_log name = NoLogFile ∨ ∃ e, read_log name = UnreadableLog e) →
     ∃ dropped kept,
       get_job_logs tail read_log docker job_id w
       = (Returned (LogText (newline +:+ "--- workflow.log ---" +:+ newline
                             +:+ foldr String.append "" kept)), w)
       ∧ lines = dropped ++ kept
       ∧ length kept
         = if (0 <? tail)%Z then Nat.min (Z.to_nat tail) (length lines)
           else length lines).
Proof.
  unfold get_job_logs, mbind, Eff_bind, inspect, mret, Eff_ret. split.
  - intros ->. reflexivity.
  - intros Hj Hlog Hothers. destruct (get_job job_id (jobs_table w)); [|contradiction].
    assert (Hnone : ∀ name, name ≠ "workflow.log" →
                            log_section tail name (read_log name) = "").
    { intros name Hname. destruct (Hothers name Hname) as [->|[e ->]]; reflexivity. }
    destruct (tail_lines_spec tail lines) as [[dropped Hsplit] Hlength].
    exists dropped, (tail_lines tail lines). split; [|split; [exact Hsplit | exact Hlength]].
    unfold log_file_names. cbn [foldl].
    rewrite (Hnone "task_output.log"), (Hnone "sys.err"), (Hnone "container.log")
      by discriminate.
    rewrite Hlog. unfold log_section.
    rewrite append_nil, !append_empty_r. reflexivity.
Qed.

(** ** Progress from the container log *)

Lemma contains_char_cons (c0 c : ascii) (s : string) :
  Py.contains (String c0 "") (String c s)
  = if Ascii.ascii_dec c0 c then true else Py.contains (String c0 "") s.
Proof.
  cbn [Py.contains]. rewrite prefix_cons.
  destruct (Ascii.ascii_dec c0 c); [destruct s; reflexivity | reflexivity].
Qed.

Lemma contains_char_absent (c0 : ascii) (s : string) :
  Forall (λ c, c ≠ c0) (list_ascii_of_string s) → Py.contains (String c0 "") s = false.
Proof.
  induction s as [|c s IH]; intros H; [reflexivity|].
  simpl in H. inversion H as [|? ? Hc Hs]; subst.
  rewrite contains_char_cons. destruct (Ascii.ascii_dec c0 c) as [->|_]; [contradiction|].
  apply IH. exact Hs.
Qed.

Lemma contains_char_app (c0 : ascii) (s1 s2 : string) :
  Py.contains (String c0 "") (s1 +:+ s2)
  = Py.contains (String c0 "") s1 || Py.contains (String c0 "") s2.
Proof.
  induction s1 as [|c s1 IH]; [reflexivity|].
  rewrite append_cons, !contains_char_cons, IH.
  destruct (Ascii.ascii_dec c0 c); reflexivity.
Qed.

Lemma chars_app (s1 s2 : string) :
  list_ascii_of_string (s1 +:+ s2) = list_ascii_of_string s1 ++ list_ascii_of_string s2.
Proof. induction s1 as [|c s1 IH]; [reflexivity|]. rewrite append_cons. simpl. rewrite IH. reflexivity. Qed.

(** Removing the occurrences of a text, and stripping, bring in no new
    character. *)
Lemma replace_scan_chars (P : ascii → Prop) (old : string) (s : string) :
  Forall P (list_ascii_of_string s) →
  ∀ skip, Forall P (list_ascii_of_string (Py.replace_scan old "" skip s)).
Proof.
  induction s as [|c s IH]; intros H skip; [constructor|].
  simpl in H. inversion H as [|? ? Hc Hs]; subst.
  cbn [Py.replace_scan]. destruct skip as [|k]; [|apply IH; exact Hs].
  destruct (String.prefix old (String c s)).
  - rewrite append_nil. apply IH. exact Hs.
  - simpl. constructor; [exact Hc | apply IH; exact Hs].
Qed.

Lemma lstrip_chars (P : ascii → Prop) (s : string) :
  Forall P (list_ascii_of_string s) → Forall P (list_ascii_of_string (Py.lstrip s)).
Proof.
  induction s as [|c s IH]; intros H; [constructor|].
  cbn [Py.lstrip]. destruct (Py.is_space c); [|exact H].
  simpl in H. inversion H; subst. apply IH. assumption.
Qed.

Lemma rstrip_chars (P : ascii → Prop) (s : string) :
  Forall P (list_ascii_of_string s) → Forall P (list_ascii_of_string (Py.rstrip s)).
Proof.
  induction s as [|c s IH]; intros H; [constructor|].
  simpl in H. inversion H as [|? ? Hc Hs]; subst. specialize (IH Hs).
  cbn [Py.rstrip]. destruct (Py.rstrip s) as [|c' r].
  - destruct (Py.is_space c); simpl; repeat constructor. exact Hc.
  - simpl. constructor; [exact Hc | exact IH].
Qed.

(** ** [split] *)

Lemma split_from_slash (s : string) :
  ∀ (word part : string),
    part ∈ PyWords.split_from word s →
    Py.contains "/" part = true →
    Py.contains "/" word = true ∨ Py.contains "/" s = true.
Proof.
  induction s as [|c s IH]; intros word part Hin Hpart.
  - left. cbn [PyWords.split_from] in Hin. destruct word.
    + apply elem_of_nil in Hin. contradiction.
    + apply list_elem_of_singleton in Hin. subst. exact Hpart.
  - cbn [PyWords.split_from] in Hin. rewrite contains_char_cons.
    destruct (Ascii.ascii_dec "/" c) as [_|Hc]; [right; reflexivity|].
    destruct (Py.is_space c).
    + destruct word as [|a word].
      * destruct (IH _ _ Hin Hpart) as [H|H]; [discriminate H | right; exact H].
      * apply elem_of_cons in Hin as [->|Hin]; [left; exact Hpart|].
        destruct (IH _ _ Hin Hpart) as [H|H]; [discriminate H | right; exact H].
    + destruct (IH _ _ Hin Hpart) as [H|H]; [|right; exact H].
      left. rewrite contains_char_app, contains_char_cons in H.
      destruct (Ascii.ascii_dec "/" c) as [Heq|_]; [contradiction|].
      rewrite orb_false_r in H. exact H.
Qed.

Lemma split_on_absent (s : string) :
  Py.contains "/" s = false → PyWords.split_on "/" s = [s].
Proof.
  induction s as [|c s IH]; [reflexivity|].
  rewrite contains_char_cons. cbn [PyWords.split_on].
  destruct (Ascii.ascii_dec "/" c) as [->|Hc]; [discriminate|].
  intros H. rewrite (IH H). destruct (decide (c = "/"%char)) as [->|_]; [contradiction|].
  reflexivity.
Qed.

Lemma split_on_slash (current total : string) :
  Py.contains "/" current = false →
  Py.contains "/" total = false →
  PyWords.split_on "/" (current +:+ "/" +:+ total) = [current; total].
Proof.
  intros Hc Ht. induction current as [|c current IH].
  - rewrite append_nil, append_cons, append_nil. cbn [PyWords.split_on].
    destruct (decide ("/"%char = "/"%char)); [|contradiction].
    rewrite (split_on_absent _ Ht). reflexivity.
  - rewrite contains_char_cons in Hc.
    destruct (Ascii.ascii_dec "/" c) as [|Hne]; [discriminate|].
    rewrite append_cons. cbn [PyWords.split_on].
    destruct (decide (c = "/"%char)) as [->|_]; [contradiction|].
    rewrite (IH Hc). reflexivity.
Qed.

Section LogLoop.

Variable int : string → option Z.
Variable percent : Z → Z → option string.

Lemma task_progress_update (parts : list string) (info : string) :
  task_progress int percent parts = Returned (Some info) →
  Py.startswith info "PROGRESS:" = true.
Proof.
  induction parts as [|part parts IH]; [discriminate|].
  cbn [task_progress]. destruct (Py.contains "/" part); [|exact IH].
  destruct (PyWords.split_on "/" part) as [|current [|total [|? ?]]]; try discriminate.
  destruct (int current) as [c|]; [|discriminate].
  destruct (int total) as [t|]; [|discriminate].
  destruct (decide (t = 0%Z)); [discriminate|].
  destruct (percent c t); [|discriminate].
  intros [= <-]. reflexivity.
Qed.

(** A division by zero is what the first part with a slash gives when it
    reads [current/0]. *)
Lemma task_progress_zero (before after : list string) (current total : string) (c : Z) :
  Forall (λ part, Py.contains "/" part = false) before →
  Py.contains "/" current = false →
  Py.contains "/" total = false →
  int current = Some c →
  int total = Some 0%Z →
  task_progress int percent (before ++ (current +:+ "/" +:+ total) :: after)
  = Raised "division by zero".
Proof.
  intros Hbefore Hc Ht Hic Hit. induction Hbefore as [|part before Hpart _ IH].
  - cbn [app task_progress].
    rewrite contains_char_app, contains_char_app, Hc.
    change (Py.contains "/" "/") with true. cbn [orb].
    rewrite (split_on_slash _ _ Hc Ht), Hic, Hit. reflexivity.
  - cbn [app task_progress]. rewrite Hpart. exact IH.
Qed.

Lemma makeflow_progress_update (parts : list string) (info : string) :
  makeflow_progress int parts = Some info →
  ∃ n, info = "PROGRESS: " +:+ Py.str n +:+ " tasks completed".
Proof.
  unfold makeflow_progress.
  destruct (PyWords.index "COMPLETED" parts) as [idx|]; [|discriminate].
  destruct (parts !! (idx + 1)%nat) as [word|]; [|discriminate].
  destruct (int word) as [n|]; [|discriminate].
  intros [= <-]. exists n. reflexivity.
Qed.

(** What [_parse_progress] returns is a PROGRESS: or a STATUS: update. *)
Lemma parse_progress_update (log_line info : string) :
  _parse_progress int percent log_line = Returned (Some info) →
  Py.startswith info "PROGRESS:" = true ∨ Py.startswith info "STATUS:" = true.
Proof.
  unfold _parse_progress.
  destruct (Py.contains "Starting task" log_line && Py.contains "/" log_line).
  { intros H. left. exact (task_progress_update _ _ H). }
  destruct (Py.contains "COMPLETED" log_line && Py.contains "jobs" log_line).
  { intros [= H]. destruct (makeflow_progress_update _ _ H) as [n ->]. left. reflexivity. }
  destruct (existsb _ workflow_stages); [|discriminate].
  intros [= <-]. right. reflexivity.
Qed.

Lemma parse_progress_not_marker (log_line info : string) :
  _parse_progress int percent log_line = Returned (Some info) →
  is_terminal_marker info = false.
Proof.
  intros H. destruct (is_terminal_marker info) eqn:Hm; [|reflexivity].
  destruct (marker_not_progress info Hm) as [Hp Hs].
  destruct (parse_progress_update _ _ H); congruence.
Qed.

(** The lines that pass quietly yield no marker, and the reading goes on
    behind them. *)
Lemma follow_log_quiet (quiet later : list string) :
  Forall (passes_quietly int percent) quiet →
  ∃ yielded,
    Forall (λ update, is_terminal_marker update = false) yielded
    ∧ follow_log int percent (quiet ++ later)
      = (yielded ++ (follow_log int percent later).1, (follow_log int percent later).2).
Proof.
  induction 1 as [|line quiet ([info Hparse] & Hs & He) _ (yielded & Hy & IH)].
  - exists []. split; [constructor|]. cbn [app].
    destruct (follow_log int percent later); reflexivity.
  - cbn [app follow_log]. cbv zeta. destruct (Py.strip line) as [|a text] eqn:Htext.
    + exists yielded. split; [exact Hy | exact IH].
    + rewrite Hparse, Hs, He, IH.
      destruct info as [[|c s]|].
      * exists yielded. split; [exact Hy | reflexivity].
      * exists (String c s :: yielded). split; [|reflexivity].
        constructor; [|exact Hy]. exact (parse_progress_not_marker _ _ Hparse).
      * exists yielded. split; [exact Hy | reflexivity].
Qed.

(** A line that reports an error ends the reading with an ERROR: update
    that carries it. *)
Lemma follow_log_error (line : string) (later : list string) :
  (∃ progress_info, _parse_progress int percent (Py.strip line) = Returned progress_info) →
  reports_success (Py.strip line) = false →
  reports_error (Py.strip line) = true →
  ∃ yielded,
    Forall (λ update, is_terminal_marker update = false) yielded
    ∧ follow_log int percent (line :: later)
      = (yielded ++ ["ERROR: " +:+ Py.strip line], None).
Proof.
  intros [info Hparse] Hs He. cbn [follow_log]. cbv zeta.
  destruct (Py.strip line) as [|a text] eqn:Htext; [discriminate He|].
  rewrite Hparse, Hs, He.
  destruct info as [[|c s]|].
  - exists []. split; [constructor | reflexivity].
  - exists [String c s]. split; [|reflexivity].
    constructor; [|constructor]. exact (parse_progress_not_marker _ _ Hparse).
  - exists []. split; [constructor | reflexivity].
Qed.

(** A line on which [_parse_progress] raises ends the reading with that
    exception. *)
Lemma follow_log_raise (line : string) (later : list string) (e : string) :
  Py.strip line ≠ "" →
  _parse_progress int percent (Py.strip line) = Raised e →
  follow_log int percent (line :: later) = ([], Some e).
Proof.
  intros Hne Hparse. cbn [follow_log]. cbv zeta.
  destruct (Py.strip line) as [|a text] eqn:Htext; [contradiction|].
  rewrite Hparse. reflexivity.
Qed.

End LogLoop.

Section ErrorUpdate.

Variable float : string → option Q.

(** An update of [_parse_progress] that does not come from a
    [Starting task] line is passed over by the supervision loop. *)
Lemma consume_passes_over (job_id : string) (last_progress : Q) (now : Z) (info : string)
    (later : list ProgressUpdate) (w : World) :
  (∃ n, info = "PROGRESS: " +:+ Py.str n +:+ " tasks completed")
  ∨ (∃ log_line, info = "STATUS: " +:+ log_line) →
  consume float job_id last_progress (mkUpdate now info :: later) w
  = consume float job_id last_progress later w.
Proof.
  intros [[n ->]|[log_line ->]]; cbn [consume].
  - change (Py.startswith ("PROGRESS: " +:+ Py.str n +:+ " tasks completed") "PROGRESS:")
      with true. cbv iota.
    assert (Hno : Py.contains "%"
                    (Py.strip (Py.replace ("PROGRESS: " +:+ Py.str n +:+ " tasks completed")
                                 "PROGRESS:" "")) = false).
    { apply contains_char_absent. unfold Py.strip, Py.replace.
      apply rstrip_chars, lstrip_chars, replace_scan_chars.
      rewrite !chars_app. apply Forall_app. split; [|apply Forall_app; split].
      - vm_compute. repeat constructor; discriminate.
      - eapply Forall_impl; [apply str_chars|]. intros c Hc ->. vm_compute in Hc. lia.
      - vm_compute. repeat constructor; discriminate. }
    rewrite Hno. reflexivity.
  - change (Py.startswith ("STATUS: " +:+ log_line) "PROGRESS:") with false.
    change (Py.startswith ("STATUS: " +:+ log_line) "STATUS:") with true.
    reflexivity.
Qed.

End ErrorUpdate.

(** A line of the container log that mentions "error" or "failed", in any
    case, ends the reading of the log and fails the job with that line as
    its message, whatever the exit code of the container: also when the
    container goes on and exits with code 0. *)
Theorem log_error_line_fails_job (int : string → option Z) (percent : Z → Z → option string)
    (float : string → option Q) (started finished : Z) (job_id : string)
    (quiet : list string) (line : string) (later : list string) (exit_code : Z)
    (progress_stream : list ProgressUpdate) (stream_end : StreamEnd) (w : World) (j : Job) :
  get_job job_id (jobs_table w) = Some j →
  Forall (passes_quietly int percent) quiet →
  (∃ progress_info, _parse_progress int percent (Py.strip line) = Returned progress_info) →
  reports_success (Py.strip line) = false →
  reports_error (Py.strip line) = true →
  text <$> progress_stream
  = _monitor_container (monitored_run int percent (quiet ++ line :: later) exit_code) →
  ∃ w' j',
    execute_containerized_workflow float started finished true job_id
      progress_stream stream_end w = (Returned tt, w')
    ∧ get_job job_id (jobs_table w') = Some j'
    ∧ status j' = FAILED
    ∧ error_message j'
      = Some (Py.strip (Py.replace (Py.replace ("ERROR: " +:+ Py.strip line) "ERROR:" "")
                          "FAILED:" "")).
Proof.
  intros Hj Hquiet Hparse Hs He Hstream.
  destruct (follow_log_quiet int percent quiet (line :: later) Hquiet) as (y1 & Hy1 & Hq).
  destruct (follow_log_error int percent line later Hparse Hs He) as (y2 & Hy2 & Hl).
  unfold monitored_run in Hstream. rewrite Hq, Hl in Hstream.
  cbn [fst snd _monitor_container] in Hstream.
  apply (execute_error_update float started finished job_id
           ("STATUS: Container started, initializing workflow..." :: y1 ++ y2)
           (Py.strip line) (container_exit_updates exit_code) progress_stream stream_end
           w j Hj).
  - constructor; [reflexivity|]. apply Forall_app. split; assumption.
  - rewrite Hstream. cbn [app]. rewrite <- !app_assoc. reflexivity.
Qed.

(** The container runs to a clean end, but one of its lines says
    "0 errors": the job is stored as failed. *)
Lemma log_error_line_fails_job_witness :
  ∃ w' j',
    execute_containerized_workflow Decimal.float 1 99 true "job-1"
      (timed 10 ["STATUS: Container started, initializing workflow...";
                 "PROGRESS: 50.0% (1/2 tasks)"; "ERROR: Validation finished, 0 errors";
                 "COMPLETED: Workflow execution finished successfully"])
      Exhausted (world_of submitted no_files) = (Returned tt, w')
    ∧ get_job "job-1" (jobs_table w') = Some j'
    ∧ status j' = FAILED
    ∧ error_message j' = Some "Validation finished, 0 errors".
Proof.
  apply (log_error_line_fails_job DecimalText.int DecimalText.percent Decimal.float 1 99
           "job-1" ["Starting task 1/2"] "Validation finished, 0 errors "
           ["Starting task 2/2"] 0 _ Exhausted (world_of submitted no_files)
           (mkJob "job-1" "sol" PENDING 0 None None "{}" "job-1_dem.tif" None 0)).
  - vm_compute. reflexivity.
  - constructor; [|constructor]. split; [eexists; vm_compute; reflexivity|].
    split; vm_compute; reflexivity.
  - eexists. vm_compute. reflexivity.
  - vm_compute. reflexivity.
  - vm_compute. reflexivity.
  - vm_compute. reflexivity.
Defined.

(** A line "Starting task c/0" makes [_parse_progress] raise
    ZeroDivisionError, which its handler does not catch: the monitoring
    ends there and the job is stored FAILED with "Monitoring failed:
    division by zero", whatever the container does afterwards. *)
Theorem zero_total_fails_job (int : string → option Z) (percent : Z → Z → option string)
    (float : string → option Q) (started finished : Z) (job_id : string)
    (quiet : list string) (line : string) (later : list string) (exit_code : Z)
    (words_before words_after : list string) (current total : string) (c : Z)
    (progress_stream : list ProgressUpdate) (stream_end : StreamEnd) (w : World) (j : Job) :
  get_job job_id (jobs_table w) = Some j →
  Forall (passes_quietly int percent) quiet →
  Py.contains "Starting task" (Py.strip line) = true →
  PyWords.split (Py.strip line) = words_before ++ (current +:+ "/" +:+ total) :: words_after →
  Forall (λ part, Py.contains "/" part = false) words_before →
  Py.contains "/" current = false →
  Py.contains "/" total = false →
  int current = Some c →
  int total = Some 0%Z →
  text <$> progress_stream
  = _monitor_container (monitored_run int percent (quiet ++ line :: later) exit_code) →
  _parse_progress int percent (Py.strip line) = Raised "division by zero"
  ∧ ∃ w' j',
      execute_containerized_workflow float started finished true job_id
        progress_stream stream_end w = (Returned tt, w')
      ∧ get_job job_id (jobs_table w') = Some j'
      ∧ status j' = FAILED
      ∧ error_message j' = Some "Monitoring failed: division by zero".
Proof.
  intros Hj Hquiet Hstart Hsplit Hbefore Hc Ht Hic Hit Hstream.
  assert (Hslash : Py.contains "/" (Py.strip line) = true).
  { destruct (split_from_slash (Py.strip line) "" (current +:+ "/" +:+ total)) as [H|H];
      [| |discriminate H|exact H].
    - fold (PyWords.split (Py.strip line)). rewrite Hsplit.
      apply elem_of_app. right. apply elem_of_cons. left. reflexivity.
    - rewrite contains_char_app, contains_char_app, Hc. reflexivity. }
  assert (Hparse : _parse_progress int percent (Py.strip line) = Raised "division by zero").
  { unfold _parse_progress. rewrite Hstart, Hslash. cbn [andb]. rewrite Hsplit.
    exact (task_progress_zero int percent _ _ _ _ c Hbefore Hc Ht Hic Hit). }
  split; [exact Hparse|].
  assert (Hne : Py.strip line ≠ "").
  { intros Hempty. rewrite Hempty in Hstart. discriminate Hstart. }
  destruct (follow_log_quiet int percent quiet (line :: later) Hquiet) as (y1 & Hy1 & Hq).
  unfold monitored_run in Hstream.
  rewrite Hq, (follow_log_raise int percent line later _ Hne Hparse) in Hstream.
  cbn [fst snd _monitor_container] in Hstream. rewrite app_nil_r in Hstream.
  apply (execute_error_update float started finished job_id
           ("STATUS: Container started, initializing workflow..." :: y1)
           "Monitoring failed: division by zero" [] progress_stream stream_end w j Hj).
  - constructor; [reflexivity | exact Hy1].
  - rewrite Hstream. reflexivity.
Qed.

(** The log of a container that announces the first of zero tasks. *)
Lemma zero_total_fails_job_witness :
  _parse_progress DecimalText.int DecimalText.percent "Starting task 1/0"
  = Raised "division by zero"
  ∧ ∃ w' j',
      execute_containerized_workflow Decimal.float 1 99 true "job-1"
        (timed 10 ["STATUS: Container started, initializing workflow...";
                   "STATUS: Processing DEM";
                   "ERROR: Monitoring failed: division by zero"])
        Exhausted (world_of submitted no_files) = (Returned tt, w')
      ∧ get_job "job-1" (jobs_table w') = Some j'
      ∧ status j' = FAILED
      ∧ error_message j' = Some "Monitoring failed: division by zero".
Proof.
  apply (zero_total_fails_job DecimalText.int DecimalText.percent Decimal.float 1 99
           "job-1" ["Processing DEM"] "Starting task 1/0" ["Starting task 1/1"] 0
           ["Starting"; "task"] [] "1" "0" 1 _ Exhausted (world_of submitted no_files)
           (mkJob "job-1" "sol" PENDING 0 None None "{}" "job-1_dem.tif" None 0)).
  - vm_compute. reflexivity.
  - constructor; [|constructor]. split; [eexists; vm_compute; reflexivity|].
    split; vm_compute; reflexivity.
  - vm_compute. reflexivity.
  - vm_compute. reflexivity.
  - repeat constructor.
  - vm_compute. reflexivity.
  - vm_compute. reflexivity.
  - vm_compute. reflexivity.
  - vm_compute. reflexivity.
  - vm_compute. reflexivity.
Defined.

(** Only a "Starting task" line can move the stored progress: what
    [_parse_progress] makes of any other line (the count of a Makeflow
    "COMPLETED n jobs" line, the STATUS: of a stage) is read by the
    supervision loop without a write, and it is never a COMPLETED:, ERROR:
    or FAILED: marker. *)
Theorem only_task_lines_move_progress (int : string → option Z)
    (percent : Z → Z → option string) (float : string → option Q) (log_line info : string)
    (job_id : string) (last_progress : Q) (now : Z) (later : list ProgressUpdate)
    (w : World) :
  Py.contains "Starting task" log_line && Py.contains "/" log_line = false →
  _parse_progress int percent log_line = Returned (Some info) →
  is_terminal_marker info = false
  ∧ consume float job_id last_progress (mkUpdate now info :: later) w
    = consume float job_id last_progress later w.
Proof.
  intros Hbranch Hparse. split; [exact (parse_progress_not_marker _ _ _ _ Hparse)|].
  apply consume_passes_over. revert Hparse. unfold _parse_progress. rewrite Hbranch.
  destruct (Py.contains "COMPLETED" log_line && Py.contains "jobs" log_line).
  { intros [= H]. left. exact (makeflow_progress_update _ _ _ H). }
  destruct (existsb _ workflow_stages); [|discriminate].
  intros [= <-]. right. exists log_line. reflexivity.
Qed.

(** Makeflow reports 45 finished jobs: the stored progress stays where it is. *)
Lemma only_task_lines_move_progress_witness :
  is_terminal_marker "PROGRESS: 45 tasks completed" = false
  ∧ consume Decimal.float "job-1" 0 [mkUpdate 10 "PROGRESS: 45 tasks completed"]
      (world_of accepted no_files)
    = consume Decimal.float "job-1" 0 [] (world_of accepted no_files).
Proof.
  apply (only_task_lines_move_progress DecimalText.int DecimalText.percent Decimal.float
           "makeflow: COMPLETED 45 jobs" "PROGRESS: 45 tasks completed" "job-1" 0 10 []
           (world_of accepted no_files)).
  - vm_compute. reflexivity.
  - vm_compute. reflexivity.
Defined.

(** ** A log without error *)

Lemma follow_log_success (int : string → option Z) (percent : Z → Z → option string)
    (line : string) (later : list string) :
  (∃ progress_info, _parse_progress int percent (Py.strip line) = Returned progress_info) →
  reports_success (Py.strip line) = true →
  ∃ yielded,
    Forall (λ update, is_terminal_marker update = false) yielded
    ∧ follow_log int percent (line :: later) = (yielded, None).
Proof.
  intros [info Hparse] Hs. cbn [follow_log]. cbv zeta.
  destruct (Py.strip line) as [|a text] eqn:Htext; [discriminate Hs|].
  rewrite Hparse, Hs. eexists. split; [|reflexivity].
  apply Forall_app. split; [|repeat constructor].
  destruct info as [[|c s]|]; [constructor | | constructor].
  constructor; [|constructor]. exact (parse_progress_not_marker _ _ _ _ Hparse).
Qed.

(** When no line of the log mentions "error" or "failed" and
    [_parse_progress] raises on none, the exit code of the container decides:
    code 0 stores the job COMPLETED at 100, any other code stores it FAILED
    with "Container exited with code <N>".  A line "workflow completed
    successfully" ends the reading of the log but decides nothing: with a
    non-zero exit code the job is FAILED all the same. *)
Theorem clean_log_follows_exit_code (int : string → option Z)
    (percent : Z → Z → option string) (float : string → option Q)
    (started finished : Z) (job_id : string) (quiet ending : list string) (exit_code : Z)
    (progress_stream : list ProgressUpdate) (stream_end : StreamEnd) (w : World) (j : Job) :
  get_job job_id (jobs_table w) = Some j →
  Forall (passes_quietly int percent) quiet →
  ending = []
  ∨ (∃ line later,
       ending = line :: later
       ∧ (∃ progress_info,
            _parse_progress int percent (Py.strip line) = Returned progress_info)
       ∧ reports_success (Py.strip line) = true) →
  text <$> progress_stream
  = _monitor_container (monitored_run int percent (quiet ++ ending) exit_code) →
  ∃ w' j',
    execute_containerized_workflow float started finished true job_id
      progress_stream stream_end w = (Returned tt, w')
    ∧ get_job job_id (jobs_table w') = Some j'
    ∧ (exit_code = 0%Z → status j' = COMPLETED ∧ progress j' = 100%Z)
    ∧ (exit_code ≠ 0%Z →
       status j' = FAILED
       ∧ error_message j' = Some ("Container exited with code " +:+ Py.str exit_code)).
Proof.
  intros Hj Hquiet Hending Hstream.
  destruct (follow_log_quiet int percent quiet ending Hquiet) as (y1 & Hy1 & Hq).
  assert (Hend : ∃ y2, Forall (λ update, is_terminal_marker update = false) y2
                       ∧ follow_log int percent ending = (y2, None)).
  { destruct Hending as [->|(line & later & -> & Hparse & Hs)].
    - exists []. split; [constructor | reflexivity].
    - exact (follow_log_success int percent line later Hparse Hs). }
  destruct Hend as (y2 & Hy2 & Hl).
  unfold monitored_run in Hstream. rewrite Hq, Hl in Hstream.
  cbn [fst snd _monitor_container] in Hstream.
  apply (execute_container_exit float started finished job_id
           ("STATUS: Container started, initializing workflow..." :: y1 ++ y2) exit_code
           progress_stream stream_end w j Hj).
  - constructor; [reflexivity|]. apply Forall_app. split; assumption.
  - rewrite Hstream. reflexivity.
Qed.

(** The log ends with "Workflow completed successfully", the container
    exits with code 1. *)
Lemma clean_log_follows_exit_code_witness :
  ∃ w' j',
    execute_containerized_workflow Decimal.float 1 99 true "job-1"
      (timed 10 ["STATUS: Container started, initializing workflow...";
                 "PROGRESS: 100.0% (2/2 tasks)";
                 "STATUS: Workflow completed successfully";
                 "FAILED: Container exited with code 1"])
      Exhausted (world_of submitted no_files) = (Returned tt, w')
    ∧ get_job "job-1" (jobs_table w') = Some j'
    ∧ status j' = FAILED
    ∧ error_message j' = Some "Container exited with code 1".
Proof.
  destruct (clean_log_follows_exit_code DecimalText.int DecimalText.percent Decimal.float
              1 99 "job-1" ["Starting task 2/2"]
              ["Workflow completed successfully"; "cleaning up"] 1
              (timed 10 ["STATUS: Container started, initializing workflow...";
                         "PROGRESS: 100.0% (2/2 tasks)";
                         "STATUS: Workflow completed successfully";
                         "FAILED: Container exited with code 1"])
              Exhausted (world_of submitted no_files)
              (mkJob "job-1" "sol" PENDING 0 None None "{}" "job-1_dem.tif" None 0)
              ltac:(vm_compute; reflexivity)) as (w' & j' & He & Hg & _ & Hfailed).
  - constructor; [|constructor]. split; [eexists; vm_compute; reflexivity|].
    split; vm_compute; reflexivity.
  - right. exists "Workflow completed successfully", ["cleaning up"].
    split; [reflexivity|]. split; [eexists; vm_compute; reflexivity|].
    vm_compute. reflexivity.
  - vm_compute. reflexivity.
  - destruct Hfailed as [H1 H2]; [discriminate|].
    exists w', j'. split; [exact He|]. split; [exact Hg|]. split; [exact H1 | exact H2].
Defined.
